(** * RES_Checker: resume / job-description analysis engine

    A shallow embedding of the text-feature extraction and scoring code of
    the NestJS services

      - [src/common/nlp/nlp.service.ts]                (module [NlpService])
      - [src/job-description/job-description.service.ts] (module [JobDescriptionService])
      - [src/resume/resume.service.ts]                 (module [ResumeService])
      - [src/skills/skills.service.ts]                 (module [SkillsService])

    together with the properties of the specification that concern them.

    Conventions of the embedding.

      - A JavaScript string is a [string]: a sequence of 8-bit code units
        (the ISO-8859-1 range of UTF-16).  [toLowerCase], [trim] and the
        character classes of the regular expressions are written out for
        that range.
      - A JavaScript number holding a count is an exact [Z]; a finite
        double is the rational [Q] it denotes, and [Math.round x] is
        [Qfloor (x + 1/2)].  The quotients, products and sums of
        [calculateMatchScore] are rounded to the nearest double after
        every operation ([JS.fdiv], [JS.fmul], [JS.fadd]); the components
        of [calculateOverallScore] are written as exact rationals.
        Numbers that may be [NaN] ([parseInt], the sentiment score) use
        [number] / [option Q].
      - Regular-expression literals are values of [Regex.regex], run by a
        backtracking matcher that follows the ECMAScript matching order
        (leftmost start, alternatives left to right, greedy or lazy
        quantifiers).
      - The npm packages [natural] and [compromise] are not part of the
        repository; what the services call from them is the interface
        [Natural] / [Compromise], over which every definition is
        parametrised.
      - The [TfIdf] object held by [NlpService] is mutable state shared by
        all calls: the operations that touch it take and return the service
        state. *)

From Stdlib Require Import Bool Arith ZArith QArith Qround Qminmax Lia Lqa.
From Stdlib Require Import List String Ascii.
From Stdlib Require Import Permutation Sorted DecimalString.
From Stdlib Require SpecFloat.
Import ListNotations.

Close Scope Q_scope.
Local Open Scope nat_scope.
Local Open Scope string_scope.
Local Open Scope list_scope.

(* ================================================================== *)
(** * JavaScript strings and numbers *)
(* ================================================================== *)

Module JS.

(** [Number]s that may be [NaN]. *)
Inductive number : Type :=
| Num (z : Z)
| NaN.

(** [x >= k], [x > k], [x === k]: every comparison with [NaN] is false. *)
Definition geq (x : number) (k : Z) : bool :=
  match x with Num z => (k <=? z)%Z | NaN => false end.
Definition gt (x : number) (k : Z) : bool :=
  match x with Num z => (k <? z)%Z | NaN => false end.
Definition strict_eq (x : number) (k : Z) : bool :=
  match x with Num z => (z =? k)%Z | NaN => false end.

Definition code (c : ascii) : nat := nat_of_ascii c.

Definition between (lo hi n : nat) : bool :=
  ((lo <=? n)%nat && (n <=? hi)%nat)%bool.

Definition is_upper (c : ascii) : bool :=
  between 65 90 (code c)
  || (between 192 222 (code c) && negb (code c =? 215)%nat).

Definition lower_char (c : ascii) : ascii :=
  if is_upper c then ascii_of_nat (code c + 32) else c.

(** [String.prototype.toLowerCase] *)
Fixpoint toLowerCase (s : string) : string :=
  match s with
  | EmptyString => EmptyString
  | String c s' => String (lower_char c) (toLowerCase s')
  end.

(** A code unit with the letters A-Z in lower case and every other one
    as it is.  Under the [i] flag of a pattern without the [u] flag, this
    is all the case folding a pattern letter a-z stands for: the letter
    itself and its capital. *)
Definition lower_ascii_char (c : ascii) : ascii :=
  if between 65 90 (code c) then ascii_of_nat (code c + 32) else c.

Fixpoint lowerASCII (s : string) : string :=
  match s with
  | EmptyString => EmptyString
  | String c s' => String (lower_ascii_char c) (lowerASCII s')
  end.

Definition is_digit (c : ascii) : bool := between 48 57 (code c).

(** White space and line terminators, as [trim] and [\s] see them. *)
Definition is_space (c : ascii) : bool :=
  between 9 13 (code c) || (code c =? 32)%nat || (code c =? 160)%nat.

Definition is_line_terminator (c : ascii) : bool :=
  (code c =? 10)%nat || (code c =? 13)%nat.

Fixpoint startsWith (s pre : string) {struct pre} : bool :=
  match pre, s with
  | EmptyString, _ => true
  | String a pre', String b s' => Ascii.eqb a b && startsWith s' pre'
  | String _ _, EmptyString => false
  end.

(** Position of the first occurrence of [sub] in [s], if any. *)
Fixpoint find_sub (s sub : string) : option nat :=
  if startsWith s sub then Some 0
  else match s with
       | EmptyString => None
       | String _ s' => option_map S (find_sub s' sub)
       end.

(** [s.indexOf(sub)]: [-1] when [sub] does not occur. *)
Definition indexOf (s sub : string) : Z :=
  match find_sub s sub with
  | Some i => Z.of_nat i
  | None => (-1)%Z
  end.

(** [s.includes(sub)] *)
Definition includes (s sub : string) : bool :=
  match find_sub s sub with Some _ => true | None => false end.

Fixpoint take (n : nat) (s : string) : string :=
  match n, s with
  | S n', String c s' => String c (take n' s')
  | _, _ => EmptyString
  end.

Fixpoint drop (n : nat) (s : string) : string :=
  match n, s with
  | S n', String _ s' => drop n' s'
  | _, _ => s
  end.

Definition clamp (len : nat) (i : Z) : nat :=
  Z.to_nat (Z.max 0 (Z.min i (Z.of_nat len))).

(** [s.substring(a, b)]: both ends clamped to [0 .. length], swapped when
    [a > b]. *)
Definition substring (s : string) (a b : Z) : string :=
  let a' := clamp (String.length s) a in
  let b' := clamp (String.length s) b in
  let lo := Nat.min a' b' in
  let hi := Nat.max a' b' in
  take (hi - lo) (drop lo s).

Fixpoint trimStart (s : string) : string :=
  match s with
  | String c s' => if is_space c then trimStart s' else s
  | EmptyString => EmptyString
  end.

Fixpoint trimEnd (s : string) : string :=
  match s with
  | EmptyString => EmptyString
  | String c s' =>
      match trimEnd s' with
      | EmptyString => if is_space c then EmptyString else String c EmptyString
      | t => String c t
      end
  end.

(** [s.trim()] *)
Definition trim (s : string) : string := trimEnd (trimStart s).

(** [s.split('\n')]: always at least one piece. *)
Fixpoint split_lines (s : string) : list string :=
  match s with
  | EmptyString => [EmptyString]
  | String c s' =>
      if (code c =? 10)%nat then EmptyString :: split_lines s'
      else match split_lines s' with
           | l :: ls => String c l :: ls
           | [] => [String c EmptyString]
           end
  end.

(** [xs.join(sep)] *)
Fixpoint join (sep : string) (xs : list string) : string :=
  match xs with
  | [] => EmptyString
  | [x] => x
  | x :: rest => x ++ sep ++ join sep rest
  end.

(** [xs.slice(0, n)] for [n >= 0]. *)
Definition slice0 {A : Type} (n : nat) (xs : list A) : list A := firstn n xs.

(** [xs.includes(x)] on an array of strings. *)
Definition mem (x : string) (xs : list string) : bool :=
  existsb (String.eqb x) xs.

(** [[...new Set(xs)]]: the distinct elements in order of first
    appearance. *)
Fixpoint uniq_acc (seen xs : list string) : list string :=
  match xs with
  | [] => []
  | x :: rest =>
      if mem x seen then uniq_acc seen rest
      else x :: uniq_acc (x :: seen) rest
  end.

Definition uniq (xs : list string) : list string := uniq_acc [] xs.

Fixpoint digits_value (acc : Z) (s : string) : Z :=
  match s with
  | String c s' =>
      if is_digit c
      then digits_value (10 * acc + Z.of_nat (code c - 48))%Z s'
      else acc
  | EmptyString => acc
  end.

(** [parseInt(s)] on a string that carries no sign, blank or radix
    prefix: the value of the leading run of decimal digits, [NaN] when
    there is none.  The value is kept exact; the code holds the double
    nearest to it, which is the same number below 2^53. *)
Definition parseInt (s : string) : number :=
  match s with
  | String c _ => if is_digit c then Num (digits_value 0 s) else NaN
  | EmptyString => NaN
  end.

(** [String(n)] for a count. *)
Definition toString (n : nat) : string :=
  NilEmpty.string_of_uint (Nat.to_uint n).

(** A text between double quotes. *)
Definition quoted (s : string) : string :=
  String (ascii_of_nat 34) (s ++ String (ascii_of_nat 34) EmptyString).

(** [Math.round] *)
Definition round (x : Q) : Z := Qfloor (x + (1 # 2))%Q.

(** ** Doubles

    A finite IEEE 754 binary64 number is written as the rational it
    denotes.  [fl x] is the double nearest to [x], a tie going to the even
    significand: around [x] the doubles are the multiples of
    [pow2 (ulp_exp x)], which leaves 53 significant bits and is never finer
    than 2^-1074.  [/], [*] and [+] on doubles return the rounded exact
    result.  [Infinity] (from 2^1024 on) and the division by zero are not
    represented: the code written with these operators divides by a
    positive count and stays below 100. *)

(** 2^k *)
Definition pow2 (k : Z) : Q :=
  if (0 <=? k)%Z then inject_Z (2 ^ k) else (1 # Z.to_pos (2 ^ (- k))).

(** For [0 < x], the [e] with [2^e <= x < 2^(e+1)]. *)
Definition floor_log2 (x : Q) : Z :=
  let d := (Z.log2 (Qnum x) - Z.log2 (Zpos (Qden x)))%Z in
  if Qle_bool (pow2 d) x then d else (d - 1)%Z.

(** The exponent of the last place of the doubles around [x]. *)
Definition ulp_exp (x : Q) : Z := Z.max (floor_log2 x - 52) (-1074).

(** The nearest integer, a tie going to the even one. *)
Definition rint (x : Q) : Z :=
  let f := Qfloor x in
  match ((x - inject_Z f) ?= (1 # 2))%Q with
  | Lt => f
  | Gt => (f + 1)%Z
  | Eq => if Z.even f then f else (f + 1)%Z
  end.

Definition nearest (x : Q) : Q :=
  let k := ulp_exp x in
  (inject_Z (rint (x * pow2 (- k))) * pow2 k)%Q.

(** The double nearest to [x], in lowest terms. *)
Definition fl (x : Q) : Q :=
  let x := Qred x in
  match Qnum x with
  | Z0 => 0%Q
  | Zpos _ => Qred (nearest x)
  | Zneg _ => Qred (- nearest (- x))
  end.

(** [a / b], [a * b] and [a + b] on doubles. *)
Definition fdiv (a b : Q) : Q := fl (a / b).
Definition fmul (a b : Q) : Q := fl (a * b).
Definition fadd (a b : Q) : Q := fl (a + b).

End JS.

(* ================================================================== *)
(** * binary64 as the Standard Library specifies it *)
(* ================================================================== *)

(** The operations of [SpecFloat] at 53 bits of precision and a largest
    exponent of 1024, with the rational a finite result denotes.  They
    serve to compare [JS.fdiv], [JS.fmul] and [JS.fadd] with the
    standard. *)
Module Binary64.

Definition ofCount (n : nat) : SpecFloat.spec_float :=
  SpecFloat.binary_normalize 53 1024 (Z.of_nat n) 0 false.

Definition toQ (f : SpecFloat.spec_float) : option Q :=
  match f with
  | SpecFloat.S754_zero _ => Some 0%Q
  | SpecFloat.S754_finite s m e =>
      Some (Qred ((if s then -1 else 1) * inject_Z (Zpos m) * JS.pow2 e)%Q)
  | SpecFloat.S754_infinity _ | SpecFloat.S754_nan => None
  end.

Definition div := SpecFloat.SFdiv 53 1024.
Definition mul := SpecFloat.SFmul 53 1024.
Definition add := SpecFloat.SFadd 53 1024.

(** [(m / t) * worth] *)
Definition points (m t worth : nat) : SpecFloat.spec_float :=
  mul (div (ofCount m) (ofCount t)) (ofCount worth).

End Binary64.

(* ================================================================== *)
(** * Regular expressions *)
(* ================================================================== *)

Module Regex.

(** The fragment of the ECMAScript pattern language that the services
    use.  [Star true r] is [r*], [Star false r] is [r*?]; [Group n r] is
    the [n]-th capturing group; [Bol] and [Eol] are [^] and [$] without
    the multiline flag. *)
Inductive regex : Type :=
| Eps : regex
| Chr (p : ascii -> bool) : regex
| Seq (r1 r2 : regex) : regex
| Alt (r1 r2 : regex) : regex
| Star (greedy : bool) (r : regex) : regex
| Group (n : nat) (r : regex) : regex
| Bol : regex
| Eol : regex.

Definition captures : Type := nat -> option string.

Definition no_captures : captures := fun _ => None.

Definition set_capture (n : nat) (v : string) (c : captures) : captures :=
  fun m => if (m =? n)%nat then Some v else c m.

(** A matcher state: how many code units have been consumed from the
    start of the input, what is left, and the groups captured so far. *)
Record state : Type := mkState {
  endIndex : nat;
  rest : string;
  caps : captures
}.

Definition continuation : Type := state -> option state.

(** The loop of a quantified sub-pattern whose single iteration is
    [step].  A greedy quantifier first tries one more iteration and falls
    back on the continuation; a lazy one does the opposite.  An iteration
    that consumes nothing is rejected, so the loop runs at most once per
    remaining code unit and [fuel] never runs out. *)
Fixpoint star_loop (step : state -> continuation -> option state)
         (greedy : bool) (k : continuation) (fuel : nat) (x : state)
  : option state :=
  match fuel with
  | O => k x
  | S fuel' =>
      let again := fun y =>
        if (endIndex x <? endIndex y)%nat
        then star_loop step greedy k fuel' y
        else None in
      if greedy then
        match step x again with
        | Some z => Some z
        | None => k x
        end
      else
        match k x with
        | Some z => Some z
        | None => step x again
        end
  end.

(** The backtracking matcher in continuation-passing style.  (None of
    the patterns below has a capturing group under a quantifier, so the
    reset of such groups between iterations is not modelled.) *)
Fixpoint run (r : regex) (x : state) (k : continuation) : option state :=
  match r with
  | Eps => k x
  | Chr p =>
      match rest x with
      | String c s' =>
          if p c then k (mkState (S (endIndex x)) s' (caps x)) else None
      | EmptyString => None
      end
  | Seq r1 r2 => run r1 x (fun y => run r2 y k)
  | Alt r1 r2 =>
      match run r1 x k with
      | Some z => Some z
      | None => run r2 x k
      end
  | Star greedy r1 =>
      star_loop (run r1) greedy k (S (String.length (rest x))) x
  | Group n r1 =>
      run r1 x (fun y =>
        k (mkState (endIndex y) (rest y)
             (set_capture n (JS.take (endIndex y - endIndex x) (rest x))
                (caps y))))
  | Bol => if (endIndex x =? 0)%nat then k x else None
  | Eol => match rest x with EmptyString => k x | String _ _ => None end
  end.

(** The match object of [exec] / [String.prototype.match]: [index], the
    matched text ([m[0]]) and the groups ([m[1]], [m[2]], ...; [None] is
    [undefined]). *)
Record matched : Type := mkMatched {
  index : nat;
  whole : string;
  after : string;
  group : captures
}.

Definition match_here (r : regex) (pos : nat) (s : string) : option matched :=
  match run r (mkState pos s no_captures) Some with
  | Some y =>
      Some (mkMatched pos (JS.take (endIndex y - pos) s) (rest y) (caps y))
  | None => None
  end.

(** Leftmost match: the start positions are tried from left to right. *)
Fixpoint exec_from (r : regex) (pos : nat) (s : string) : option matched :=
  match match_here r pos s with
  | Some m => Some m
  | None =>
      match s with
      | EmptyString => None
      | String _ s' => exec_from r (S pos) s'
      end
  end.

(** [s.match(r)] for a pattern without the global flag. *)
Definition exec (r : regex) (s : string) : option matched := exec_from r 0 s.

(** [r.test(s)] *)
Definition test (r : regex) (s : string) : bool :=
  match exec r s with Some _ => true | None => false end.

(** [s.replace(r, '')] for a pattern without the global flag. *)
Definition remove_first (r : regex) (s : string) : string :=
  match exec r s with
  | Some m => JS.take (index m) s ++ after m
  | None => s
  end.

(** ** Pattern combinators *)

(** A literal code unit; with the [i] flag both cases of a letter. *)
Definition chr (c : ascii) : regex := Chr (Ascii.eqb c).
Definition chr_i (c : ascii) : regex :=
  Chr (fun x => Ascii.eqb (JS.lower_char x) (JS.lower_char c)).

Fixpoint lit (s : string) : regex :=
  match s with
  | EmptyString => Eps
  | String c EmptyString => chr c
  | String c s' => Seq (chr c) (lit s')
  end.

Fixpoint lit_i (s : string) : regex :=
  match s with
  | EmptyString => Eps
  | String c EmptyString => chr_i c
  | String c s' => Seq (chr_i c) (lit_i s')
  end.

(** [\d], [\s] and [.] *)
Definition digit : regex := Chr JS.is_digit.
Definition space : regex := Chr JS.is_space.
Definition dot : regex := Chr (fun c => negb (JS.is_line_terminator c)).

(** [r?], [r+], [r+?] *)
Definition opt (r : regex) : regex := Alt r Eps.
Definition plus (r : regex) : regex := Seq r (Star true r).
Definition plus_lazy (r : regex) : regex := Seq r (Star false r).

(** [r1|r2|...] *)
Fixpoint alts (rs : list regex) : regex :=
  match rs with
  | [] => Eps
  | [r] => r
  | r :: rest => Alt r (alts rest)
  end.

(** [r1 r2 ...] *)
Fixpoint seqs (rs : list regex) : regex :=
  match rs with
  | [] => Eps
  | [r] => r
  | r :: rest => Seq r (seqs rest)
  end.

(** ** Declarative reading of a match

    [Matches r x y]: from state [x] the pattern [r] can consume input and
    capture groups so as to reach state [y]. *)
Inductive Matches : regex -> state -> state -> Prop :=
| M_Eps x : Matches Eps x x
| M_Chr p c s' x :
    rest x = String c s' -> p c = true ->
    Matches (Chr p) x (mkState (S (endIndex x)) s' (caps x))
| M_Seq r1 r2 x y z :
    Matches r1 x y -> Matches r2 y z -> Matches (Seq r1 r2) x z
| M_AltL r1 r2 x y : Matches r1 x y -> Matches (Alt r1 r2) x y
| M_AltR r1 r2 x y : Matches r2 x y -> Matches (Alt r1 r2) x y
| M_StarDone g r x : Matches (Star g r) x x
| M_StarStep g r x y z :
    Matches r x y -> (endIndex x < endIndex y)%nat ->
    Matches (Star g r) y z -> Matches (Star g r) x z
| M_Group n r x y :
    Matches r x y ->
    Matches (Group n r) x
      (mkState (endIndex y) (rest y)
         (set_capture n (JS.take (endIndex y - endIndex x) (rest x))
            (caps y)))
| M_Bol x : endIndex x = 0%nat -> Matches Bol x x
| M_Eol x : rest x = EmptyString -> Matches Eol x x.

(** The capturing groups that occur in a pattern. *)
Fixpoint groups (r : regex) : list nat :=
  match r with
  | Seq r1 r2 | Alt r1 r2 => groups r1 ++ groups r2
  | Star _ r1 => groups r1
  | Group n r1 => n :: groups r1
  | Eps | Chr _ | Bol | Eol => []
  end.

(** [binds n r]: every way of matching [r] goes through group [n]. *)
Fixpoint binds (n : nat) (r : regex) : bool :=
  match r with
  | Seq r1 r2 => binds n r1 || binds n r2
  | Alt r1 r2 => binds n r1 && binds n r2
  | Group m r1 => (m =? n)%nat || binds n r1
  | Star _ _ | Eps | Chr _ | Bol | Eol => false
  end.

End Regex.

(* ================================================================== *)
(** * The npm packages the services call *)
(* ================================================================== *)

(** What [NlpService] uses of the package [natural].

    - [tokenize] is [WordTokenizer.tokenize].
    - [buildDocument text] is the document that [TfIdf.addDocument] stores
      for [text]: its terms with the number of times each occurs, in the
      order in which [for (term in document)] enumerates them.
    - [idf n df] is the inverse document frequency of a term held by [df]
      of the [n] stored documents.
    - [getSentiment] is the AFINN analyzer over Porter stems; [None] is
      [NaN]. *)
Class Natural : Type := {
  tokenize : string -> list string;
  buildDocument : string -> list (string * nat);
  idf : nat -> nat -> Q;
  getSentiment : list string -> option Q
}.

(** What [NlpService] uses of the package [compromise]:
    [acronyms text] is [nlp(text).match('#Acronym').out('array')]. *)
Class Compromise : Type := {
  acronyms : string -> list string
}.

(** Functions that can raise a JavaScript [TypeError] (a method called on
    [undefined]) return a [result]. *)
Inductive result (A : Type) : Type :=
| Ok (a : A)
| TypeError.
Arguments Ok {A} a.
Arguments TypeError {A}.

Definition bind {A B : Type} (m : result A) (f : A -> result B) : result B :=
  match m with
  | Ok a => f a
  | TypeError => TypeError
  end.

Notation "x <- m ;; k" := (bind m (fun x => k))
  (at level 61, m at next level, right associativity).

(* ================================================================== *)
(** * src/common/nlp/nlp.service.ts *)
(* ================================================================== *)

Module TfIdf.

Definition document : Type := list (string * nat).

(** One entry of [listTerms]. *)
Record item : Type := mkItem {
  term : string;
  tfidf : Q
}.

Section WithNatural.
Context `{Natural}.

Definition documentHasTerm (t : string) (doc : document) : bool :=
  existsb (fun e => String.eqb (fst e) t) doc.

Definition docsWithTerm (t : string) (docs : list document) : nat :=
  List.length (filter (documentHasTerm t) docs).

(** [addDocument]: the new document goes to the end of [documents]. *)
Definition addDocument (docs : list document) (text : string)
  : list document :=
  docs ++ [buildDocument text].

(** Stable insertion of an entry into a list sorted by descending
    [tfidf]: [sort((x, y) => y.tfidf - x.tfidf)]. *)
Fixpoint insert_desc (x : item) (l : list item) : list item :=
  match l with
  | [] => [x]
  | y :: l' =>
      if Qlt_le_dec (tfidf x) (tfidf y) then y :: insert_desc x l'
      else x :: l
  end.

Definition sort_desc (l : list item) : list item :=
  fold_right insert_desc [] l.

(** [listTerms(d)]: the terms of the [d]-th document with their
    weights, heaviest first; nothing when there is no such document. *)
Definition listTerms (docs : list document) (d : nat) : list item :=
  match nth_error docs d with
  | Some doc =>
      sort_desc
        (map (fun e =>
                mkItem (fst e)
                  (inject_Z (Z.of_nat (snd e))
                   * idf (List.length docs) (docsWithTerm (fst e) docs))%Q)
           doc)
  | None => []
  end.

End WithNatural.

End TfIdf.

Module NlpService.

(** The service object: [tokenizer] is stateless; [tfidf] accumulates the
    documents it is given. *)
Record t : Type := mk {
  tfidf : list TfIdf.document
}.

(** [constructor()] *)
Definition create : t := mk [].

Definition techSkills : list string :=
  [ "javascript"; "python"; "java"; "react"; "angular"; "vue";
    "nodejs"; "nestjs"; "express"; "mongodb"; "sql"; "postgresql";
    "docker"; "kubernetes"; "aws"; "azure"; "gcp"; "git";
    "typescript"; "html"; "css"; "rest"; "graphql"; "api" ].

Definition softSkills : list string :=
  [ "leadership"; "communication"; "teamwork"; "problem solving";
    "analytical"; "creative"; "management"; "collaboration" ].

Definition allSkills : list string := techSkills ++ softSkills.

Record Sentiment : Type := mkSentiment {
  score : option Q;
  assessment : string
}.

Import Regex.

(** The section patterns of [extractSections], all with the [i] flag. *)
Definition sectionPatterns : list (string * regex) :=
  [ ("summary", alts [lit_i "summary"; lit_i "objective"; lit_i "profile"]);
    ("experience",
      alts [lit_i "experience"; lit_i "employment"; lit_i "work history"]);
    ("education",
      alts [lit_i "education"; lit_i "academic"; lit_i "degree";
            lit_i "university"]);
    ("skills", alts [lit_i "skills"; lit_i "technical"; lit_i "competencies"]);
    ("projects", alts [lit_i "projects"; lit_i "portfolio"]);
    ("certifications",
      alts [lit_i "certification"; lit_i "certificate"; lit_i "licensed"]);
    ("achievements", alts [lit_i "achievement"; lit_i "award"; lit_i "honor"]);
    ("contact",
      alts [lit_i "email"; lit_i "phone"; lit_i "linkedin"; lit_i "github"]) ].

(** [/(\d+)\+?\s*years?/i], [/(\d+)\+?\s*yrs?/i] and
    [/(\d+)\s*-\s*(\d+)\s*years?/i] *)
Definition experiencePatterns : list regex :=
  [ seqs [Group 1 (plus digit); opt (chr "+"); Star true space;
          lit_i "year"; opt (chr_i "s")];
    seqs [Group 1 (plus digit); opt (chr "+"); Star true space;
          lit_i "yr"; opt (chr_i "s")];
    seqs [Group 1 (plus digit); Star true space; chr "-"; Star true space;
          Group 2 (plus digit); Star true space;
          lit_i "year"; opt (chr_i "s")] ].

(** [parseInt(match[1])]; [parseInt(undefined)] is [NaN]. *)
Definition parseInt_group (m : matched) (n : nat) : JS.number :=
  match group m n with
  | Some d => JS.parseInt d
  | None => JS.NaN
  end.

(** [extractExperience]: the first pattern, in the order of the list,
    that matches somewhere in the text decides. *)
Fixpoint first_match (patterns : list regex) (text : string)
  : option matched :=
  match patterns with
  | [] => None
  | p :: ps =>
      match exec p text with
      | Some m => Some m
      | None => first_match ps text
      end
  end.

Definition extractExperience (text : string) : JS.number :=
  match first_match experiencePatterns text with
  | Some m => parseInt_group m 1
  | None => JS.Num 0
  end.

(** [extractSections] *)
Definition extractSections (text : string) : list (string * bool) :=
  map (fun e => (fst e, test (snd e) text)) sectionPatterns.

(** [sections[name]], read as a condition: a missing key is falsy. *)
Definition has_section (sections : list (string * bool)) (name : string)
  : bool :=
  match find (fun e => String.eqb (fst e) name) sections with
  | Some e => snd e
  | None => false
  end.

Section WithPackages.
Context `{Natural} `{Compromise}.

(** [extractKeywords(text, topN)].  The document is added to the
    [TfIdf] object of the service; the terms listed are those of
    document [0]. *)
Definition extractKeywords (svc : t) (text : string) (topN : nat)
  : list string * t :=
  let docs := TfIdf.addDocument (tfidf svc) (JS.toLowerCase text) in
  let keywords :=
    filter (fun it => (3 <? String.length (TfIdf.term it))%nat)
      (TfIdf.listTerms docs 0) in
  (map TfIdf.term (JS.slice0 topN (TfIdf.sort_desc keywords)), mk docs).

(** [extractSkills(text)]: the lexicon entries that occur in the
    lower-cased text, then the acronyms longer than two code units,
    each once. *)
Definition extractSkills (text : string) : list string :=
  let lowerText := JS.toLowerCase text in
  let fromLexicon := filter (fun skill => JS.includes lowerText skill)
                       allSkills in
  let capitalizedPhrases :=
    filter (fun phrase => (2 <? String.length phrase)%nat)
      (acronyms text) in
  JS.uniq (fromLexicon ++ capitalizedPhrases).

(** [analyzeSentiment(text)] *)
Definition analyzeSentiment (text : string) : Sentiment :=
  let tokens := tokenize (JS.toLowerCase text) in
  let score := getSentiment tokens in
  let assessment :=
    match score with
    | Some q =>
        if Qlt_le_dec (3 # 10) q then "positive"
        else if Qlt_le_dec q (- (3 # 10)) then "negative"
        else "neutral"
    | None => "neutral"
    end in
  mkSentiment score assessment.

End WithPackages.

End NlpService.

(* ================================================================== *)
(** * src/job-description/job-description.service.ts *)
(* ================================================================== *)

Module JobDescriptionService.

Import Regex.

Record ExperienceLevel : Type := mkExperienceLevel {
  minimum : JS.number;
  preferred : JS.number;
  level : string
}.

(** [matchScore] and [recommendations] are optional: they are present
    only in the result of [compareResumeWithJob]. *)
Record JobAnalysis : Type := mkJobAnalysis {
  role : string;
  requiredSkills : list string;
  preferredSkills : list string;
  experienceLevel : ExperienceLevel;
  keywords : list string;
  responsibilities : list string;
  qualifications : list string;
  matchScore : option Z;
  recommendations : option (list string)
}.

Record SkillSplit : Type := mkSkillSplit {
  required : list string;
  preferred_ : list string
}.

(** [/(?:position|role|title|job)\s*:?\s*(.+)/i] and
    [/hiring\s+(?:a|an)?\s*(.+?)(?:\s+to|\s+for|$)/i] *)
Definition rolePatterns : list regex :=
  [ seqs [alts [lit_i "position"; lit_i "role"; lit_i "title"; lit_i "job"];
          Star true space; opt (chr ":"); Star true space;
          Group 1 (plus dot)];
    seqs [lit_i "hiring"; plus space; opt (alts [lit_i "a"; lit_i "an"]);
          Star true space; Group 1 (plus_lazy dot);
          alts [Seq (plus space) (lit_i "to");
                Seq (plus space) (lit_i "for");
                Eol]] ].

(** [/^[A-Z]/] *)
Definition startsCapital : regex :=
  Seq Bol (Chr (fun c => JS.between 65 90 (JS.code c))).

(** The inner loop of [extractRole] over the patterns: [None] when no
    pattern matches the line, otherwise [match[1].trim()]. *)
Fixpoint roleOfLine (patterns : list regex) (line : string)
  : option (result string) :=
  match patterns with
  | [] => None
  | p :: ps =>
      match exec p line with
      | Some m =>
          Some (match group m 1 with
                | Some g => Ok (JS.trim g)
                | None => TypeError
                end)
      | None => roleOfLine ps line
      end
  end.

(** The outer loop of [extractRole] over the lines. *)
Fixpoint roleOfLines (lines : list string) : result string :=
  match lines with
  | [] => Ok "Not specified"
  | line :: rest =>
      match roleOfLine rolePatterns line with
      | Some r => r
      | None =>
          if (String.length line <? 50)%nat && test startsCapital line
          then Ok (JS.trim line)
          else roleOfLines rest
      end
  end.

Definition extractRole (jobText : string) : result string :=
  let lines :=
    filter (fun line => (0 <? String.length (JS.trim line))%nat)
      (JS.split_lines jobText) in
  roleOfLines (JS.slice0 5 lines).

Definition requiredSignal (context : string) : bool :=
  JS.includes context "required"
  || JS.includes context "must have"
  || JS.includes context "essential".

Definition preferredSignal (context : string) : bool :=
  JS.includes context "preferred"
  || JS.includes context "nice to have"
  || JS.includes context "bonus".

(** The text that surrounds position [skillIndex]: 100 code units before
    it and 100 from it on. *)
Definition contextAround (lowerText : string) (skillIndex : Z) : string :=
  let start := Z.max 0 (skillIndex - 100) in
  let end_ := Z.min (Z.of_nat (String.length lowerText)) (skillIndex + 100) in
  JS.substring lowerText start end_.

(** Where the body of the [forEach] of [extractSkills] puts a skill. *)
Inductive Bucket : Type := Required | Preferred | Skipped.

(** The decision taken for one skill: skipped when it does not occur in the
    lower-cased text, otherwise decided by the text around its first
    occurrence, with [required] as the default. *)
Definition bucketOf (lowerText skill : string) : Bucket :=
  let skillIndex := JS.indexOf lowerText (JS.toLowerCase skill) in
  if (skillIndex =? -1)%Z then Skipped
  else
    let context := contextAround lowerText skillIndex in
    if requiredSignal context then Required
    else if preferredSignal context then Preferred
    else Required.

(** The body of the [forEach] of [extractSkills]: the skill is pushed on
    [required] or on [preferred], or left out. *)
Definition classifySkill (lowerText : string)
           (acc : list string * list string) (skill : string)
  : list string * list string :=
  match bucketOf lowerText skill with
  | Required => (fst acc ++ [skill], snd acc)
  | Preferred => (fst acc, snd acc ++ [skill])
  | Skipped => acc
  end.

(** [/(\d+)\+?\s*years?.+?(?:preferred|ideal)/i] *)
Definition preferredYears : regex :=
  seqs [Group 1 (plus digit); opt (chr "+"); Star true space;
        lit_i "year"; opt (chr_i "s"); plus_lazy dot;
        alts [lit_i "preferred"; lit_i "ideal"]].

Definition levelOf (minYears : JS.number) : string :=
  if JS.geq minYears 8 then "Senior/Lead"
  else if JS.geq minYears 5 then "Senior"
  else if JS.geq minYears 3 then "Mid-Level"
  else if JS.geq minYears 1 then "Junior"
  else "Entry Level".

(** [extractExperienceLevel] *)
Definition extractExperienceLevel (jobText : string) : ExperienceLevel :=
  let minYears := NlpService.extractExperience jobText in
  let preferredMatch := exec preferredYears jobText in
  let preferred :=
    match preferredMatch with
    | Some m => NlpService.parseInt_group m 1
    | None => minYears
    end in
  mkExperienceLevel minYears preferred (levelOf minYears).

(** [/^[-•*\d.)\]]+\s*/]; the bullet U+2022 lies outside the 8-bit
    range. *)
Definition bulletPrefix : regex :=
  seqs [Bol;
        plus (Chr (fun c => JS.mem (String c EmptyString)
                               ["-"; "*"; "."; ")"; "]"]
                            || JS.is_digit c));
        Star true space].

(** The line scan shared by [extractResponsibilities] and
    [extractQualifications]: a line that matches [enter] opens the
    section, a line that matches [leave] inside the section ends the scan,
    every other line inside the section is kept when, without its bullet,
    it is longer than 20 and shorter than 200. *)
Fixpoint scanSection (enter leave : regex) (inSection : bool)
         (lines : list string) : list string :=
  match lines with
  | [] => []
  | line :: rest =>
      let trimmed := JS.trim line in
      if test enter trimmed then scanSection enter leave true rest
      else if inSection && test leave trimmed then []
      else if inSection then
        let cleaned := remove_first bulletPrefix trimmed in
        if (20 <? String.length cleaned)%nat
           && (String.length cleaned <? 200)%nat
        then cleaned :: scanSection enter leave inSection rest
        else scanSection enter leave inSection rest
      else scanSection enter leave inSection rest
  end.

(** [extractResponsibilities] *)
Definition extractResponsibilities (jobText : string) : list string :=
  JS.slice0 8
    (scanSection
       (alts [lit_i "responsibilities"; lit_i "duties"; lit_i "what you'll do"])
       (alts [lit_i "qualifications"; lit_i "requirements"; lit_i "skills"])
       false (JS.split_lines jobText)).

(** [extractQualifications] *)
Definition extractQualifications (jobText : string) : list string :=
  JS.slice0 8
    (scanSection
       (alts [lit_i "qualifications"; lit_i "requirements";
              lit_i "what we're looking for"])
       (alts [lit_i "responsibilities"; lit_i "about us"; lit_i "company"])
       false (JS.split_lines jobText)).

(** Bidirectional containment: some resume skill contains the wanted
    skill or is contained in it, case ignored. *)
Definition heldBy (resumeSkills : list string) (wanted : string) : bool :=
  existsb (fun resSkill =>
             JS.includes (JS.toLowerCase resSkill) (JS.toLowerCase wanted)
             || JS.includes (JS.toLowerCase wanted) (JS.toLowerCase resSkill))
    resumeSkills.

(** [calculateMatchScore]: the counts are array lengths, which are exact
    as doubles; every operation on them is rounded. *)
Definition calculateMatchScore
           (resumeSkills requiredSkills preferredSkills : list string) : Z :=
  let score := 0%Q in
  let totalRequired := List.length requiredSkills in
  let totalPreferred := List.length preferredSkills in
  if (totalRequired =? 0)%nat then 50%Z
  else
    let matchedRequired :=
      List.length (filter (heldBy resumeSkills) requiredSkills) in
    let score :=
      JS.fadd score
        (JS.fmul (JS.fdiv (inject_Z (Z.of_nat matchedRequired))
                    (inject_Z (Z.of_nat totalRequired)))
           70%Q) in
    let score :=
      if (0 <? totalPreferred)%nat then
        let matchedPreferred :=
          List.length (filter (heldBy resumeSkills) preferredSkills) in
        JS.fadd score
          (JS.fmul (JS.fdiv (inject_Z (Z.of_nat matchedPreferred))
                      (inject_Z (Z.of_nat totalPreferred)))
             30%Q)
      else JS.fadd score 30%Q in
    JS.round score.

(** [generateRecommendations] *)
Definition generateRecommendations
           (resumeSkills requiredSkills preferredSkills : list string)
  : list string :=
  let missingRequired :=
    filter (fun s => negb (heldBy resumeSkills s)) requiredSkills in
  let missingPreferred :=
    filter (fun s => negb (heldBy resumeSkills s)) preferredSkills in
  (if (0 <? List.length missingRequired)%nat then
     [ ("Critical: Add these required skills to your resume: "
          ++ JS.join ", " (JS.slice0 5 missingRequired))%string;
       "Consider taking online courses or building projects to gain these skills." ]
   else [])
  ++ (if (0 <? List.length missingPreferred)%nat then
        [ ("Enhance your profile with these preferred skills: "
             ++ JS.join ", " (JS.slice0 3 missingPreferred))%string ]
      else [])
  ++ [ "Tailor your resume to include keywords from this job description.";
       "Highlight projects or experiences that demonstrate the required skills." ].

Section WithPackages.
Context `{Natural} `{Compromise}.

(** [extractSkills] *)
Definition extractSkills (jobText : string) : SkillSplit :=
  let allSkills := NlpService.extractSkills jobText in
  let lowerText := JS.toLowerCase jobText in
  let buckets := fold_left (classifySkill lowerText) allSkills ([], []) in
  mkSkillSplit (JS.uniq (fst buckets)) (JS.uniq (snd buckets)).

(** [analyzeJobDescription] *)
Definition analyzeJobDescription (svc : NlpService.t) (jobText : string)
  : result JobAnalysis * NlpService.t :=
  match extractRole jobText with
  | TypeError => (TypeError, svc)
  | Ok role =>
      let skills := extractSkills jobText in
      let experienceLevel := extractExperienceLevel jobText in
      let (keywords, svc') := NlpService.extractKeywords svc jobText 20 in
      let responsibilities := extractResponsibilities jobText in
      let qualifications := extractQualifications jobText in
      (Ok (mkJobAnalysis role (required skills) (preferred_ skills)
             experienceLevel keywords responsibilities qualifications
             None None),
       svc')
  end.

(** [compareResumeWithJob] *)
Definition compareResumeWithJob (svc : NlpService.t)
           (resumeText jobText : string)
  : result JobAnalysis * NlpService.t :=
  match analyzeJobDescription svc jobText with
  | (TypeError, svc') => (TypeError, svc')
  | (Ok jobAnalysis, svc') =>
      let resumeSkills := NlpService.extractSkills resumeText in
      let matchScore :=
        calculateMatchScore resumeSkills (requiredSkills jobAnalysis)
          (preferredSkills jobAnalysis) in
      let recommendations :=
        generateRecommendations resumeSkills (requiredSkills jobAnalysis)
          (preferredSkills jobAnalysis) in
      (Ok (mkJobAnalysis (role jobAnalysis) (requiredSkills jobAnalysis)
             (preferredSkills jobAnalysis) (experienceLevel jobAnalysis)
             (keywords jobAnalysis) (responsibilities jobAnalysis)
             (qualifications jobAnalysis)
             (Some matchScore) (Some recommendations)),
       svc')
  end.

End WithPackages.

End JobDescriptionService.

(* ================================================================== *)
(** * src/common/data/skills-database.ts *)
(* ================================================================== *)

Module SkillsDatabase.

Record SkillCategory : Type := mkSkillCategory {
  category : string;
  skills : list string;
  relatedRoles : list string
}.

Definition SKILLS_DATABASE : list SkillCategory :=
  [ mkSkillCategory "Frontend Development"
      [ "HTML"; "CSS"; "JavaScript"; "TypeScript"; "React"; "Angular";
        "Vue.js"; "Redux"; "Webpack"; "Sass"; "Tailwind CSS"; "Bootstrap";
        "Next.js"; "Responsive Design"; "Web Accessibility" ]
      [ "Frontend Developer"; "UI Developer"; "Web Developer" ];
    mkSkillCategory "Backend Development"
      [ "Node.js"; "NestJS"; "Express.js"; "Python"; "Django"; "Flask";
        "Java"; "Spring Boot"; "PHP"; "Laravel"; "Ruby on Rails";
        "RESTful APIs"; "GraphQL"; "Microservices"; "Authentication" ]
      [ "Backend Developer"; "API Developer"; "Software Engineer" ];
    mkSkillCategory "Databases"
      [ "MongoDB"; "PostgreSQL"; "MySQL"; "Redis"; "SQLite";
        "Oracle"; "SQL Server"; "Database Design"; "Query Optimization";
        "NoSQL"; "Cassandra"; "DynamoDB" ]
      [ "Database Administrator"; "Backend Developer"; "Data Engineer" ];
    mkSkillCategory "DevOps & Cloud"
      [ "Docker"; "Kubernetes"; "AWS"; "Azure"; "Google Cloud Platform";
        "CI/CD"; "Jenkins"; "GitHub Actions"; "Terraform"; "Ansible";
        "Linux"; "Shell Scripting"; "Nginx"; "Monitoring" ]
      [ "DevOps Engineer"; "Cloud Engineer"; "Site Reliability Engineer" ];
    mkSkillCategory "Mobile Development"
      [ "React Native"; "Flutter"; "Swift"; "Kotlin"; "Android";
        "iOS"; "Xamarin"; "Mobile UI/UX"; "App Store Deployment";
        "Push Notifications"; "Offline Storage" ]
      [ "Mobile Developer"; "iOS Developer"; "Android Developer" ];
    mkSkillCategory "Data Science & AI"
      [ "Python"; "R"; "Machine Learning"; "TensorFlow"; "PyTorch";
        "Scikit-learn"; "Pandas"; "NumPy"; "Data Visualization";
        "SQL"; "Statistics"; "Deep Learning"; "NLP"; "Computer Vision" ]
      [ "Data Scientist"; "ML Engineer"; "AI Researcher" ];
    mkSkillCategory "Testing & QA"
      [ "Jest"; "Mocha"; "Cypress"; "Selenium"; "Pytest";
        "Unit Testing"; "Integration Testing"; "Test Automation";
        "Performance Testing"; "Security Testing"; "Bug Tracking" ]
      [ "QA Engineer"; "Test Automation Engineer"; "SDET" ];
    mkSkillCategory "Soft Skills"
      [ "Communication"; "Leadership"; "Team Collaboration";
        "Problem Solving"; "Critical Thinking"; "Time Management";
        "Adaptability"; "Project Management"; "Agile/Scrum"; "Mentoring" ]
      [ "All Roles" ];
    mkSkillCategory "Tools & Version Control"
      [ "Git"; "GitHub"; "GitLab"; "Bitbucket"; "JIRA"; "Confluence";
        "Slack"; "VS Code"; "IntelliJ IDEA"; "Postman"; "Figma" ]
      [ "All Technical Roles" ] ].

(** [getAllSkills] *)
Definition getAllSkills : list string := flat_map skills SKILLS_DATABASE.

(** [getSkillsByCategory]: the skills of the first category with that
    name, case ignored; none when there is no such category. *)
Definition getSkillsByCategory (name : string) : list string :=
  match find (fun db => String.eqb (JS.toLowerCase (category db))
                          (JS.toLowerCase name))
          SKILLS_DATABASE with
  | Some found => skills found
  | None => []
  end.

Definition holdsSkill (skill : string) (db : SkillCategory) : bool :=
  existsb (fun s => String.eqb (JS.toLowerCase s) (JS.toLowerCase skill))
    (skills db).

(** [findSkillCategory]: the name of the first category that holds the
    skill, case ignored; [None] is [null]. *)
Definition findSkillCategory (skill : string) : option string :=
  match find (holdsSkill skill) SKILLS_DATABASE with
  | Some db => Some (category db)
  | None => None
  end.

End SkillsDatabase.

(* ================================================================== *)
(** * src/resume/resume.service.ts *)
(* ================================================================== *)

Module ResumeService.

Record Sections : Type := mkSections {
  found : list string;
  missing : list string;
  recommendations : list string
}.

(** [byCategory] is an object keyed by category name; its entries are
    kept in insertion order. *)
Record Skills : Type := mkSkills {
  skills_found : list string;
  suggested : list string;
  byCategory : list (string * list string)
}.

Record Experience : Type := mkExperience {
  years : JS.number;
  level : string
}.

Record Sentiment : Type := mkSentiment {
  score : option Q;
  assessment : string;
  feedback : string
}.

Record ResumeAnalysis : Type := mkResumeAnalysis {
  overallScore : Z;
  sections : Sections;
  skills : Skills;
  experience : Experience;
  keywords : list string;
  sentiment : Sentiment;
  improvements : list string
}.

Definition requiredSections : list string :=
  [ "contact"; "summary"; "experience"; "education"; "skills" ].

Definition recommendedSections : list string :=
  [ "projects"; "certifications"; "achievements" ].

(** [analyzeSections] *)
Definition analyzeSections (resumeText : string) : Sections :=
  let extractedSections := NlpService.extractSections resumeText in
  let present := NlpService.has_section extractedSections in
  mkSections
    (filter present requiredSections ++ filter present recommendedSections)
    (filter (fun s => negb (present s)) requiredSections)
    (map (fun section =>
            ("Add a " ++ section
             ++ " section - this is essential for a complete resume")%string)
       (filter (fun s => negb (present s)) requiredSections)
     ++ map (fun section =>
               ("Consider adding a " ++ section
                ++ " section to strengthen your resume")%string)
          (filter (fun s => negb (present s)) recommendedSections)).

Definition lowerIn (names : list string) (s : string) : bool :=
  JS.mem (JS.toLowerCase s) names.

Definition lowerIncludes (part : string) (s : string) : bool :=
  JS.includes (JS.toLowerCase s) part.

(** The categories of [SKILLS_DATABASE] that hold one of the found
    skills, each with the found skills it holds. *)
Definition categorize (foundSkills : list string)
  : list (string * list string) :=
  flat_map
    (fun category =>
       let categorySkills :=
         filter (fun skill =>
                   existsb (fun s => String.eqb (JS.toLowerCase s)
                                       (JS.toLowerCase skill))
                     (SkillsDatabase.skills category))
           foundSkills in
       if (0 <? List.length categorySkills)%nat
       then [(SkillsDatabase.category category, categorySkills)]
       else [])
    SkillsDatabase.SKILLS_DATABASE.

(** The complementary skills suggested by [analyzeSkills]. *)
Definition suggest (foundSkills : list string) : list string :=
  (if existsb (lowerIn ["react"; "angular"; "vue"]) foundSkills then
     (if negb (existsb (lowerIncludes "typescript") foundSkills)
      then ["TypeScript"] else [])
     ++ (if negb (existsb (lowerIncludes "testing") foundSkills)
         then ["Jest or Cypress (Testing)"] else [])
   else [])
  ++ (if existsb (lowerIn ["nodejs"; "python"; "java"]) foundSkills then
        (if negb (existsb (lowerIn ["mongodb"; "postgresql"; "mysql"])
                    foundSkills)
         then ["Database skills (MongoDB/PostgreSQL)"] else [])
        ++ (if negb (existsb (lowerIncludes "docker") foundSkills)
            then ["Docker (Containerization)"] else [])
      else [])
  ++ (if (List.length foundSkills <? 5)%nat
      then ["Add more technical skills relevant to your target role"]
      else [])
  ++ (if negb (existsb (lowerIncludes "git") foundSkills)
      then ["Git (Version Control) - Essential for developers"]
      else []).

Definition levelOf (years : JS.number) : string :=
  if JS.geq years 10 then "Lead/Principal"
  else if JS.geq years 5 then "Senior"
  else if JS.geq years 2 then "Intermediate"
  else "Entry Level".

(** [analyzeExperience] *)
Definition analyzeExperience (resumeText : string) : Experience :=
  let years := NlpService.extractExperience resumeText in
  mkExperience years (levelOf years).

(** [generateImprovements] *)
Definition generateImprovements (sections : Sections) (skills : Skills)
           (experience : Experience) (sentiment : Sentiment)
  : list string :=
  (if (0 <? List.length (missing sections))%nat then
     [ ("Missing critical sections: " ++ JS.join ", " (missing sections)
        ++ ". Add these to make your resume complete.")%string ]
   else [])
  ++ (if (List.length (skills_found skills) <? 5)%nat then
        [ "Add more relevant technical skills. Aim for at least 8-10 skills related to your target role." ]
      else [])
  ++ (if (0 <? List.length (suggested skills))%nat then
        [ ("Consider learning these in-demand skills: "
           ++ JS.join ", " (JS.slice0 3 (suggested skills)))%string ]
      else [])
  ++ (if JS.strict_eq (years experience) 0 then
        [ "Clearly mention your years of experience in each role or add a professional summary highlighting your experience." ]
      else [])
  ++ (if negb (String.eqb (assessment sentiment) "positive") then
        [ ("Use strong action verbs (e.g., " ++ JS.quoted "developed" ++ ", "
           ++ JS.quoted "led" ++ ", " ++ JS.quoted "implemented"
           ++ ") to describe your achievements.")%string ]
      else [])
  ++ [ "Quantify your achievements with numbers and metrics where possible.";
       "Tailor your resume for each job application by matching keywords from the job description." ].

(** The four components of [calculateOverallScore]. *)
Definition sectionScore (sections : Sections) : Q :=
  (inject_Z (Z.of_nat (List.length (found sections))) / 8 * 40)%Q.

Definition skillScore (skills : Skills) : Q :=
  Qmin (inject_Z (Z.of_nat (List.length (skills_found skills))) / 10 * 30)%Q
       30%Q.

Definition expScore (experience : Experience) : Q :=
  if JS.gt (years experience) 0 then 15%Q else 0%Q.

Definition sentScore (sentiment : Sentiment) : Q :=
  if String.eqb (assessment sentiment) "positive" then 15%Q
  else if String.eqb (assessment sentiment) "neutral" then 10%Q
  else 5%Q.

(** [calculateOverallScore] *)
Definition calculateOverallScore (sections : Sections) (skills : Skills)
           (experience : Experience) (sentiment : Sentiment) : Z :=
  let score := 0%Q in
  let score := (score + sectionScore sections)%Q in
  let score := (score + skillScore skills)%Q in
  let score := (score + expScore experience)%Q in
  let score := (score + sentScore sentiment)%Q in
  JS.round (Qmin score 100%Q).

Section WithPackages.
Context `{Natural} `{Compromise}.

(** [analyzeSkills] *)
Definition analyzeSkills (resumeText : string) : Skills :=
  let foundSkills := NlpService.extractSkills resumeText in
  mkSkills foundSkills (suggest foundSkills) (categorize foundSkills).

(** [analyzeSentiment] *)
Definition analyzeSentiment (resumeText : string) : Sentiment :=
  let sentiment := NlpService.analyzeSentiment resumeText in
  let feedback :=
    if String.eqb (NlpService.assessment sentiment) "positive" then
      "Great! Your resume uses confident, positive language."
    else if String.eqb (NlpService.assessment sentiment) "negative" then
      "Consider using more positive and action-oriented language."
    else
      "Your resume language is neutral. Try adding more action verbs and achievements." in
  mkSentiment (NlpService.score sentiment)
    (NlpService.assessment sentiment) feedback.

(** [analyzeResume] *)
Definition analyzeResume (svc : NlpService.t) (resumeText : string)
  : result ResumeAnalysis * NlpService.t :=
  let sections := analyzeSections resumeText in
  let skills := analyzeSkills resumeText in
  let experience := analyzeExperience resumeText in
  let (keywords, svc') := NlpService.extractKeywords svc resumeText 15 in
  let sentiment := analyzeSentiment resumeText in
  let improvements :=
    generateImprovements sections skills experience sentiment in
  let overallScore :=
    calculateOverallScore sections skills experience sentiment in
  (Ok (mkResumeAnalysis overallScore sections skills experience keywords
         sentiment improvements),
   svc').

End WithPackages.

End ResumeService.

(* ================================================================== *)
(** * src/common/data/interview-questions.ts *)
(* ================================================================== *)

Module InterviewQuestions.

Inductive Difficulty : Type := Easy | Medium | Hard.

Definition difficulty_eqb (a b : Difficulty) : bool :=
  match a, b with
  | Easy, Easy | Medium, Medium | Hard, Hard => true
  | _, _ => false
  end.

Record InterviewQuestion : Type := mkQuestion {
  question : string;
  category : string;
  difficulty : Difficulty;
  skills : list string
}.

Definition INTERVIEW_QUESTIONS : list InterviewQuestion :=
  [
    mkQuestion
      "Explain the difference between var, let, and const in JavaScript."
      "JavaScript" Easy [ "JavaScript"; "TypeScript" ];
    mkQuestion
      "What is closure in JavaScript? Provide an example."
      "JavaScript" Medium [ "JavaScript" ];
    mkQuestion
      "Explain the event loop in Node.js and how it handles asynchronous operations."
      "JavaScript" Hard [ "Node.js"; "JavaScript" ];
    mkQuestion
      "What are React Hooks and why were they introduced?"
      "Frontend" Medium [ "React" ];
    mkQuestion
      "Explain the difference between useEffect and useLayoutEffect."
      "Frontend" Hard [ "React" ];
    mkQuestion
      "How would you optimize the performance of a React application?"
      "Frontend" Hard [ "React"; "Performance" ];
    mkQuestion
      "What is the difference between SQL and NoSQL databases? When would you use each?"
      "Backend" Medium [ "Databases"; "MongoDB"; "SQL" ];
    mkQuestion
      "Explain RESTful API design principles and best practices."
      "Backend" Medium [ "REST API"; "Backend" ];
    mkQuestion
      "How would you implement authentication and authorization in a NestJS application?"
      "Backend" Hard [ "NestJS"; "Security"; "Authentication" ];
    mkQuestion
      "Design a URL shortening service like bit.ly."
      "System Design" Hard [ "System Design"; "Databases"; "Backend" ];
    mkQuestion
      "How would you handle rate limiting in a REST API?"
      "System Design" Medium [ "API Design"; "Backend" ];
    mkQuestion
      "Explain the benefits of containerization with Docker."
      "DevOps" Easy [ "Docker"; "DevOps" ];
    mkQuestion
      "What is CI/CD and how would you implement it?"
      "DevOps" Medium [ "CI/CD"; "DevOps" ];
    mkQuestion
      "Implement a function to reverse a linked list."
      "Algorithms" Medium [ "Data Structures"; "Algorithms" ];
    mkQuestion
      "Find the first non-repeating character in a string."
      "Algorithms" Easy [ "Algorithms"; "Problem Solving" ];
    mkQuestion
      "Tell me about a time when you had to debug a difficult production issue."
      "Behavioral" Medium [ "Problem Solving"; "Communication" ];
    mkQuestion
      "Describe a situation where you had to work with a difficult team member."
      "Behavioral" Medium [ "Communication"; "Team Collaboration" ];
    mkQuestion
      "How do you prioritize tasks when working on multiple projects?"
      "Behavioral" Easy [ "Time Management"; "Project Management" ];
    mkQuestion
      "What is your approach to writing clean, maintainable code?"
      "General" Medium [ "Best Practices"; "Code Quality" ];
    mkQuestion
      "How do you stay updated with new technologies and trends?"
      "General" Easy [ "Learning"; "Adaptability" ] ].

(** [getQuestionsBySkills] *)
Definition getQuestionsBySkills (skills_ : list string)
  : list InterviewQuestion :=
  filter
    (fun q =>
       existsb
         (fun skill =>
            existsb
              (fun s =>
                 JS.includes (JS.toLowerCase s) (JS.toLowerCase skill)
                 || JS.includes (JS.toLowerCase skill) (JS.toLowerCase s))
              skills_)
         (skills q))
    INTERVIEW_QUESTIONS.

(** [getQuestionsByDifficulty] *)
Definition getQuestionsByDifficulty (d : Difficulty)
  : list InterviewQuestion :=
  filter (fun q => difficulty_eqb (difficulty q) d) INTERVIEW_QUESTIONS.

(** [getQuestionsByCategory] *)
Definition getQuestionsByCategory (name : string) : list InterviewQuestion :=
  filter (fun q => String.eqb (JS.toLowerCase (category q))
                     (JS.toLowerCase name))
    INTERVIEW_QUESTIONS.

End InterviewQuestions.

(* ================================================================== *)
(** * src/skills/skills.service.ts *)
(* ================================================================== *)

Module SkillsService.

Import InterviewQuestions.

Record InterviewPreparation : Type := mkInterviewPreparation {
  prep_skills : list string;
  questions : list InterviewQuestion;
  prepTips : list string;
  focusAreas : list string
}.

Definition sameText (q d : InterviewQuestion) : bool :=
  String.eqb (question d) (question q).

(** The second loop of [diversifyQuestions]: a question is appended
    unless one with the same text is already there. *)
Definition addIfUnseen (diversified : list InterviewQuestion)
           (q : InterviewQuestion) : list InterviewQuestion :=
  if existsb (sameText q) diversified then diversified
  else diversified ++ [q].

(** The body of the first loop of [diversifyQuestions]: the first five
    questions of one difficulty. *)
Definition pick (d : Difficulty) (questions : list InterviewQuestion)
  : list InterviewQuestion :=
  JS.slice0 5 (filter (fun q => difficulty_eqb (difficulty q) d) questions).

(** [diversifyQuestions]: up to five questions of each difficulty, easy
    first, then every question of the input not yet there. *)
Definition diversifyQuestions (questions : list InterviewQuestion)
  : list InterviewQuestion :=
  let diversified := flat_map (fun d => pick d questions) [Easy; Medium; Hard] in
  fold_left addIfUnseen questions diversified.

Definition inCategory (names : list string) (q : InterviewQuestion) : bool :=
  JS.mem (category q) names.

(** [getRoleSpecificQuestions] *)
Definition getRoleSpecificQuestions (role : string)
  : list InterviewQuestion :=
  let roleLower := JS.toLowerCase role in
  (if JS.includes roleLower "frontend"
   then filter (inCategory ["Frontend"]) INTERVIEW_QUESTIONS else [])
  ++ (if JS.includes roleLower "backend"
      then filter (inCategory ["Backend"]) INTERVIEW_QUESTIONS else [])
  ++ (if JS.includes roleLower "full stack"
         || JS.includes roleLower "fullstack"
      then filter (inCategory ["Frontend"; "Backend"; "System Design"])
             INTERVIEW_QUESTIONS
      else []).

(** [getInterviewPrepTips] *)
Definition getInterviewPrepTips (skills_ : list string) : list string :=
  [ "Practice explaining your projects using the STAR method (Situation, Task, Action, Result)";
    "Review data structures and algorithms - they're common in technical interviews";
    "Prepare questions to ask the interviewer about the role and company";
    "Research the company thoroughly before the interview";
    "Practice coding problems on LeetCode or HackerRank" ]
  ++ (if existsb (fun s => JS.mem (JS.toLowerCase s)
                             ["react"; "angular"; "vue"]) skills_
      then [ "Be ready to discuss component lifecycle and state management";
             "Prepare to explain how you optimize frontend performance" ]
      else [])
  ++ (if existsb (fun s => JS.mem (JS.toLowerCase s) ["nodejs"; "backend"])
           skills_
      then [ "Review API design principles and RESTful conventions";
             "Be prepared to discuss database optimization and scaling" ]
      else []).

Definition isHard (q : InterviewQuestion) : bool :=
  difficulty_eqb (difficulty q) Hard.

(** [identifyFocusAreas] *)
Definition identifyFocusAreas (questions : list InterviewQuestion)
  : list string :=
  let categories := JS.uniq (map category questions) in
  let focusAreas :=
    flat_map
      (fun c =>
         let categoryQuestions :=
           filter (fun q => String.eqb (category q) c) questions in
         let hardQuestions := filter isHard categoryQuestions in
         if (0 <? List.length hardQuestions)%nat then
           [ (c ++ ": Focus on advanced concepts - "
              ++ JS.toString (List.length hardQuestions)
              ++ " challenging questions identified")%string ]
         else [])
      categories in
  if (0 <? List.length focusAreas)%nat then focusAreas
  else [ "General Technical Knowledge"; "Problem Solving";
         "System Design Basics" ].

Inductive Priority : Type := high | medium | low.

(** [priorityOrder] *)
Definition priorityOrder (p : Priority) : nat :=
  match p with high => 1 | medium => 2 | low => 3 end.

Record Recommendation : Type := mkRecommendation {
  rec_skill : string;
  rec_category : string;
  priority : Priority;
  reason : string
}.

(** Stable insertion into a list sorted by ascending [priorityOrder]:
    [sort((a, b) => priorityOrder[a.priority] - priorityOrder[b.priority])]. *)
Fixpoint insertByPriority (x : Recommendation) (l : list Recommendation)
  : list Recommendation :=
  match l with
  | [] => [x]
  | y :: l' =>
      if (priorityOrder (priority y) <? priorityOrder (priority x))%nat
      then y :: insertByPriority x l'
      else x :: l
  end.

Definition sortByPriority (l : list Recommendation) : list Recommendation :=
  fold_right insertByPriority [] l.

(** The first loop of [generateSkillRecommendations]: for every category
    in which the user has a skill, the skills of the category the user does
    not have. *)
Definition complementarySkills (currentSkillsLower : list string)
  : list Recommendation :=
  flat_map
    (fun category =>
       let hasSkillsInCategory :=
         existsb (fun skill => JS.mem (JS.toLowerCase skill) currentSkillsLower)
           (SkillsDatabase.skills category) in
       if hasSkillsInCategory then
         flat_map
           (fun skill =>
              if negb (JS.mem (JS.toLowerCase skill) currentSkillsLower) then
                [ mkRecommendation skill (SkillsDatabase.category category)
                    medium
                    ("Complements your existing "
                     ++ SkillsDatabase.category category ++ " skills")%string ]
              else [])
           (SkillsDatabase.skills category)
       else [])
    SkillsDatabase.SKILLS_DATABASE.

Definition hasAny (names : list string) (currentSkillsLower : list string)
  : bool :=
  existsb (fun s => JS.mem s names) currentSkillsLower.

(** The four fixed rules of [generateSkillRecommendations]. *)
Definition patternSkills (currentSkillsLower : list string)
  : list Recommendation :=
  (if hasAny ["react"; "angular"; "vue"] currentSkillsLower
      && negb (JS.mem "typescript" currentSkillsLower)
   then [ mkRecommendation "TypeScript" "Frontend Development" high
            "Essential for modern frontend development" ]
   else [])
  ++ (if hasAny ["nodejs"; "express"; "nestjs"] currentSkillsLower
         && negb (hasAny ["mongodb"; "postgresql"] currentSkillsLower)
      then [ mkRecommendation "PostgreSQL" "Databases" high
               "Backend developers need database skills" ]
      else [])
  ++ (if negb (hasAny ["jest"; "testing"; "cypress"] currentSkillsLower)
      then [ mkRecommendation "Jest (Unit Testing)" "Testing & QA" high
               "Testing is crucial for software quality" ]
      else [])
  ++ (if negb (hasAny ["aws"; "azure"; "gcp"] currentSkillsLower)
      then [ mkRecommendation "AWS" "DevOps & Cloud" medium
               "Cloud skills are highly demanded in the industry" ]
      else []).

(** [generateSkillRecommendations] *)
Definition generateSkillRecommendations (currentSkills : list string)
  : list Recommendation :=
  let currentSkillsLower := map JS.toLowerCase currentSkills in
  let recommendations :=
    complementarySkills currentSkillsLower ++ patternSkills currentSkillsLower in
  JS.slice0 10 (sortByPriority recommendations).

(** What [resourceMap[key] || fallback] can be: a list of resources, or,
    for a key that [Object.prototype] defines, the inherited member. *)
Inductive Resources : Type :=
| ResourceList (resources : list string)
| Inherited (key : string).

Definition resourceMap : list (string * list string) :=
  [ ("javascript",
      [ "FreeCodeCamp - JavaScript Algorithms"; "MDN Web Docs";
        "JavaScript.info" ]);
    ("typescript",
      [ "TypeScript Official Docs"; "TypeScript Deep Dive (Book)";
        "Execute Program - TypeScript" ]);
    ("react",
      [ "React Official Tutorial"; "Scrimba - Learn React";
        "Epic React by Kent C. Dodds" ]);
    ("nodejs",
      [ "Node.js Official Docs"; "Node.js Design Patterns (Book)";
        "Learn Node by Wes Bos" ]);
    ("python",
      [ "Python.org Tutorial"; "Automate the Boring Stuff with Python";
        "Real Python" ]);
    ("docker",
      [ "Docker Official Tutorial"; "Docker for Beginners - FreeCodeCamp";
        "Play with Docker" ]);
    ("aws",
      [ "AWS Free Tier"; "AWS Certified Cloud Practitioner"; "A Cloud Guru" ]) ].

(** The members of [Object.prototype] whose names hold no upper-case
    letter: the only inherited keys a lower-cased skill can hit. *)
Definition inheritedKeys : list string := [ "constructor"; "__proto__" ].

(** [resourceMap[skill.toLowerCase()] || [...]] *)
Definition resourcesFor (skill : string) : Resources :=
  let key := JS.toLowerCase skill in
  match find (fun e => String.eqb (fst e) key) resourceMap with
  | Some e => ResourceList (snd e)
  | None =>
      if JS.mem key inheritedKeys then Inherited key
      else ResourceList
             [ ("Search for " ++ JS.quoted (skill ++ " tutorial")
                ++ " on YouTube")%string;
               ("Check Udemy for " ++ skill ++ " courses")%string;
               ("Visit official " ++ skill ++ " documentation")%string ]
  end.

(** [getLearningResources] *)
Definition getLearningResources (skills_ : list string)
  : list (string * Resources) :=
  map (fun skill => (skill, resourcesFor skill)) skills_.

(** The career paths of [suggestCareerPaths].  (Their arrow, U+2192, lies
    outside the 8-bit range; the texts are never inspected and are written
    here in UTF-8.) *)
Definition frontendPath : string :=
  "Frontend Developer → Senior Frontend → Frontend Architect".
Definition backendPath : string :=
  "Backend Developer → Senior Backend → Backend Architect".
Definition fullStackPath : string :=
  "Full Stack Developer → Senior Full Stack → Tech Lead".
Definition devOpsPath : string :=
  "DevOps Engineer → Senior DevOps → DevOps Architect".
Definition dataPath : string :=
  "Data Analyst → Data Scientist → ML Engineer".
Definition genericPath : string :=
  "Software Developer → Senior Developer → Tech Lead → Engineering Manager".

(** [suggestCareerPaths] *)
Definition suggestCareerPaths (skills_ : list string) : list string :=
  let skillsLower := map JS.toLowerCase skills_ in
  let paths :=
    (if hasAny ["react"; "angular"; "vue"; "html"; "css"] skillsLower
     then [frontendPath] else [])
    ++ (if hasAny ["nodejs"; "python"; "java"; "api"] skillsLower
        then [backendPath] else [])
    ++ (if hasAny ["react"; "angular"; "vue"] skillsLower
           && hasAny ["nodejs"; "python"; "java"] skillsLower
        then [fullStackPath] else [])
    ++ (if hasAny ["docker"; "kubernetes"; "aws"; "cicd"] skillsLower
        then [devOpsPath] else [])
    ++ (if hasAny ["python"; "sql"; "machine learning"] skillsLower
        then [dataPath] else []) in
  if (0 <? List.length paths)%nat then paths else [genericPath].

Record SkillRecommendation : Type := mkSkillRecommendation {
  currentSkills : list string;
  recommendedSkills : list Recommendation;
  learningResources : list (string * Resources);
  careerPaths : list string
}.

Section WithPackages.
Context `{Compromise}.

(** [getInterviewPreparation]; an absent or empty [targetRole] adds no
    role questions. *)
Definition getInterviewPreparation (skillsText : string)
           (targetRole : option string) : InterviewPreparation :=
  let skills_ := NlpService.extractSkills skillsText in
  let questions := getQuestionsBySkills skills_ in
  let questions :=
    match targetRole with
    | Some role =>
        if (0 <? String.length role)%nat
        then questions ++ getRoleSpecificQuestions role
        else questions
    | None => questions
    end in
  let prepTips := getInterviewPrepTips skills_ in
  let focusAreas := identifyFocusAreas questions in
  mkInterviewPreparation skills_
    (JS.slice0 15 (diversifyQuestions questions)) prepTips focusAreas.

(** [getSkillRecommendations]; the target role is passed on and never
    read. *)
Definition getSkillRecommendations (currentSkillsText : string)
           (targetRole : option string) : SkillRecommendation :=
  let currentSkills := NlpService.extractSkills currentSkillsText in
  let recommendedSkills := generateSkillRecommendations currentSkills in
  let learningResources :=
    getLearningResources (JS.slice0 5 (map rec_skill recommendedSkills)) in
  let careerPaths := suggestCareerPaths currentSkills in
  mkSkillRecommendation currentSkills recommendedSkills learningResources
    careerPaths.

End WithPackages.

End SkillsService.

(* ================================================================== *)
(** * The controllers: text endpoints *)
(* ================================================================== *)

Module Controllers.

(** What an endpoint answers: its success envelope, a
    [BadRequestException] with its message, or the [TypeError] of the
    service, which no controller catches.  A body field that the request
    does not carry is [None] ([undefined]). *)
Inductive Response (A : Type) : Type :=
| Success (data : A) (message : string)
| BadRequest (message : string)
| Uncaught.
Arguments Success {A} data message.
Arguments BadRequest {A} message.
Arguments Uncaught {A}.

(** [!text || text.trim().length < min] on a text that is present. *)
Definition tooShort (min : nat) (text : string) : bool :=
  (String.length text =? 0)%nat || (String.length (JS.trim text) <? min)%nat.

Section WithPackages.
Context `{Natural} `{Compromise}.

(** [ResumeController.analyzeResumeText] *)
Definition analyzeResumeText (svc : NlpService.t) (resumeText : option string)
  : Response ResumeService.ResumeAnalysis * NlpService.t :=
  let rejected :=
    (BadRequest
       "Resume text is too short. Please provide at least 50 characters.",
     svc) in
  match resumeText with
  | None => rejected
  | Some text =>
      if tooShort 50 text then rejected
      else
        match ResumeService.analyzeResume svc text with
        | (Ok analysis, svc') =>
            (Success analysis "Resume analyzed successfully", svc')
        | (TypeError, svc') => (Uncaught, svc')
        end
  end.

(** [JobDescriptionController.analyzeJob] *)
Definition analyzeJob (svc : NlpService.t) (jobText : option string)
  : Response JobDescriptionService.JobAnalysis * NlpService.t :=
  let rejected :=
    (BadRequest
       "Job description is too short. Please provide at least 50 characters.",
     svc) in
  match jobText with
  | None => rejected
  | Some text =>
      if tooShort 50 text then rejected
      else
        match JobDescriptionService.analyzeJobDescription svc text with
        | (Ok analysis, svc') =>
            (Success analysis "Job description analyzed successfully", svc')
        | (TypeError, svc') => (Uncaught, svc')
        end
  end.

(** [JobDescriptionController.compareResumeWithJob]: the resume is checked
    first. *)
Definition compareResumeWithJob (svc : NlpService.t)
           (resumeText jobText : option string)
  : Response JobDescriptionService.JobAnalysis * NlpService.t :=
  match resumeText with
  | None => (BadRequest "Resume text is too short", svc)
  | Some resume =>
      if tooShort 50 resume then (BadRequest "Resume text is too short", svc)
      else
        match jobText with
        | None => (BadRequest "Job description is too short", svc)
        | Some job =>
            if tooShort 50 job
            then (BadRequest "Job description is too short", svc)
            else
              match JobDescriptionService.compareResumeWithJob svc resume job
              with
              | (Ok comparison, svc') =>
                  (Success comparison
                     "Resume and job description compared successfully",
                   svc')
              | (TypeError, svc') => (Uncaught, svc')
              end
        end
  end.

(** [SkillsController.getRecommendations] *)
Definition getRecommendations (skillsText targetRole : option string)
  : Response SkillsService.SkillRecommendation :=
  match skillsText with
  | None =>
      BadRequest "Please provide your current skills (at least 10 characters)"
  | Some text =>
      if tooShort 10 text then
        BadRequest "Please provide your current skills (at least 10 characters)"
      else
        Success (SkillsService.getSkillRecommendations text targetRole)
          "Skill recommendations generated successfully"
  end.

(** [SkillsController.getInterviewPrep] *)
Definition getInterviewPrep (skillsText targetRole : option string)
  : Response SkillsService.InterviewPreparation :=
  match skillsText with
  | None => BadRequest "Please provide your skills for interview preparation"
  | Some text =>
      if tooShort 10 text then
        BadRequest "Please provide your skills for interview preparation"
      else
        Success (SkillsService.getInterviewPreparation text targetRole)
          "Interview preparation generated successfully"
  end.

End WithPackages.

End Controllers.

(* ================================================================== *)
(** * Sample instances of the package interfaces *)
(* ================================================================== *)

(** Executable stand-ins for the two packages, used to run the services on
    concrete texts.  The theorems below hold for every instance. *)
Module Sample.

Definition is_word_char (c : ascii) : bool :=
  JS.between 48 57 (JS.code c) || JS.between 65 90 (JS.code c)
  || JS.between 97 122 (JS.code c) || (JS.code c =? 95)%nat.

Definition flush (cur : string) : list string :=
  match cur with EmptyString => [] | String _ _ => [cur] end.

Fixpoint words_from (cur : string) (s : string) : list string :=
  match s with
  | EmptyString => flush cur
  | String c s' =>
      if is_word_char c
      then words_from (cur ++ String c EmptyString)%string s'
      else flush cur ++ words_from EmptyString s'
  end.

(** The maximal runs of word characters of a text. *)
Definition words (s : string) : list string := words_from EmptyString s.

Fixpoint bump (t : string) (doc : TfIdf.document) : TfIdf.document :=
  match doc with
  | [] => [(t, 1)]
  | (u, n) :: doc' =>
      if String.eqb u t then (u, S n) :: doc' else (u, n) :: bump t doc'
  end.

(** The terms of a text with their counts, in order of first
    occurrence. *)
Definition count_terms (tokens : list string) : TfIdf.document :=
  fold_left (fun doc t => bump t doc) tokens [].

Definition all_caps (w : string) : bool :=
  (1 <? String.length w)%nat
  && String.eqb w
       (string_of_list_ascii
          (filter (fun c => JS.between 65 90 (JS.code c))
             (list_ascii_of_string w))).

#[local] Instance natural : Natural := {|
  tokenize := words;
  buildDocument := fun text => count_terms (words (JS.toLowerCase text));
  idf := fun n df =>
    (1 + inject_Z (Z.of_nat n - Z.of_nat df) / inject_Z (Z.of_nat (S n)))%Q;
  getSentiment := fun tokens =>
    match tokens with [] => None | _ :: _ => Some 0%Q end
|}.

#[local] Instance compromise : Compromise := {|
  acronyms := fun text => filter all_caps (words text)
|}.

End Sample.

(* ================================================================== *)
(** * Facts about the regular-expression matcher *)
(* ================================================================== *)

Module RegexFacts.

Import Regex.

(** The loop of a quantifier only succeeds along a sequence of
    iterations, each of which consumes input. *)
Lemma star_loop_sound (r : regex) (g : bool)
      (step : state -> continuation -> option state)
      (Hstep : forall x k z, step x k = Some z ->
                             exists y, Matches r x y /\ k y = Some z)
      (k : continuation) (fuel : nat) :
  forall x z, star_loop step g k fuel x = Some z ->
              exists y, Matches (Star g r) x y /\ k y = Some z.
Proof.
  induction fuel as [|fuel IH]; intros x z Hrun; simpl in Hrun.
  - exists x; split; [constructor | exact Hrun].
  - assert (Hagain :
      forall w, step x (fun y => if (endIndex x <? endIndex y)%nat
                                 then star_loop step g k fuel y
                                 else None) = Some w ->
                exists y, Matches (Star g r) x y /\ k y = Some w).
    { intros w Hw. apply Hstep in Hw as (y & Hm & Hy).
      destruct (endIndex x <? endIndex y)%nat eqn:Hlt; [|discriminate].
      apply IH in Hy as (y' & Hm' & Hy').
      exists y'; split; [|exact Hy'].
      eapply M_StarStep; eauto. now apply Nat.ltb_lt. }
    destruct g.
    + destruct (step x _) as [w|] eqn:Hw.
      * inversion Hrun; subst. now apply Hagain.
      * exists x; split; [constructor | exact Hrun].
    + destruct (k x) as [w|] eqn:Hw.
      * inversion Hrun; subst. exists x; split; [constructor | exact Hw].
      * now apply Hagain.
Qed.

(** Soundness of the matcher: a successful run reaches its continuation
    through a state that the pattern matches. *)
Lemma run_sound (r : regex) :
  forall x k z, run r x k = Some z ->
                exists y, Matches r x y /\ k y = Some z.
Proof.
  induction r as [|p|r1 IH1 r2 IH2|r1 IH1 r2 IH2|g r IH|n r IH| |];
    intros x k z Hrun; simpl in Hrun.
  - exists x; split; [constructor | exact Hrun].
  - destruct (rest x) as [|c s'] eqn:Hrest; [discriminate|].
    destruct (p c) eqn:Hp; [|discriminate].
    eexists; split; [eapply M_Chr; eauto | exact Hrun].
  - apply IH1 in Hrun as (y & H1 & H2).
    apply IH2 in H2 as (w & H3 & H4).
    exists w; split; [econstructor; eauto | exact H4].
  - destruct (run r1 x k) as [w|] eqn:Hw.
    + inversion Hrun; subst. apply IH1 in Hw as (y & ? & ?).
      exists y; split; [now apply M_AltL | assumption].
    + apply IH2 in Hrun as (y & ? & ?).
      exists y; split; [now apply M_AltR | assumption].
  - apply (star_loop_sound r g (run r) IH k (S (String.length (rest x)))).
    exact Hrun.
  - apply IH in Hrun as (y & ? & ?).
    eexists; split; [apply M_Group; eauto | eassumption].
  - destruct (endIndex x =? 0)%nat eqn:H0; [|discriminate].
    exists x; split; [constructor; now apply Nat.eqb_eq | exact Hrun].
  - destruct (rest x) eqn:Hrest; [|discriminate].
    exists x; split; [now constructor | exact Hrun].
Qed.

(** A group that does not occur in the pattern keeps its value. *)
Lemma Matches_frame (n : nat) (r : regex) (x y : state) :
  Matches r x y -> ~ In n (groups r) -> caps y n = caps x n.
Proof.
  induction 1; simpl; intros Hn; try reflexivity.
  - rewrite IHMatches2, IHMatches1; auto; intro; apply Hn, in_or_app; auto.
  - apply IHMatches; intro; apply Hn, in_or_app; auto.
  - apply IHMatches; intro; apply Hn, in_or_app; auto.
  - rewrite IHMatches2, IHMatches1; auto.
  - unfold set_capture.
    destruct (n =? n0)%nat eqn:E.
    + apply Nat.eqb_eq in E. exfalso; apply Hn; auto.
    + apply IHMatches. intro; apply Hn; auto.
Qed.

(** A group that has a value keeps one. *)
Lemma Matches_keeps (n : nat) (r : regex) (x y : state) :
  Matches r x y -> caps x n <> None -> caps y n <> None.
Proof.
  induction 1; simpl; intros Hn; auto.
  unfold set_capture. destruct (n =? n0)%nat; [discriminate | auto].
Qed.

(** A group that lies on every path through the pattern has a value
    after a match. *)
Lemma Matches_binds (n : nat) (r : regex) (x y : state) :
  Matches r x y -> binds n r = true -> caps y n <> None.
Proof.
  induction 1; simpl; intros Hb; try discriminate.
  - apply orb_true_iff in Hb as [Hb|Hb].
    + eapply Matches_keeps; eauto.
    + auto.
  - apply andb_true_iff in Hb as [Hb _]; auto.
  - apply andb_true_iff in Hb as [_ Hb]; auto.
  - unfold set_capture. destruct (n =? n0)%nat eqn:E; [discriminate|].
    rewrite Nat.eqb_sym, E in Hb. simpl in Hb. auto.
Qed.

(** What [exec] returns comes from a match of the pattern that started
    without captures. *)
Lemma exec_from_sound (r : regex) (s : string) :
  forall pos m, exec_from r pos s = Some m ->
    exists pos' s' y,
      Matches r (mkState pos' s' no_captures) y /\ group m = caps y.
Proof.
  induction s as [|c s IH]; intros pos m Hex; simpl in Hex;
    unfold match_here in Hex.
  - destruct (run r _ Some) as [y|] eqn:Hrun; [|discriminate].
    inversion Hex; subst; clear Hex.
    apply run_sound in Hrun as (y' & Hm & Hy). inversion Hy; subst.
    now exists pos, EmptyString, y.
  - destruct (run r _ Some) as [y|] eqn:Hrun.
    + inversion Hex; subst; clear Hex.
      apply run_sound in Hrun as (y' & Hm & Hy). inversion Hy; subst.
      now exists pos, (String c s), y.
    + eauto.
Qed.

Lemma exec_binds (n : nat) (r : regex) (s : string) (m : matched) :
  exec r s = Some m -> binds n r = true -> group m n <> None.
Proof.
  intros Hex Hb. apply exec_from_sound in Hex as (pos & s' & y & Hm & ->).
  eapply Matches_binds; eauto.
Qed.

(** Matching only moves forward in the input. *)
Lemma Matches_forward (r : regex) (x y : state) :
  Matches r x y -> (endIndex x <= endIndex y)%nat.
Proof. induction 1; simpl in *; lia. Qed.

(** A pattern that opens with the group [(\d+)] leaves in that group a
    text that starts with a digit, provided the rest of the pattern does
    not capture into the same group. *)
Lemma leading_digits_group (n : nat) (tail : regex) (x y : state) :
  Matches (Seq (Group n (plus digit)) tail) x y ->
  ~ In n (groups tail) ->
  exists c d, caps y n = Some (String c d) /\ JS.is_digit c = true.
Proof.
  intros Hm Hn.
  inversion Hm as [| |r1 r2 x0 y1 z0 Hg Ht| | | | | | |]; subst.
  rewrite (Matches_frame n tail y1 y Ht Hn).
  inversion Hg as [| | | | | | |n0 r0 x0 y0 Hp| |]; subst.
  inversion Hp as [| |r1 r2 x0 x1 z0 Hd Hs| | | | | | |]; subst.
  inversion Hd as [|p c s' x0 Hrest Hc| | | | | | | |]; subst.
  apply Matches_forward in Hs. simpl in Hs.
  simpl. unfold set_capture. rewrite Nat.eqb_refl, Hrest.
  destruct (endIndex y0 - endIndex x)%nat as [|k] eqn:Hk; [lia|].
  simpl. eauto.
Qed.

(** Matching consumes what it advances over: the position and the
    remaining input move together. *)
Lemma Matches_length (r : regex) (x y : state) :
  Matches r x y ->
  (endIndex y + String.length (rest y)
   = endIndex x + String.length (rest x))%nat.
Proof.
  induction 1; simpl in *; try lia.
  rewrite H. simpl. lia.
Qed.

Lemma star_loop_ext (r : regex) (g : bool)
      (step : state -> continuation -> option state)
      (Hstep : forall x k1 k2,
          (forall y, Matches r x y -> k1 y = k2 y) -> step x k1 = step x k2)
      (k1 k2 : continuation) (fuel : nat) :
  forall x, (forall y, Matches (Star g r) x y -> k1 y = k2 y) ->
            star_loop step g k1 fuel x = star_loop step g k2 fuel x.
Proof.
  induction fuel as [|fuel IH]; intros x Hk; simpl.
  - apply Hk. constructor.
  - assert (Hx : k1 x = k2 x) by (apply Hk; constructor).
    assert (Hagain :
      step x (fun y => if (endIndex x <? endIndex y)%nat
                       then star_loop step g k1 fuel y else None)
      = step x (fun y => if (endIndex x <? endIndex y)%nat
                         then star_loop step g k2 fuel y else None)).
    { apply Hstep. intros y Hy.
      destruct (endIndex x <? endIndex y)%nat eqn:Hlt; [|reflexivity].
      apply IH. intros z Hz. apply Hk.
      eapply M_StarStep; eauto. now apply Nat.ltb_lt. }
    rewrite Hagain, Hx. reflexivity.
Qed.

(** The matcher only consults its continuation on states that the pattern
    matches. *)
Lemma run_ext (r : regex) :
  forall x k1 k2,
    (forall y, Matches r x y -> k1 y = k2 y) -> run r x k1 = run r x k2.
Proof.
  induction r as [|p|r1 IH1 r2 IH2|r1 IH1 r2 IH2|g r IH|n r IH| |];
    intros x k1 k2 Hk; cbn [run].
  - apply Hk. constructor.
  - destruct (rest x) as [|c s'] eqn:Hrest; [reflexivity|].
    destruct (p c) eqn:Hp; [|reflexivity].
    apply Hk. eapply M_Chr; eauto.
  - apply IH1. intros y Hy. apply IH2. intros z Hz. apply Hk.
    econstructor; eauto.
  - rewrite (IH1 x k1 k2), (IH2 x k1 k2); [reflexivity | |];
      intros y Hy; apply Hk; [now apply M_AltR | now apply M_AltL].
  - apply (star_loop_ext r g (run r) IH). exact Hk.
  - apply IH. intros y Hy. apply Hk. now apply M_Group.
  - destruct (endIndex x =? 0)%nat eqn:H0; [|reflexivity].
    apply Hk. constructor. now apply Nat.eqb_eq.
  - destruct (rest x) eqn:Hrest; [|reflexivity].
    apply Hk. now constructor.
Qed.

(** The fuel of a quantifier loop never runs out: any amount above the
    length of the remaining input gives the same result. *)
Lemma star_loop_fuel (r : regex) (g : bool) (k : continuation) :
  forall fuel1 fuel2 x,
    (String.length (rest x) < fuel1)%nat ->
    (String.length (rest x) < fuel2)%nat ->
    star_loop (run r) g k fuel1 x = star_loop (run r) g k fuel2 x.
Proof.
  induction fuel1 as [|fuel1 IH]; intros fuel2 x H1 H2; [lia|].
  destruct fuel2 as [|fuel2]; [lia|]. simpl.
  assert (Hagain :
    run r x (fun y => if (endIndex x <? endIndex y)%nat
                      then star_loop (run r) g k fuel1 y else None)
    = run r x (fun y => if (endIndex x <? endIndex y)%nat
                        then star_loop (run r) g k fuel2 y else None)).
  { apply run_ext. intros y Hy.
    destruct (endIndex x <? endIndex y)%nat eqn:Hlt; [|reflexivity].
    apply Nat.ltb_lt in Hlt. apply Matches_length in Hy.
    apply IH; lia. }
  now rewrite Hagain.
Qed.

Lemma star_loop_complete (r : regex) (g : bool) (k : continuation)
      (IH : forall x k', run r x k' = None ->
                         forall y, Matches r x y -> k' y = None) :
  forall x y, Matches (Star g r) x y ->
    forall fuel, (String.length (rest x) < fuel)%nat ->
      star_loop (run r) g k fuel x = None -> k y = None.
Proof.
  intros x y Hm. remember (Star g r) as sr eqn:Hsr.
  induction Hm as [| | | | |g0 r0 x|g0 r0 x y1 z Hstep _ Hlt Hrest IHrest| | |];
    try discriminate; inversion Hsr; subst; intros fuel Hfuel Hrun;
    (destruct fuel as [|fuel]; [lia|]); simpl in Hrun.
  - destruct g.
    + destruct (run r x _); [discriminate | assumption].
    + destruct (k x); [discriminate | reflexivity].
  - assert (Hagain :
      run r x (fun y => if (endIndex x <? endIndex y)%nat
                        then star_loop (run r) g k fuel y else None) = None).
    { destruct g.
      - destruct (run r x _); [discriminate | reflexivity].
      - destruct (k x); [discriminate | assumption]. }
    pose proof (IH _ _ Hagain y1 Hstep) as Hy1. simpl in Hy1.
    apply Nat.ltb_lt in Hlt as Hlt'. rewrite Hlt' in Hy1.
    apply Matches_length in Hstep.
    apply (IHrest eq_refl fuel); [lia | assumption].
Qed.

(** Completeness of the matcher: when a run fails, the continuation fails
    on every state that the pattern matches. *)
Lemma run_complete (r : regex) :
  forall x k, run r x k = None -> forall y, Matches r x y -> k y = None.
Proof.
  induction r as [|p|r1 IH1 r2 IH2|r1 IH1 r2 IH2|g r IH|n r IH| |];
    intros x k Hrun y Hm; cbn [run] in Hrun.
  - inversion Hm; subst. assumption.
  - inversion Hm as [|p0 c s' x0 Hrest Hp| | | | | | | |]; subst.
    rewrite Hrest, Hp in Hrun. assumption.
  - inversion Hm as [| |? ? ? y1 ? H1 H2| | | | | | |]; subst.
    eapply IH2; [|eassumption]. eapply (IH1 _ _ Hrun). assumption.
  - destruct (run r1 x k) eqn:E1; [discriminate|].
    inversion Hm; subst; [eapply IH1 | eapply IH2]; eauto.
  - eapply (star_loop_complete r g k IH); eauto.
  - inversion Hm as [| | | | | | |? ? ? y0 H0| |]; subst.
    apply (IH _ _ Hrun y0 H0).
  - inversion Hm as [| | | | | | | |? H0|]; subst.
    rewrite H0 in Hrun. assumption.
  - inversion Hm as [| | | | | | | | |? H0]; subst.
    rewrite H0 in Hrun. assumption.
Qed.

(** [test] answers [true] exactly when the pattern matches at some
    position of the text. *)
Lemma test_spec (r : regex) (s : string) :
  test r s = true <->
  exists pos y, (pos <= String.length s)%nat
                /\ Matches r (mkState pos (JS.drop pos s) no_captures) y.
Proof.
  unfold test, exec.
  assert (Hgen : forall s0 base,
    (exists m, exec_from r base s0 = Some m) <->
    exists pos y, (pos <= String.length s0)%nat
      /\ Matches r (mkState (base + pos) (JS.drop pos s0) no_captures) y).
  { induction s0 as [|c s0 IH]; intros base; cbn [exec_from];
      unfold match_here.
    - destruct (run r (mkState base "" no_captures) Some) as [y|] eqn:Hrun.
      + split; [intros _ | eauto].
        apply run_sound in Hrun as (y' & Hm & _).
        exists 0%nat, y'. rewrite Nat.add_0_r. simpl. auto.
      + split; [intros (m & Hm); discriminate|].
        intros (pos & y & Hpos & Hm). simpl in Hpos.
        assert (pos = 0)%nat by lia. subst. rewrite Nat.add_0_r in Hm.
        simpl in Hm. pose proof (run_complete _ _ _ Hrun _ Hm). discriminate.
    - destruct (run r (mkState base (String c s0) no_captures) Some)
        as [y|] eqn:Hrun.
      + split; [intros _ | eauto].
        apply run_sound in Hrun as (y' & Hm & _).
        exists 0%nat, y'. rewrite Nat.add_0_r. simpl. split; [lia | auto].
      + rewrite (IH (S base)). split.
        * intros (pos & y & Hpos & Hm). exists (S pos), y. simpl.
          split; [lia|]. now rewrite Nat.add_succ_r.
        * intros (pos & y & Hpos & Hm). destruct pos as [|pos].
          -- rewrite Nat.add_0_r in Hm. simpl in Hm.
             pose proof (run_complete _ _ _ Hrun _ Hm). discriminate.
          -- exists pos, y. simpl in Hpos, Hm. split; [lia|].
             now rewrite Nat.add_succ_r in Hm. }
  specialize (Hgen s 0%nat). simpl in Hgen.
  destruct (exec_from r 0 s) as [m|].
  - split; [intros _; apply Hgen; eauto | reflexivity].
  - split; [discriminate|]. intros H. apply Hgen in H as (m & Hm). discriminate.
Qed.

End RegexFacts.

(* ================================================================== *)
(** * Facts about the helpers on strings and lists *)
(* ================================================================== *)

Module JSFacts.

Lemma mem_In (x : string) (xs : list string) :
  JS.mem x xs = true <-> In x xs.
Proof.
  unfold JS.mem. rewrite existsb_exists. split.
  - intros (y & Hy & Heq). apply String.eqb_eq in Heq. now subst.
  - intros Hx. exists x. split; [assumption | apply String.eqb_refl].
Qed.

Lemma uniq_acc_In (xs : list string) :
  forall seen x, In x (JS.uniq_acc seen xs) <-> In x xs /\ ~ In x seen.
Proof.
  induction xs as [|y xs IH]; intros seen x; simpl.
  - tauto.
  - destruct (JS.mem y seen) eqn:Hmem.
    + apply mem_In in Hmem. rewrite IH. split.
      * intros [? ?]; auto.
      * intros [[-> | ?] ?]; [contradiction | auto].
    + assert (Hy : ~ In y seen) by (rewrite <- mem_In, Hmem; discriminate).
      simpl. rewrite IH. simpl. split.
      * intros [-> | [? ?]]; auto.
      * intros [[-> | ?] ?]; auto.
        destruct (string_dec y x) as [-> | Hne]; auto.
        right. split; auto. intros [? | ?]; auto.
Qed.

Lemma uniq_acc_NoDup (xs : list string) :
  forall seen, NoDup (JS.uniq_acc seen xs).
Proof.
  induction xs as [|y xs IH]; intros seen; simpl.
  - constructor.
  - destruct (JS.mem y seen); [apply IH|].
    constructor; [|apply IH].
    rewrite uniq_acc_In. simpl. tauto.
Qed.

(** [[...new Set(xs)]] has the elements of [xs], each once. *)
Lemma uniq_In (xs : list string) (x : string) :
  In x (JS.uniq xs) <-> In x xs.
Proof. unfold JS.uniq. rewrite uniq_acc_In. simpl. tauto. Qed.

Lemma uniq_NoDup (xs : list string) : NoDup (JS.uniq xs).
Proof. apply uniq_acc_NoDup. Qed.

(** [slice(0, n)] is a prefix: it keeps members, order and
    distinctness. *)
Lemma slice0_In {A : Type} (n : nat) (l : list A) (x : A) :
  In x (JS.slice0 n l) -> In x l.
Proof.
  unfold JS.slice0. revert l; induction n as [|n IH]; intros [|a l]; simpl;
    try tauto.
  intros [-> | Hx]; auto.
Qed.

Lemma slice0_NoDup {A : Type} (n : nat) (l : list A) :
  NoDup l -> NoDup (JS.slice0 n l).
Proof.
  unfold JS.slice0. revert l; induction n as [|n IH]; intros [|a l] Hl;
    simpl; try constructor.
  - inversion Hl; subst. intros Hin. now apply (slice0_In n l a) in Hin.
  - inversion Hl; subst. auto.
Qed.

Lemma slice0_length {A : Type} (n : nat) (l : list A) :
  (List.length (JS.slice0 n l) <= n)%nat.
Proof. apply firstn_le_length. Qed.

Lemma digits_value_nonneg (s : string) :
  forall acc, (0 <= acc)%Z -> (0 <= JS.digits_value acc s)%Z.
Proof.
  induction s as [|c s IH]; intros acc Hacc; cbn [JS.digits_value];
    [assumption|].
  destruct (JS.is_digit c); [|assumption].
  apply IH. pose proof (Nat2Z.is_nonneg (JS.code c - 48)). lia.
Qed.

(** [parseInt] of a text that starts with a digit is a number, and not a
    negative one. *)
Lemma parseInt_digits (c : ascii) (d : string) :
  JS.is_digit c = true ->
  exists z, JS.parseInt (String c d) = JS.Num z /\ (0 <= z)%Z.
Proof.
  intros Hc. unfold JS.parseInt. rewrite Hc.
  eexists; split; [reflexivity | apply digits_value_nonneg; lia].
Qed.

Lemma startsWith_app (pre s : string) :
  JS.startsWith s pre = true <-> exists b, s = (pre ++ b)%string.
Proof.
  revert s. induction pre as [|a pre IH]; intros s; simpl.
  - split; [intros _; now exists s | reflexivity].
  - destruct s as [|c s].
    + split; [discriminate | intros (b & Hb); discriminate].
    + rewrite andb_true_iff, Ascii.eqb_eq, IH. split.
      * intros (-> & b & ->). now exists b.
      * intros (b & Hb). inversion Hb; subst. split; [reflexivity | now exists b].
Qed.

(** [find_sub] finds an occurrence, and the leftmost one. *)
Lemma find_sub_Some (sub s : string) :
  forall i, JS.find_sub s sub = Some i ->
    JS.startsWith (JS.drop i s) sub = true
    /\ forall j, (j < i)%nat -> JS.startsWith (JS.drop j s) sub = false.
Proof.
  induction s as [|c s IH]; intros i Hf.
  - simpl in Hf. destruct (JS.startsWith "" sub) eqn:E; [|discriminate].
    inversion Hf; subst. simpl. split; [assumption | intros; lia].
  - cbn [JS.find_sub] in Hf.
    destruct (JS.startsWith (String c s) sub) eqn:E.
    + inversion Hf; subst. split; [assumption | intros; lia].
    + destruct (JS.find_sub s sub) as [i'|] eqn:E'; [|discriminate].
      inversion Hf; subst. destruct (IH i' eq_refl) as [H1 H2].
      split; [assumption|].
      intros [|j] Hj; [assumption | apply H2; lia].
Qed.

Lemma find_sub_None (sub s : string) :
  JS.find_sub s sub = None ->
  forall j, JS.startsWith (JS.drop j s) sub = false.
Proof.
  induction s as [|c s IH]; intros Hf j.
  - simpl in Hf. destruct (JS.startsWith "" sub) eqn:E; [discriminate|].
    destruct j; assumption.
  - cbn [JS.find_sub] in Hf.
    destruct (JS.startsWith (String c s) sub) eqn:E; [discriminate|].
    destruct (JS.find_sub s sub) eqn:E'; [discriminate|].
    destruct j; [assumption | now apply IH].
Qed.

Lemma drop_app (a b : string) : JS.drop (String.length a) (a ++ b) = b.
Proof. induction a; simpl; auto. Qed.

Lemma drop_split (s : string) :
  forall i, exists a, s = (a ++ JS.drop i s)%string.
Proof.
  induction s as [|c s IH]; intros [|i]; simpl;
    try (now exists EmptyString).
  destruct (IH i) as (a & Ha). exists (String c a). simpl. now rewrite <- Ha.
Qed.

(** [s.includes(sub)] holds exactly when [sub] lies somewhere in [s]. *)
Lemma includes_spec (s sub : string) :
  JS.includes s sub = true <-> exists a b, s = (a ++ sub ++ b)%string.
Proof.
  unfold JS.includes. split.
  - destruct (JS.find_sub s sub) as [i|] eqn:E; [|discriminate].
    intros _. apply find_sub_Some in E as [H _].
    apply startsWith_app in H as (b & Hb).
    destruct (drop_split s i) as (a & Ha).
    exists a, b. now rewrite <- Hb.
  - intros (a & b & ->).
    destruct (JS.find_sub _ sub) eqn:E; [reflexivity|].
    pose proof (find_sub_None _ _ E (String.length a)) as H.
    rewrite drop_app in H.
    assert (JS.startsWith (sub ++ b) sub = true)
      by (apply startsWith_app; now exists b).
    congruence.
Qed.

Lemma indexOf_found (s sub : string) :
  JS.indexOf s sub <> (-1)%Z <-> JS.includes s sub = true.
Proof.
  unfold JS.indexOf, JS.includes.
  destruct (JS.find_sub s sub); split; intros; try lia; try congruence.
Qed.

End JSFacts.

(* ================================================================== *)
(** * NlpService: keywords and years of experience *)
(* ================================================================== *)

Module NlpFacts.

Import Regex RegexFacts NlpService.

Lemma first_match_In (ps : list regex) (text : string) (m : matched) :
  first_match ps text = Some m -> exists p, In p ps /\ exec p text = Some m.
Proof.
  induction ps as [|p ps IH]; simpl; [discriminate|].
  destruct (exec p text) as [m'|] eqn:E.
  - intros Hm; inversion Hm; subst. eauto.
  - intros Hm. destruct (IH Hm) as (q & ? & ?). eauto.
Qed.

(** Wherever a pattern that opens with [(\d+)] matches, [parseInt] of its
    first group is a number. *)
Lemma parseInt_group_number (tail : regex) (text : string) (m : matched) :
  exec (Seq (Group 1 (plus digit)) tail) text = Some m ->
  ~ In 1 (groups tail) ->
  exists z, parseInt_group m 1 = JS.Num z /\ (0 <= z)%Z.
Proof.
  intros Hex Hn.
  apply exec_from_sound in Hex as (pos & s' & y & Hm & Hg).
  destruct (leading_digits_group 1 tail _ _ Hm Hn) as (c & d & Hc & Hd).
  unfold parseInt_group. rewrite Hg, Hc.
  now apply JSFacts.parseInt_digits.
Qed.

(** [extractExperience] never answers [NaN] nor a negative number. *)
Lemma extractExperience_number (text : string) :
  exists z, extractExperience text = JS.Num z /\ (0 <= z)%Z.
Proof.
  unfold extractExperience.
  destruct (first_match experiencePatterns text) as [m|] eqn:E.
  - apply first_match_In in E as (p & Hp & Hex).
    simpl in Hp. destruct Hp as [<- | [<- | [<- | []]]];
      (eapply parseInt_group_number; [exact Hex |]);
      cbv; intuition discriminate.
  - exists 0%Z. split; [reflexivity | lia].
Qed.

Section Keywords.
Context `{Natural}.

Lemma insert_desc_In (x y : TfIdf.item) (l : list TfIdf.item) :
  In y (TfIdf.insert_desc x l) <-> y = x \/ In y l.
Proof.
  induction l as [|a l IH]; simpl.
  - intuition.
  - destruct (Qlt_le_dec (TfIdf.tfidf x) (TfIdf.tfidf a)); simpl;
      rewrite ?IH; intuition.
Qed.

Lemma sort_desc_In (y : TfIdf.item) (l : list TfIdf.item) :
  In y (TfIdf.sort_desc l) <-> In y l.
Proof.
  induction l as [|a l IH]; simpl; [tauto|].
  rewrite insert_desc_In, IH. intuition.
Qed.

(** The keywords returned by any call are terms of the first document
    the service was ever given: once the service has been used, the
    text of the call only changes the weights. *)
Lemma extractKeywords_first_document
      (svc : t) (first : TfIdf.document) (text : string) (topN : nat) :
  nth_error (tfidf svc) 0 = Some first ->
  incl (fst (extractKeywords svc text topN)) (map fst first).
Proof.
  intros Hfirst k Hk. unfold extractKeywords in Hk. simpl in Hk.
  apply in_map_iff in Hk as (it & <- & Hit).
  apply JSFacts.slice0_In in Hit. apply -> sort_desc_In in Hit.
  apply filter_In in Hit as [Hit _].
  unfold TfIdf.listTerms, TfIdf.addDocument in Hit.
  destruct (tfidf svc) as [|d ds]; [discriminate|].
  simpl in Hfirst. inversion Hfirst; subst. simpl in Hit.
  apply -> sort_desc_In in Hit.
  apply in_map_iff in Hit as (e & <- & He). simpl.
  now apply in_map.
Qed.

End Keywords.

End NlpFacts.

(** C1 (the code departs from the claim).  [extractKeywords] is not
    independent of earlier calls: the [TfIdf] accumulator is created once,
    in the constructor, every call adds its text to it, and the terms are
    always read from document [0].  On a fresh service the text
    "Marketing manager" yields the keywords [marketing; manager]; on a
    service that has already analysed "Python developer" the same text
    yields [python; developer]. *)
Theorem extractKeywords_depends_on_history `{Natural} :
  buildDocument "python developer" = [("python", 1); ("developer", 1)] ->
  buildDocument "marketing manager" = [("marketing", 1); ("manager", 1)] ->
  let fresh := NlpService.create in
  let used := snd (NlpService.extractKeywords fresh "Python developer" 10) in
  fst (NlpService.extractKeywords fresh "Marketing manager" 10)
    = ["marketing"; "manager"]
  /\ fst (NlpService.extractKeywords used "Marketing manager" 10)
    = ["python"; "developer"].
Proof.
  intros Hpy Hmk.
  unfold NlpService.extractKeywords, TfIdf.addDocument, TfIdf.listTerms.
  cbn [snd fst NlpService.tfidf NlpService.create app nth_error].
  change (JS.toLowerCase "Python developer") with "python developer".
  change (JS.toLowerCase "Marketing manager") with "marketing manager".
  rewrite Hpy, Hmk.
  cbn -[Qlt_le_dec idf Qmult inject_Z].
  repeat match goal with
         | |- context [Qlt_le_dec ?a ?b] =>
             destruct (Qlt_le_dec a b) as [Hlt | _];
             [exfalso; exact (Qlt_irrefl _ Hlt) |]
         end;
    cbn -[Qlt_le_dec idf Qmult inject_Z];
    repeat match goal with
         | |- context [Qlt_le_dec ?a ?b] =>
             destruct (Qlt_le_dec a b) as [Hlt | _];
             [exfalso; exact (Qlt_irrefl _ Hlt) |]
         end;
    cbn -[Qlt_le_dec idf Qmult inject_Z].
  split; reflexivity.
Qed.

(** The two runs, on the sample instance of the package. *)
Lemma extractKeywords_depends_on_history_witness :
  fst (@NlpService.extractKeywords Sample.natural NlpService.create
         "Marketing manager" 10)
    = ["marketing"; "manager"]
  /\ fst (@NlpService.extractKeywords Sample.natural
            (snd (@NlpService.extractKeywords Sample.natural
                    NlpService.create "Python developer" 10))
            "Marketing manager" 10)
    = ["python"; "developer"].
Proof.
  apply (@extractKeywords_depends_on_history Sample.natural); reflexivity.
Defined.

(* ================================================================== *)
(** * Experience levels *)
(* ================================================================== *)

(** C3 (the code departs from the claim).  On the job text
    "5+ years required, 8+ years preferred" the minimum is 5, but so is
    the preferred value: the pattern that looks for the preferred years
    matches from the leftmost number, "5+ years", and lazily runs up to the
    word "preferred". *)
Theorem extractExperienceLevel_required_preferred :
  JobDescriptionService.extractExperienceLevel
    "5+ years required, 8+ years preferred"
  = JobDescriptionService.mkExperienceLevel (JS.Num 5) (JS.Num 5) "Senior".
Proof. vm_compute. reflexivity. Qed.

(** When the two phrases stand on different lines the pattern cannot run
    across the line break, and the preferred value is the second number. *)
Example extractExperienceLevel_two_lines :
  JobDescriptionService.extractExperienceLevel
    "5+ years required,
8+ years preferred"
  = JobDescriptionService.mkExperienceLevel (JS.Num 5) (JS.Num 8) "Senior".
Proof. vm_compute. reflexivity. Qed.

(** C4, as stated, fails on the resume path: a resume with 2 years is
    "Intermediate", not "Entry Level" (nor "Junior"), and a resume with 8
    years is "Senior", not "Senior/Lead". *)
Lemma resume_level_counterexample :
  (ResumeService.years (ResumeService.analyzeExperience "2 years of experience")
     = JS.Num 2
   /\ ResumeService.level (ResumeService.analyzeExperience "2 years of experience")
        <> "Entry Level"
   /\ ResumeService.level (ResumeService.analyzeExperience "2 years of experience")
        <> "Junior")
  /\ (ResumeService.years (ResumeService.analyzeExperience "8 years of experience")
        = JS.Num 8
      /\ ResumeService.level (ResumeService.analyzeExperience "8 years of experience")
           <> "Senior/Lead").
Proof. vm_compute. repeat split; discriminate. Qed.

(** C4 (amended).  With [y] the years of experience found in the text,
    the job path labels [y >= 8] "Senior/Lead", 5-7 "Senior", 3-4
    "Mid-Level", 1-2 "Junior" and 0 "Entry Level"; the resume path labels
    [y >= 10] "Lead/Principal", 5-9 "Senior", 2-4 "Intermediate" and 0-1
    "Entry Level". *)
Theorem experience_level_boundaries (text : string) (y : Z) :
  NlpService.extractExperience text = JS.Num y ->
  let job := JobDescriptionService.level
               (JobDescriptionService.extractExperienceLevel text) in
  let resume := ResumeService.level (ResumeService.analyzeExperience text) in
  JobDescriptionService.minimum
    (JobDescriptionService.extractExperienceLevel text) = JS.Num y
  /\ ResumeService.years (ResumeService.analyzeExperience text) = JS.Num y
  /\ ((8 <= y)%Z -> job = "Senior/Lead")
  /\ ((5 <= y <= 7)%Z -> job = "Senior")
  /\ ((3 <= y <= 4)%Z -> job = "Mid-Level")
  /\ ((1 <= y <= 2)%Z -> job = "Junior")
  /\ ((y <= 0)%Z -> job = "Entry Level")
  /\ ((10 <= y)%Z -> resume = "Lead/Principal")
  /\ ((5 <= y <= 9)%Z -> resume = "Senior")
  /\ ((2 <= y <= 4)%Z -> resume = "Intermediate")
  /\ ((y <= 1)%Z -> resume = "Entry Level").
Proof.
  intros Hy job resume. subst job resume.
  unfold JobDescriptionService.extractExperienceLevel,
    ResumeService.analyzeExperience.
  cbn [JobDescriptionService.level JobDescriptionService.minimum
       ResumeService.level ResumeService.years].
  rewrite Hy.
  unfold JobDescriptionService.levelOf, ResumeService.levelOf, JS.geq.
  repeat split; intros;
    repeat match goal with
           | |- context [(?a <=? ?b)%Z] =>
               destruct (Z.leb_spec a b); try lia
           end;
    reflexivity.
Qed.

(** Eight years: a senior or lead job, a senior resume. *)
Lemma experience_level_boundaries_witness :
  JobDescriptionService.level
    (JobDescriptionService.extractExperienceLevel "8 years of experience")
  = "Senior/Lead"
  /\ ResumeService.level (ResumeService.analyzeExperience "8 years of experience")
     = "Senior".
Proof.
  pose proof (experience_level_boundaries "8 years of experience" 8 eq_refl)
    as (_ & _ & Hjob & _ & _ & _ & _ & _ & Hres & _).
  split; [apply Hjob | apply Hres]; lia.
Defined.

(* ================================================================== *)
(** * Rounding to the nearest double *)
(* ================================================================== *)

Module DoubleFacts.

Local Open Scope Q_scope.

Lemma fl_comp (x y : Q) : x == y -> JS.fl x = JS.fl y.
Proof. intros Hxy. unfold JS.fl. now rewrite (Qred_complete x y Hxy). Qed.

Lemma pow2_pos (k : Z) : 0 < JS.pow2 k.
Proof.
  unfold JS.pow2. destruct (Z.leb_spec 0 k).
  - change 0 with (inject_Z 0). rewrite <- Zlt_Qlt.
    apply Z.pow_pos_nonneg; lia.
  - reflexivity.
Qed.

Lemma pow2_inv (k : Z) : JS.pow2 (- k) * JS.pow2 k == 1.
Proof.
  assert (Hgen : forall j, (0 < j)%Z ->
            (1 # Z.to_pos (2 ^ j)) * inject_Z (2 ^ j) == 1).
  { intros j Hj. unfold Qeq, Qmult, inject_Z. cbn [Qnum Qden].
    assert (0 < 2 ^ j)%Z by (apply Z.pow_pos_nonneg; lia).
    rewrite Pos.mul_1_r, Z2Pos.id by assumption. lia. }
  unfold JS.pow2.
  destruct (Z.leb_spec 0 (- k)); destruct (Z.leb_spec 0 k).
  - assert (k = 0)%Z by lia. subst k. reflexivity.
  - rewrite Qmult_comm. apply Hgen. lia.
  - rewrite Z.opp_involutive. apply Hgen. lia.
  - lia.
Qed.

(** For an exponent that is not positive, scaling an integer gives an
    integer. *)
Lemma pow2_scale (n k : Z) :
  (k <= 0)%Z -> inject_Z n * JS.pow2 (- k) == inject_Z (n * 2 ^ (- k)).
Proof.
  intros Hk. unfold JS.pow2. destruct (Z.leb_spec 0 (- k)); [|lia].
  now rewrite inject_Z_mult.
Qed.

Lemma rint_le (x : Q) (m : Z) : x <= inject_Z m -> (JS.rint x <= m)%Z.
Proof.
  intros Hx. unfold JS.rint.
  assert (Hf : (Qfloor x <= m)%Z).
  { rewrite <- (Qfloor_Z m). now apply Qfloor_resp_le. }
  pose proof (Qfloor_le x) as Hlo.
  destruct (Z.eq_dec (Qfloor x) m) as [Heq | Hne].
  - assert (Hzero : x - inject_Z (Qfloor x) == 0).
    { rewrite Heq in *. lra. }
    assert (Hc : (x - inject_Z (Qfloor x) ?= 1 # 2) = Lt).
    { apply Qlt_alt. rewrite Hzero. reflexivity. }
    rewrite Hc. lia.
  - destruct (_ ?= _); [destruct (Z.even _)| |]; lia.
Qed.

Lemma rint_ge (x : Q) (m : Z) : inject_Z m <= x -> (m <= JS.rint x)%Z.
Proof.
  intros Hx. unfold JS.rint.
  assert (Hf : (m <= Qfloor x)%Z).
  { rewrite <- (Qfloor_Z m). now apply Qfloor_resp_le. }
  destruct (_ ?= _); [destruct (Z.even _)| |]; lia.
Qed.

(** Below 2^53 the last place of a double is at most the unit. *)
Lemma ulp_exp_small (x : Q) (n : Z) :
  0 < x -> x <= inject_Z n -> (n <= 2 ^ 52)%Z -> (JS.ulp_exp x <= 0)%Z.
Proof.
  intros Hpos Hle Hn. unfold JS.ulp_exp, JS.floor_log2.
  destruct x as [p q]. cbn [Qnum Qden].
  assert (Hp : (0 < p)%Z).
  { unfold Qlt in Hpos. cbn in Hpos. lia. }
  assert (Hpq : (p <= Z.pos q * 2 ^ 52)%Z).
  { unfold Qle in Hle. cbn in Hle. nia. }
  assert (Hlog : (Z.log2 p <= 52 + Z.log2 (Z.pos q))%Z).
  { rewrite <- Z.log2_mul_pow2 by lia. now apply Z.log2_le_mono. }
  destruct (Qle_bool _ _); lia.
Qed.

(** For up to 12 required and 9 preferred skills, whatever the numbers
    of skills held, the sum that [calculateMatchScore] forms out of
    [JS.fdiv], [JS.fmul] and [JS.fadd] is the sum that the operations of
    the Standard Library give. *)
Lemma binary64_agrees :
  forallb
    (fun n =>
       forallb
         (fun m =>
            forallb
              (fun q =>
                 forallb
                   (fun p =>
                      match
                        Binary64.toQ
                          (Binary64.add
                             (Binary64.add (Binary64.ofCount 0)
                                (Binary64.points m n 70))
                             (Binary64.points p q 30))
                      with
                      | Some sum =>
                          Qeq_bool sum
                            (JS.fadd
                               (JS.fadd 0
                                  (JS.fmul
                                     (JS.fdiv (inject_Z (Z.of_nat m))
                                        (inject_Z (Z.of_nat n)))
                                     70))
                               (JS.fmul
                                  (JS.fdiv (inject_Z (Z.of_nat p))
                                     (inject_Z (Z.of_nat q)))
                                  30))
                      | None => false
                      end)
                   (seq 0 (S q)))
              (seq 1 9))
         (seq 0 (S n)))
    (seq 1 12)
  = true.
Proof. vm_compute. reflexivity. Qed.

(** Rounding does not cross an integer that is a double. *)
Lemma fl_range (x : Q) (n : Z) :
  0 <= x -> x <= inject_Z n -> (n <= 2 ^ 52)%Z ->
  0 <= JS.fl x /\ JS.fl x <= inject_Z n.
Proof.
  intros Hlo Hhi Hn.
  assert (Hn0 : 0 <= inject_Z n) by lra.
  unfold JS.fl. cbv zeta.
  pose proof (Qred_correct x) as Hred.
  destruct (Qred x) as [p q] eqn:E. cbn [Qnum].
  destruct p as [|p|p].
  - split; [lra | assumption].
  - set (y := Z.pos p # q) in *.
    assert (Hy : 0 < y) by reflexivity.
    assert (Hyn : y <= inject_Z n) by (rewrite Hred; assumption).
    pose proof (ulp_exp_small y n Hy Hyn Hn) as Hk.
    rewrite Qred_correct. unfold JS.nearest. cbv zeta.
    set (k := JS.ulp_exp y) in *.
    pose proof (pow2_pos k) as Hk1. pose proof (pow2_pos (- k)) as Hk2.
    split.
    + apply Qmult_le_0_compat; [|lra].
      change 0 with (inject_Z 0). rewrite <- Zle_Qle.
      apply rint_ge. change (inject_Z 0) with 0.
      apply Qmult_le_0_compat; lra.
    + assert (Hr : (JS.rint (y * JS.pow2 (- k)) <= n * 2 ^ (- k))%Z).
      { apply rint_le. rewrite <- pow2_scale by assumption.
        apply Qmult_le_compat_r; lra. }
      rewrite Zle_Qle in Hr. rewrite <- pow2_scale in Hr by assumption.
      apply (Qmult_le_compat_r _ _ (JS.pow2 k)) in Hr; [|lra].
      rewrite <- Qmult_assoc, pow2_inv, Qmult_1_r in Hr. exact Hr.
  - exfalso. rewrite <- Hred in Hlo. unfold Qle in Hlo. cbn in Hlo. lia.
Qed.

End DoubleFacts.

(* ================================================================== *)
(** * Scores *)
(* ================================================================== *)

Module ScoreFacts.

Local Open Scope Q_scope.

(** A part of a whole, as a fraction, lies between 0 and 1. *)
Lemma fraction_range (m t : nat) :
  (m <= t)%nat -> (0 < t)%nat ->
  0 <= inject_Z (Z.of_nat m) / inject_Z (Z.of_nat t) <= 1.
Proof.
  intros Hm Ht.
  assert (Hpos : 0 < inject_Z (Z.of_nat t)).
  { change 0 with (inject_Z 0). rewrite <- Zlt_Qlt. lia. }
  split.
  - apply Qle_shift_div_l; [assumption|].
    rewrite Qmult_0_l. change 0 with (inject_Z 0). rewrite <- Zle_Qle. lia.
  - apply Qle_shift_div_r; [assumption|].
    rewrite Qmult_1_l. rewrite <- Zle_Qle. lia.
Qed.

Lemma count_nonneg (m : nat) : 0 <= inject_Z (Z.of_nat m).
Proof. change 0 with (inject_Z 0). rewrite <- Zle_Qle. lia. Qed.

(** Rounding keeps a score between 0 and 100. *)
Lemma round_range (x : Q) : 0 <= x <= 100 -> (0 <= JS.round x <= 100)%Z.
Proof.
  intros [Hlo Hhi]. unfold JS.round. split.
  - change 0%Z with (Qfloor 0). apply Qfloor_resp_le. lra.
  - change 100%Z with (Qfloor (100 + (1 # 2))). apply Qfloor_resp_le. lra.
Qed.

Lemma round_comp (x y : Q) : x == y -> JS.round x = JS.round y.
Proof.
  intros Hxy. unfold JS.round. apply Qfloor_comp. now rewrite Hxy.
Qed.

Lemma heldBy_spec (resumeSkills : list string) (wanted : string) :
  JobDescriptionService.heldBy resumeSkills wanted = true <->
  exists resSkill,
    In resSkill resumeSkills
    /\ (JS.includes (JS.toLowerCase resSkill) (JS.toLowerCase wanted) = true
        \/ JS.includes (JS.toLowerCase wanted) (JS.toLowerCase resSkill)
           = true).
Proof.
  unfold JobDescriptionService.heldBy. rewrite existsb_exists.
  split; intros (r & Hr & Hc); exists r; split; auto.
  - now apply orb_true_iff.
  - now apply orb_true_iff.
Qed.

(** The points of one part of the score: the rounded fraction of the
    skills held, times what the part is worth, rounded. *)
Lemma points_range (m t : nat) (worth : Z) :
  (m <= t)%nat -> (0 < t)%nat -> (0 <= worth <= 2 ^ 52)%Z ->
  0 <= JS.fmul (JS.fdiv (inject_Z (Z.of_nat m)) (inject_Z (Z.of_nat t)))
         (inject_Z worth)
    <= inject_Z worth.
Proof.
  intros Hm Ht [Hw0 Hw1].
  destruct (fraction_range m t Hm Ht) as [Hf0 Hf1].
  destruct (DoubleFacts.fl_range _ 1 Hf0 Hf1) as [Hd0 Hd1]; [lia|].
  fold (JS.fdiv (inject_Z (Z.of_nat m)) (inject_Z (Z.of_nat t))) in Hd0, Hd1.
  set (d := JS.fdiv _ _) in *.
  assert (Hw : 0 <= inject_Z worth)
    by (change 0 with (inject_Z 0); now rewrite <- Zle_Qle).
  unfold JS.fmul. apply DoubleFacts.fl_range; [| |lia].
  - now apply Qmult_le_0_compat.
  - rewrite <- (Qmult_1_l (inject_Z worth)) at 2.
    apply Qmult_le_compat_r; assumption.
Qed.

(** Adding two parts that stay below their worth. *)
Lemma sum_range (a b : Q) (wa wb : Z) :
  0 <= a <= inject_Z wa -> 0 <= b <= inject_Z wb ->
  (wa + wb <= 2 ^ 52)%Z ->
  0 <= JS.fadd a b <= inject_Z (wa + wb).
Proof.
  intros [Ha0 Ha1] [Hb0 Hb1] Hw. unfold JS.fadd.
  apply DoubleFacts.fl_range; [lra | rewrite inject_Z_plus; lra | assumption].
Qed.

(** [calculateMatchScore] lies between 0 and 100. *)
Lemma calculateMatchScore_bounds
      (resumeSkills requiredSkills preferredSkills : list string) :
  (0 <= JobDescriptionService.calculateMatchScore resumeSkills requiredSkills
          preferredSkills <= 100)%Z.
Proof.
  unfold JobDescriptionService.calculateMatchScore.
  destruct requiredSkills as [|r rs]; [cbn; lia|].
  cbn [List.length Nat.eqb].
  set (held := JobDescriptionService.heldBy resumeSkills).
  pose proof (points_range (List.length (filter held (r :: rs)))
                (S (List.length rs)) 70
                (filter_length_le held (r :: rs)) (Nat.lt_0_succ _))
    as Hreq.
  specialize (Hreq ltac:(lia)).
  change (inject_Z 70) with 70 in Hreq.
  set (requiredPoints := JS.fmul _ 70) in *.
  assert (Hzero : 0 <= 0 <= inject_Z 0) by (split; apply Qle_refl).
  pose proof (sum_range 0 requiredPoints 0 70 Hzero Hreq ltac:(lia)) as Hsum.
  cbn [Z.add] in Hsum. set (score := JS.fadd 0 requiredPoints) in *.
  apply round_range.
  destruct preferredSkills as [|p ps]; cbn [List.length Nat.ltb Nat.leb].
  - assert (H30 : 0 <= 30 <= inject_Z 30) by (split; [lra | apply Qle_refl]).
    apply (sum_range score 30 70 30 Hsum H30). lia.
  - pose proof (points_range (List.length (filter held (p :: ps)))
                  (S (List.length ps)) 30
                  (filter_length_le held (p :: ps)) (Nat.lt_0_succ _))
      as Hpref.
    specialize (Hpref ltac:(lia)).
    apply (sum_range score _ 70 30 Hsum Hpref). lia.
Qed.

(** [calculateOverallScore], whatever its arguments, is the rounded and
    capped sum of its four components and lies between 0 and 100. *)
Lemma calculateOverallScore_spec
      (sections : ResumeService.Sections) (skills : ResumeService.Skills)
      (experience : ResumeService.Experience)
      (sentiment : ResumeService.Sentiment) :
  let n := inject_Z (Z.of_nat (List.length (ResumeService.found sections))) in
  let k := inject_Z (Z.of_nat (List.length (ResumeService.skills_found skills))) in
  let e := if JS.gt (ResumeService.years experience) 0 then 15 else 0 in
  let s := ResumeService.sentScore sentiment in
  ResumeService.calculateOverallScore sections skills experience sentiment
  = JS.round (Qmin (40 * (n / 8) + Qmin (30 * k / 10) 30 + e + s) 100)
  /\ (0 <= ResumeService.calculateOverallScore sections skills experience
              sentiment <= 100)%Z.
Proof.
  intros n k e s.
  unfold ResumeService.calculateOverallScore, ResumeService.sectionScore,
    ResumeService.skillScore, ResumeService.expScore.
  fold n k e s.
  assert (Hn : 0 <= n) by apply count_nonneg.
  assert (Hk : 0 <= k) by apply count_nonneg.
  assert (He : 0 <= e) by (subst e; destruct (JS.gt _ _); lra).
  assert (Hs : 0 <= s).
  { subst s. unfold ResumeService.sentScore.
    repeat destruct (String.eqb _ _); lra. }
  assert (Hskill : Qmin (k / 10 * 30) 30 == Qmin (30 * k / 10) 30).
  { apply Q.min_compat; [field | reflexivity]. }
  split.
  - apply round_comp. apply Q.min_compat; [|reflexivity].
    rewrite Hskill. field.
  - apply round_range. split.
    + apply Q.min_glb; [|lra].
      assert (Hk' : k / 10 * 30 == 3 * k) by field.
      assert (Hn' : n / 8 * 40 == 5 * n) by field.
      assert (0 <= Qmin (k / 10 * 30) 30)
        by (apply Q.min_glb; [rewrite Hk'|]; lra).
      rewrite Hn'. lra.
    + apply Q.le_min_r.
Qed.

End ScoreFacts.

(** C2.  When the job lists no required skill the match score is 50,
    whatever the resume and the preferred skills are. *)
Theorem calculateMatchScore_no_required
        (resumeSkills preferredSkills : list string) :
  JobDescriptionService.calculateMatchScore resumeSkills [] preferredSkills
  = 50%Z.
Proof. reflexivity. Qed.

(** The scenario behind C2, through [compareResumeWithJob]: a job text
    with no required and three preferred skills, and a resume that holds
    the three of them. *)
Example compareResumeWithJob_only_preferred :
  exists job svc',
    @JobDescriptionService.compareResumeWithJob Sample.natural
      Sample.compromise NlpService.create
      "I have used Docker, GraphQL and Azure for years"
      "Nice to have: Docker, GraphQL, Azure"
    = (Ok job, svc')
    /\ JobDescriptionService.requiredSkills job = []
    /\ JobDescriptionService.preferredSkills job
       = ["docker"; "azure"; "graphql"]
    /\ JobDescriptionService.matchScore job = Some 50%Z.
Proof.
  eexists; eexists. split; [vm_compute; reflexivity|].
  repeat split.
Qed.

(** C6.  The match score is an integer between 0 and 100.  With at least
    one required skill it is the rounded sum of the required part, 70 times
    the fraction of required skills held by the resume, and of the
    preferred part: 30 times the fraction of preferred skills held, or the
    full 30 when no preferred skill is listed.  The fractions, the
    products and the sums are the doubles that JavaScript computes; the
    required part lies between 0 and 70, the preferred part between 0 and
    30.  A skill is held when some resume skill contains it or is
    contained in it, case ignored.  With no required skill the score is
    50. *)
Theorem calculateMatchScore_range
        (resumeSkills requiredSkills preferredSkills : list string) :
  let score :=
    JobDescriptionService.calculateMatchScore resumeSkills requiredSkills
      preferredSkills in
  let held := JobDescriptionService.heldBy resumeSkills in
  let fraction := fun wanted : list string =>
    JS.fdiv (inject_Z (Z.of_nat (List.length (filter held wanted))))
      (inject_Z (Z.of_nat (List.length wanted))) in
  let requiredPoints := JS.fadd 0 (JS.fmul (fraction requiredSkills) 70) in
  let preferredPoints :=
    match preferredSkills with
    | [] => 30%Q
    | _ :: _ => JS.fmul (fraction preferredSkills) 30
    end in
  (0 <= score <= 100)%Z
  /\ (forall wanted,
        held wanted = true <->
        exists resSkill,
          In resSkill resumeSkills
          /\ (JS.includes (JS.toLowerCase resSkill) (JS.toLowerCase wanted)
              = true
              \/ JS.includes (JS.toLowerCase wanted) (JS.toLowerCase resSkill)
                 = true))
  /\ match requiredSkills with
     | [] => score = 50%Z
     | _ :: _ =>
         (0 <= requiredPoints <= 70)%Q
         /\ (0 <= preferredPoints <= 30)%Q
         /\ score = JS.round (JS.fadd requiredPoints preferredPoints)
     end.
Proof.
  intros score held fraction requiredPoints preferredPoints.
  assert (Hpoints : forall (wanted : list string) (worth : Z),
             wanted <> [] -> (0 <= worth <= 2 ^ 52)%Z ->
             (0 <= JS.fmul (fraction wanted) (inject_Z worth)
              <= inject_Z worth)%Q).
  { intros wanted worth Hne Hworth. apply ScoreFacts.points_range.
    - apply filter_length_le.
    - destruct wanted; [contradiction | simpl; lia].
    - assumption. }
  assert (Hreq : requiredSkills <> [] -> (0 <= requiredPoints <= 70)%Q).
  { intros Hne. subst requiredPoints.
    apply (ScoreFacts.sum_range 0 _ 0%Z 70%Z).
    - split; apply Qle_refl.
    - apply (Hpoints requiredSkills 70%Z Hne). lia.
    - lia. }
  assert (Hpref : (0 <= preferredPoints <= 30)%Q).
  { subst preferredPoints. destruct preferredSkills as [|p ps].
    - split; lra.
    - apply (Hpoints (p :: ps) 30%Z); [discriminate | lia]. }
  split; [|split].
  - apply ScoreFacts.calculateMatchScore_bounds.
  - intros wanted. apply ScoreFacts.heldBy_spec.
  - destruct requiredSkills as [|r rs]; [reflexivity|].
    split; [apply Hreq; discriminate|]. split; [exact Hpref|].
    subst score requiredPoints preferredPoints fraction held.
    unfold JobDescriptionService.calculateMatchScore.
    cbn [List.length Nat.eqb].
    destruct preferredSkills as [|p ps]; reflexivity.
Qed.

(** The sums of the match score are sums of doubles.  With 11 of 12
    required and 1 of 9 preferred skills the two parts are
    64.16666666666667 and 3.333333333333333; their sum in doubles is just
    below 67.5 and rounds to 67, where 70 * 11/12 + 30 * 1/9 = 67.5 taken
    exactly would round to 68. *)
Example calculateMatchScore_in_doubles :
  JobDescriptionService.calculateMatchScore
    [ "r01"; "r02"; "r03"; "r04"; "r05"; "r06"; "r07"; "r08"; "r09"; "r10";
      "r11"; "p1" ]
    [ "r01"; "r02"; "r03"; "r04"; "r05"; "r06"; "r07"; "r08"; "r09"; "r10";
      "r11"; "r12" ]
    [ "p1"; "p2"; "p3"; "p4"; "p5"; "p6"; "p7"; "p8"; "p9" ]
  = 67%Z
  /\ JS.round (70 * (11 # 12) + 30 * (1 # 9))%Q = 68%Z.
Proof. split; vm_compute; reflexivity. Qed.

(** C7.  In every resume analysis the overall score is the rounded sum,
    capped at 100, of four components: 40 times the fraction of the 8
    section slots that were found, 30 times a tenth of the number of skills
    found but at most 30, 15 when the years of experience are positive and
    0 otherwise, and 15, 10 or 5 for a positive, neutral or negative
    sentiment.  It is an integer between 0 and 100. *)
Theorem overallScore_components `{Natural} `{Compromise}
        (svc svc' : NlpService.t) (resumeText : string)
        (a : ResumeService.ResumeAnalysis) :
  ResumeService.analyzeResume svc resumeText = (Ok a, svc') ->
  let n := inject_Z (Z.of_nat (List.length
             (ResumeService.found (ResumeService.sections a)))) in
  let k := inject_Z (Z.of_nat (List.length
             (ResumeService.skills_found (ResumeService.skills a)))) in
  let e := if JS.gt (ResumeService.years (ResumeService.experience a)) 0
           then 15%Q else 0%Q in
  let mood := ResumeService.assessment (ResumeService.sentiment a) in
  exists s : Q,
    ((mood = "positive" /\ s = 15%Q)
     \/ (mood = "neutral" /\ s = 10%Q)
     \/ (mood = "negative" /\ s = 5%Q))
    /\ ResumeService.overallScore a
       = JS.round (Qmin (40 * (n / 8) + Qmin (30 * k / 10) 30 + e + s) 100)%Q
    /\ (0 <= ResumeService.overallScore a <= 100)%Z.
Proof.
  intros Hrun. unfold ResumeService.analyzeResume in Hrun.
  destruct (NlpService.extractKeywords svc resumeText 15) as [kw svc0].
  inversion Hrun; subst; clear Hrun.
  cbv zeta.
  cbn [ResumeService.overallScore ResumeService.sections ResumeService.skills
       ResumeService.experience ResumeService.sentiment].
  destruct (ScoreFacts.calculateOverallScore_spec
              (ResumeService.analyzeSections resumeText)
              (ResumeService.analyzeSkills resumeText)
              (ResumeService.analyzeExperience resumeText)
              (ResumeService.analyzeSentiment resumeText)) as [Heq Hrange].
  exists (ResumeService.sentScore (ResumeService.analyzeSentiment resumeText)).
  split; [|split; [exact Heq | exact Hrange]].
  unfold ResumeService.analyzeSentiment, NlpService.analyzeSentiment,
    ResumeService.sentScore.
  cbn [ResumeService.assessment NlpService.assessment NlpService.score].
  destruct (getSentiment _) as [q|].
  - destruct (Qlt_le_dec (3 # 10) q); [left; split; reflexivity|].
    destruct (Qlt_le_dec q (- (3 # 10)));
      [right; right | right; left]; split; reflexivity.
  - right; left; split; reflexivity.
Qed.

(** The score of a short resume, on the sample instances of the packages. *)
Lemma overallScore_components_witness :
  exists a svc',
    @ResumeService.analyzeResume Sample.natural Sample.compromise
      NlpService.create
      "Summary: Python developer, 3 years of experience. Skills: SQL, Docker."
    = (Ok a, svc')
    /\ (0 <= ResumeService.overallScore a <= 100)%Z.
Proof.
  let v := eval vm_compute in
    (@ResumeService.analyzeResume Sample.natural Sample.compromise
       NlpService.create
       "Summary: Python developer, 3 years of experience. Skills: SQL, Docker.")
  in match v with
     | (Ok ?a, ?svc') =>
         exists a, svc';
         assert (E : @ResumeService.analyzeResume Sample.natural
                       Sample.compromise NlpService.create
                       "Summary: Python developer, 3 years of experience. Skills: SQL, Docker."
                     = (Ok a, svc')) by (vm_compute; reflexivity);
         split; [exact E |];
         destruct (@overallScore_components Sample.natural Sample.compromise
                     _ _ _ _ E) as (s & _ & _ & Hrange);
         exact Hrange
     end.
Defined.

(* ================================================================== *)
(** * Interview questions *)
(* ================================================================== *)

Module QuestionFacts.

Import InterviewQuestions SkillsService.

Lemma addIfUnseen_texts (acc : list InterviewQuestion)
      (q : InterviewQuestion) (t : string) :
  In t (map question (addIfUnseen acc q)) <->
  In t (map question acc) \/ t = question q.
Proof.
  unfold addIfUnseen.
  destruct (existsb (sameText q) acc) eqn:E.
  - split; [auto|]. intros [Ht | ->]; [assumption|].
    apply existsb_exists in E as (d & Hd & Hsame).
    unfold sameText in Hsame. apply String.eqb_eq in Hsame.
    rewrite <- Hsame. now apply in_map.
  - rewrite map_app, in_app_iff. simpl. intuition.
Qed.

Lemma addIfUnseen_NoDup (acc : list InterviewQuestion)
      (q : InterviewQuestion) :
  NoDup (map question acc) -> NoDup (map question (addIfUnseen acc q)).
Proof.
  intros Hacc. unfold addIfUnseen.
  destruct (existsb (sameText q) acc) eqn:E; [assumption|].
  rewrite map_app. simpl. apply NoDup_app; [assumption | |].
  - constructor; [simpl; tauto | constructor].
  - intros t Ht [<- | []].
    apply in_map_iff in Ht as (d & Hd & Hin).
    assert (existsb (sameText q) acc = true); [|congruence].
    apply existsb_exists. exists d. split; [assumption|].
    unfold sameText. now apply String.eqb_eq.
Qed.

Lemma fold_addIfUnseen_texts (qs : list InterviewQuestion) :
  forall acc t,
    In t (map question (fold_left addIfUnseen qs acc)) <->
    In t (map question acc) \/ In t (map question qs).
Proof.
  induction qs as [|q qs IH]; intros acc t; simpl.
  - tauto.
  - rewrite IH, addIfUnseen_texts. intuition.
Qed.

Lemma fold_addIfUnseen_NoDup (qs : list InterviewQuestion) :
  forall acc, NoDup (map question acc) ->
              NoDup (map question (fold_left addIfUnseen qs acc)).
Proof.
  induction qs as [|q qs IH]; intros acc Hacc; simpl; [assumption|].
  apply IH. now apply addIfUnseen_NoDup.
Qed.

(** Questions with distinct texts are distinct, and equal as soon as
    their texts are. *)
Lemma distinct_texts_inj (qs : list InterviewQuestion) :
  NoDup (map question qs) ->
  forall x y, In x qs -> In y qs -> question x = question y -> x = y.
Proof.
  induction qs as [|q qs IH]; simpl; intros Hnd x y Hx Hy Heq; [tauto|].
  inversion Hnd as [|? ? Hnotin Hnd']; subst.
  destruct Hx as [-> | Hx], Hy as [-> | Hy]; auto.
  - exfalso. apply Hnotin. rewrite Heq. now apply in_map.
  - exfalso. apply Hnotin. rewrite <- Heq. now apply in_map.
Qed.

Lemma pick_In (d : Difficulty) (qs : list InterviewQuestion)
      (q : InterviewQuestion) :
  In q (pick d qs) -> In q qs /\ difficulty q = d.
Proof.
  intros Hq. apply JSFacts.slice0_In in Hq. apply filter_In in Hq as [? Hd].
  split; [assumption|]. destruct (difficulty q), d; auto; discriminate.
Qed.

Lemma pick_NoDup (d : Difficulty) (qs : list InterviewQuestion) :
  NoDup qs -> NoDup (pick d qs).
Proof. intros. now apply JSFacts.slice0_NoDup, NoDup_filter. Qed.

(** The first loop of [diversifyQuestions] takes no question twice when
    the input has no two questions with the same text. *)
Lemma picked_NoDup (qs : list InterviewQuestion) :
  NoDup (map question qs) ->
  NoDup (map question (pick Easy qs ++ pick Medium qs ++ pick Hard qs)).
Proof.
  intros Hnd. pose proof (NoDup_map_inv _ _ Hnd) as Hqs.
  apply NoDup_map_NoDup_ForallPairs.
  - intros x y Hx Hy Heq.
    apply (distinct_texts_inj qs Hnd); auto.
    + rewrite !in_app_iff in Hx.
      destruct Hx as [Hx | [Hx | Hx]]; now apply pick_In in Hx.
    + rewrite !in_app_iff in Hy.
      destruct Hy as [Hy | [Hy | Hy]]; now apply pick_In in Hy.
  - apply NoDup_app; [now apply pick_NoDup | |].
    + apply NoDup_app; [now apply pick_NoDup | now apply pick_NoDup |].
      intros q H1 H2. apply pick_In in H1 as [_ H1].
      apply pick_In in H2 as [_ H2]. congruence.
    + intros q H1 H2. apply pick_In in H1 as [_ H1].
      rewrite in_app_iff in H2.
      destruct H2 as [H2 | H2]; apply pick_In in H2 as [_ H2]; congruence.
Qed.

Lemma diversifyQuestions_unfold (qs : list InterviewQuestion) :
  diversifyQuestions qs
  = fold_left addIfUnseen qs
      (pick Easy qs ++ pick Medium qs ++ pick Hard qs).
Proof.
  unfold diversifyQuestions, pick. simpl. now rewrite app_nil_r.
Qed.

Lemma fold_addIfUnseen_In (qs : list InterviewQuestion) :
  forall acc d, In d (fold_left addIfUnseen qs acc) -> In d acc \/ In d qs.
Proof.
  induction qs as [|q qs IH]; intros acc d Hd; simpl in *; [auto|].
  apply IH in Hd as [Hd | Hd]; [|auto].
  unfold addIfUnseen in Hd.
  destruct (existsb (sameText q) acc); [auto|].
  apply in_app_or in Hd as [Hd | [<- | []]]; auto.
Qed.

(** Every question of the output is a question of the input. *)
Lemma diversifyQuestions_In (qs : list InterviewQuestion)
      (d : InterviewQuestion) :
  In d (diversifyQuestions qs) -> In d qs.
Proof.
  rewrite diversifyQuestions_unfold. intros Hd.
  apply fold_addIfUnseen_In in Hd as [Hd | Hd]; [|assumption].
  rewrite !in_app_iff in Hd.
  destruct Hd as [Hd | [Hd | Hd]]; now apply pick_In in Hd.
Qed.

Lemma uniq_fixed_NoDup (l : list string) : JS.uniq l = l -> NoDup l.
Proof. intros <-. apply JSFacts.uniq_NoDup. Qed.

End QuestionFacts.

(** C5, as stated, fails.  [diversifyQuestions] does not cap its output:
    on the whole question bank, whose 20 texts are distinct, it returns 20
    questions.  And its first loop does not compare texts: for the skill
    "react" and the role "frontend" the gathered list holds the React
    questions twice, and so does the diversified list. *)
Lemma diversifyQuestions_counterexample :
  List.length
    (SkillsService.diversifyQuestions InterviewQuestions.INTERVIEW_QUESTIONS)
  = 20%nat
  /\ ~ NoDup
       (map InterviewQuestions.question
          (SkillsService.diversifyQuestions
             (InterviewQuestions.getQuestionsBySkills ["react"]
              ++ SkillsService.getRoleSpecificQuestions "frontend"))).
Proof.
  split; [vm_compute; reflexivity|].
  intros Hnd. vm_compute in Hnd.
  inversion Hnd as [|? ? Hnotin _]; subst.
  apply Hnotin. simpl. auto.
Qed.

(** C5 (amended).  [diversifyQuestions] drops no question: the text of
    every input question is in its output.  When no two input questions
    have the same text, no two output questions have, and the output is the
    input in another order.  The cap of 15 is applied by
    [getInterviewPreparation], which returns the first 15 questions of the
    diversified list. *)
Theorem diversifyQuestions_keeps_all
        (questions : list InterviewQuestions.InterviewQuestion) :
  (forall q, In q questions ->
             In (InterviewQuestions.question q)
                (map InterviewQuestions.question
                   (SkillsService.diversifyQuestions questions)))
  /\ (NoDup (map InterviewQuestions.question questions) ->
      NoDup (map InterviewQuestions.question
               (SkillsService.diversifyQuestions questions))
      /\ Permutation questions (SkillsService.diversifyQuestions questions))
  /\ (List.length (JS.slice0 15 (SkillsService.diversifyQuestions questions))
      <= 15)%nat
  /\ (forall (C : Compromise) (skillsText : string) (role : option string),
        (List.length (SkillsService.questions
                        (SkillsService.getInterviewPreparation skillsText role))
         <= 15)%nat).
Proof.
  assert (Hkeep : forall q, In q questions ->
             In (InterviewQuestions.question q)
                (map InterviewQuestions.question
                   (SkillsService.diversifyQuestions questions))).
  { intros q Hq. rewrite QuestionFacts.diversifyQuestions_unfold.
    apply QuestionFacts.fold_addIfUnseen_texts. right. now apply in_map. }
  assert (Hnodup : NoDup (map InterviewQuestions.question questions) ->
             NoDup (map InterviewQuestions.question
                      (SkillsService.diversifyQuestions questions))).
  { intros Hnd. rewrite QuestionFacts.diversifyQuestions_unfold.
    apply QuestionFacts.fold_addIfUnseen_NoDup.
    now apply QuestionFacts.picked_NoDup. }
  split; [exact Hkeep | split; [|split]].
  - intros Hnd. split; [now apply Hnodup|].
    apply NoDup_Permutation.
    + now apply NoDup_map_inv in Hnd.
    + apply Hnodup in Hnd. now apply NoDup_map_inv in Hnd.
    + intros q. split.
      * intros Hq. pose proof (Hkeep q Hq) as Ht.
        apply in_map_iff in Ht as (d & Heq & Hd).
        pose proof (QuestionFacts.diversifyQuestions_In _ _ Hd) as Hd'.
        now rewrite <- (QuestionFacts.distinct_texts_inj questions Hnd d q
                          Hd' Hq Heq).
      * apply QuestionFacts.diversifyQuestions_In.
  - apply JSFacts.slice0_length.
  - intros C skillsText role. apply JSFacts.slice0_length.
Qed.

(** The whole question bank: its texts are distinct, and none is lost. *)
Lemma diversifyQuestions_keeps_all_witness :
  In "Design a URL shortening service like bit.ly."
     (map InterviewQuestions.question
        (SkillsService.diversifyQuestions
           InterviewQuestions.INTERVIEW_QUESTIONS))
  /\ NoDup (map InterviewQuestions.question
              (SkillsService.diversifyQuestions
                 InterviewQuestions.INTERVIEW_QUESTIONS)).
Proof.
  destruct (diversifyQuestions_keeps_all InterviewQuestions.INTERVIEW_QUESTIONS)
    as (Hkeep & Hnodup & _).
  split.
  - apply (Hkeep (InterviewQuestions.mkQuestion
                    "Design a URL shortening service like bit.ly."
                    "System Design" InterviewQuestions.Hard
                    ["System Design"; "Databases"; "Backend"])).
    simpl. tauto.
  - apply Hnodup. apply QuestionFacts.uniq_fixed_NoDup. vm_compute. reflexivity.
Defined.

(* ================================================================== *)
(** * Required and preferred skills of a job *)
(* ================================================================== *)

Module JobFacts.

Import JobDescriptionService.

Lemma classifySkill_buckets (lowerText : string)
      (acc : list string * list string) (skill s : string) :
  (In s (fst (classifySkill lowerText acc skill)) <->
   In s (fst acc) \/ (s = skill /\ bucketOf lowerText s = Required))
  /\ (In s (snd (classifySkill lowerText acc skill)) <->
      In s (snd acc) \/ (s = skill /\ bucketOf lowerText s = Preferred)).
Proof.
  unfold classifySkill.
  destruct (bucketOf lowerText skill) eqn:E; simpl; rewrite ?in_app_iff;
    simpl; split; split; try tauto;
    try (intros [? | [-> ?]]; [tauto | congruence]);
    try (intros [? | [<- | []]]; auto);
    try (intros [? | [-> ?]]; auto).
Qed.

(** After the loop a skill is on [required] exactly when the loop met it and
    decided so, and likewise for [preferred]. *)
Lemma fold_classifySkill (lowerText : string) (skills : list string) :
  forall acc s,
    (In s (fst (fold_left (classifySkill lowerText) skills acc)) <->
     In s (fst acc) \/ (In s skills /\ bucketOf lowerText s = Required))
    /\ (In s (snd (fold_left (classifySkill lowerText) skills acc)) <->
        In s (snd acc) \/ (In s skills /\ bucketOf lowerText s = Preferred)).
Proof.
  induction skills as [|k skills IH]; intros acc s; simpl.
  - tauto.
  - destruct (IH (classifySkill lowerText acc k) s) as [H1 H2].
    destruct (classifySkill_buckets lowerText acc k s) as [H3 H4].
    rewrite H1, H2, H3, H4. split; split; intuition (subst; auto).
Qed.

Section WithPackages.
Context `{Compromise}.

Lemma required_iff (jobText s : string) :
  In s (required (extractSkills jobText)) <->
  In s (NlpService.extractSkills jobText)
  /\ bucketOf (JS.toLowerCase jobText) s = Required.
Proof.
  unfold extractSkills. cbn [required]. rewrite JSFacts.uniq_In.
  destruct (fold_classifySkill (JS.toLowerCase jobText)
              (NlpService.extractSkills jobText) ([], []) s) as [H1 _].
  rewrite H1. simpl. tauto.
Qed.

Lemma preferred_iff (jobText s : string) :
  In s (preferred_ (extractSkills jobText)) <->
  In s (NlpService.extractSkills jobText)
  /\ bucketOf (JS.toLowerCase jobText) s = Preferred.
Proof.
  unfold extractSkills. cbn [preferred_]. rewrite JSFacts.uniq_In.
  destruct (fold_classifySkill (JS.toLowerCase jobText)
              (NlpService.extractSkills jobText) ([], []) s) as [_ H2].
  rewrite H2. simpl. tauto.
Qed.

(** A lexicon entry found in the text is reported by
    [NlpService.extractSkills] and is never skipped by the classification:
    the entries are in lower case, so the search that found them finds
    them again. *)
Lemma lexicon_skill_occurs (text skill : string) :
  In skill NlpService.allSkills ->
  JS.includes (JS.toLowerCase text) skill = true ->
  In skill (NlpService.extractSkills text)
  /\ JS.indexOf (JS.toLowerCase text) (JS.toLowerCase skill) <> (-1)%Z.
Proof.
  intros Hlex Hinc. split.
  - unfold NlpService.extractSkills. apply JSFacts.uniq_In.
    apply in_or_app. left. now apply filter_In.
  - assert (Hlow : JS.toLowerCase skill = skill).
    { revert Hlex. generalize skill.
      apply Forall_forall. repeat constructor. }
    rewrite Hlow. now apply JSFacts.indexOf_found.
Qed.

End WithPackages.

End JobFacts.

(** C8.  A skill extracted from a job text that occurs in the lower-cased
    text is classified by the window that starts 100 code units before its
    first occurrence and ends 100 code units after the start of it: when the
    window holds "required", "must have" or "essential" the skill is a
    required one; otherwise, when it holds "preferred", "nice to have" or
    "bonus", a preferred one; otherwise a required one.  (A skill that does
    not occur in the lower-cased text is left out of both lists.) *)
Theorem extractSkills_classification `{Compromise} (jobText skill : string) :
  In skill (NlpService.extractSkills jobText) ->
  let lowerText := JS.toLowerCase jobText in
  let skillIndex := JS.indexOf lowerText (JS.toLowerCase skill) in
  let context :=
    JS.substring lowerText
      (Z.max 0 (skillIndex - 100))
      (Z.min (Z.of_nat (String.length lowerText)) (skillIndex + 100)) in
  let signalsRequired :=
    JS.includes context "required" || JS.includes context "must have"
    || JS.includes context "essential" in
  let signalsPreferred :=
    JS.includes context "preferred" || JS.includes context "nice to have"
    || JS.includes context "bonus" in
  let isRequired :=
    In skill (JobDescriptionService.required
                (JobDescriptionService.extractSkills jobText)) in
  let isPreferred :=
    In skill (JobDescriptionService.preferred_
                (JobDescriptionService.extractSkills jobText)) in
  (skillIndex = (-1)%Z -> ~ isRequired /\ ~ isPreferred)
  /\ (skillIndex <> (-1)%Z ->
      JS.startsWith (JS.drop (Z.to_nat skillIndex) lowerText)
        (JS.toLowerCase skill) = true
      /\ (forall j, (j < Z.to_nat skillIndex)%nat ->
                    JS.startsWith (JS.drop j lowerText) (JS.toLowerCase skill)
                    = false)
      /\ (signalsRequired = true -> isRequired /\ ~ isPreferred)
      /\ (signalsRequired = false -> signalsPreferred = true ->
          isPreferred /\ ~ isRequired)
      /\ (signalsRequired = false -> signalsPreferred = false ->
          isRequired /\ ~ isPreferred)).
Proof.
  intros Hin lowerText skillIndex context signalsRequired signalsPreferred
    isRequired isPreferred.
  subst isRequired isPreferred.
  rewrite JobFacts.required_iff, JobFacts.preferred_iff.
  fold lowerText.
  assert (Hbucket :
    JobDescriptionService.bucketOf lowerText skill
    = if (skillIndex =? -1)%Z then JobDescriptionService.Skipped
      else if signalsRequired then JobDescriptionService.Required
           else if signalsPreferred then JobDescriptionService.Preferred
                else JobDescriptionService.Required) by reflexivity.
  rewrite Hbucket. split.
  - intros ->. simpl. split; intros [_ ?]; discriminate.
  - intros Hidx.
    destruct (Z.eqb_spec skillIndex (-1)) as [? | _]; [contradiction|].
    split; [|split].
    + subst skillIndex. unfold JS.indexOf in *.
      destruct (JS.find_sub lowerText (JS.toLowerCase skill)) as [i|] eqn:E;
        [|contradiction].
      rewrite Nat2Z.id. now apply JSFacts.find_sub_Some in E.
    + subst skillIndex. unfold JS.indexOf in *.
      destruct (JS.find_sub lowerText (JS.toLowerCase skill)) as [i|] eqn:E;
        [|contradiction].
      rewrite Nat2Z.id. now apply JSFacts.find_sub_Some in E.
    + repeat split; intros; destruct signalsRequired, signalsPreferred;
        try discriminate; try tauto;
        try (intros [_ ?]; discriminate).
Qed.

(** A skill next to the word [required]. *)
Lemma extractSkills_classification_witness :
  In "python"
     (JobDescriptionService.required
        (@JobDescriptionService.extractSkills Sample.compromise
           "Python is required. Docker is a bonus."))
  /\ ~ In "python"
       (JobDescriptionService.preferred_
          (@JobDescriptionService.extractSkills Sample.compromise
             "Python is required. Docker is a bonus.")).
Proof.
  assert (Hin : In "python"
                   (@NlpService.extractSkills Sample.compromise
                      "Python is required. Docker is a bonus."))
    by (vm_compute; tauto).
  destruct (@extractSkills_classification Sample.compromise _ _ Hin)
    as (_ & Hfound).
  destruct Hfound as (_ & _ & Hreq & _).
  - vm_compute. discriminate.
  - apply Hreq. vm_compute. reflexivity.
Defined.

(** C10.  The required and the preferred skills returned by a job analysis
    share no skill, and neither list holds a skill twice. *)
Theorem required_preferred_disjoint `{Natural} `{Compromise}
        (svc svc' : NlpService.t) (jobText : string)
        (job : JobDescriptionService.JobAnalysis) :
  JobDescriptionService.analyzeJobDescription svc jobText = (Ok job, svc') ->
  (forall skill,
      ~ (In skill (JobDescriptionService.requiredSkills job)
         /\ In skill (JobDescriptionService.preferredSkills job)))
  /\ NoDup (JobDescriptionService.requiredSkills job)
  /\ NoDup (JobDescriptionService.preferredSkills job).
Proof.
  intros Hrun.
  assert (Hjob : JobDescriptionService.requiredSkills job
                 = JobDescriptionService.required
                     (JobDescriptionService.extractSkills jobText)
                 /\ JobDescriptionService.preferredSkills job
                    = JobDescriptionService.preferred_
                        (JobDescriptionService.extractSkills jobText)).
  { unfold JobDescriptionService.analyzeJobDescription in Hrun.
    revert Hrun.
    generalize (JobDescriptionService.extractSkills jobText).
    generalize (JobDescriptionService.extractExperienceLevel jobText).
    generalize (JobDescriptionService.extractResponsibilities jobText).
    generalize (JobDescriptionService.extractQualifications jobText).
    generalize (NlpService.extractKeywords svc jobText 20).
    generalize (JobDescriptionService.extractRole jobText).
    intros [role|] [kw svc0] quals resps level skills Hrun;
      [|discriminate].
    injection Hrun as <- _. split; reflexivity. }
  destruct Hjob as [-> ->].
  split; [|split].
  - intros skill [Hreq Hpref].
    apply JobFacts.required_iff in Hreq as [_ Hreq].
    apply JobFacts.preferred_iff in Hpref as [_ Hpref].
    congruence.
  - apply JSFacts.uniq_NoDup.
  - apply JSFacts.uniq_NoDup.
Qed.

(** A job text with both kinds of skills, far enough apart. *)
Lemma required_preferred_disjoint_witness :
  exists job svc',
    @JobDescriptionService.analyzeJobDescription Sample.natural
      Sample.compromise NlpService.create
      "Backend Developer
Python and SQL are required, 5+ years.
We build data services for logistics customers and value careful testing, code review and steady delivery.
Nice to have: Docker, AWS."
    = (Ok job, svc')
    /\ JobDescriptionService.requiredSkills job = ["python"; "sql"; "SQL"]
    /\ JobDescriptionService.preferredSkills job = ["docker"; "aws"; "AWS"]
    /\ NoDup (JobDescriptionService.requiredSkills job).
Proof.
  let v := eval vm_compute in
    (@JobDescriptionService.analyzeJobDescription Sample.natural
       Sample.compromise NlpService.create
       "Backend Developer
Python and SQL are required, 5+ years.
We build data services for logistics customers and value careful testing, code review and steady delivery.
Nice to have: Docker, AWS.")
  in match v with
     | (Ok ?job, ?svc') =>
         exists job, svc';
         assert (E : @JobDescriptionService.analyzeJobDescription
                       Sample.natural Sample.compromise NlpService.create
                       "Backend Developer
Python and SQL are required, 5+ years.
We build data services for logistics customers and value careful testing, code review and steady delivery.
Nice to have: Docker, AWS."
                     = (Ok job, svc')) by (vm_compute; reflexivity);
         split; [exact E |];
         destruct (@required_preferred_disjoint Sample.natural
                     Sample.compromise _ _ _ _ E) as (_ & Hnd & _);
         split; [reflexivity | split; [reflexivity | exact Hnd]]
     end.
Defined.

(* ================================================================== *)
(** * The core operations never raise *)
(* ================================================================== *)

Module TotalityFacts.

Import Regex JobDescriptionService.

(** Both role patterns go through their group 1 on every match, so
    [match[1].trim()] is never called on [undefined]. *)
Lemma roleOfLine_Ok (line : string) (r : result string) :
  roleOfLine rolePatterns line = Some r -> exists v, r = Ok v.
Proof.
  unfold rolePatterns. cbn [roleOfLine].
  match goal with
  | |- context [exec ?p line] =>
      destruct (exec p line) as [m|] eqn:E1;
      [pose proof (RegexFacts.exec_binds 1 p line m E1 eq_refl) as Hg|]
  end.
  - intros Hr; inversion Hr; subst.
    destruct (group m 1); [eauto | contradiction].
  - match goal with
    | |- context [exec ?p line] =>
        destruct (exec p line) as [m|] eqn:E2;
        [pose proof (RegexFacts.exec_binds 1 p line m E2 eq_refl) as Hg|]
    end.
    + intros Hr; inversion Hr; subst.
      destruct (group m 1); [eauto | contradiction].
    + discriminate.
Qed.

Lemma roleOfLines_Ok (lines : list string) :
  exists v, roleOfLines lines = Ok v.
Proof.
  induction lines as [|line lines IH]; cbn [roleOfLines]; [eauto|].
  destruct (roleOfLine rolePatterns line) as [r|] eqn:E.
  - now apply roleOfLine_Ok in E.
  - destruct (_ && _); eauto.
Qed.

Lemma extractRole_Ok (jobText : string) :
  exists v, extractRole jobText = Ok v.
Proof. apply roleOfLines_Ok. Qed.

(** The two numbers of an experience level are numbers. *)
Lemma extractExperienceLevel_numbers (jobText : string) :
  exists lo hi,
    minimum (extractExperienceLevel jobText) = JS.Num lo
    /\ preferred (extractExperienceLevel jobText) = JS.Num hi
    /\ (0 <= lo)%Z /\ (0 <= hi)%Z.
Proof.
  unfold extractExperienceLevel. cbn [minimum preferred].
  destruct (NlpFacts.extractExperience_number jobText) as (lo & Hlo & Hlo0).
  exists lo. rewrite Hlo.
  destruct (exec preferredYears jobText) as [m|] eqn:E.
  - destruct (NlpFacts.parseInt_group_number _ _ _ E) as (hi & Hhi & Hhi0).
    + cbv; intuition discriminate.
    + exists hi. auto.
  - exists lo. auto.
Qed.

End TotalityFacts.

(** C9.  [analyzeResume], [analyzeJobDescription] and
    [compareResumeWithJob] return a result on every text, and no
    [TypeError] is raised on the way.  The years of experience are
    numbers, never [NaN]; the overall score and the match score lie between
    0 and 100; the match score and the recommendations are present exactly
    in the comparison. *)
Theorem core_operations_total `{Natural} `{Compromise}
        (svc : NlpService.t) (resumeText jobText : string) :
  (exists a svc',
      ResumeService.analyzeResume svc resumeText = (Ok a, svc')
      /\ (exists y, ResumeService.years (ResumeService.experience a) = JS.Num y
                    /\ (0 <= y)%Z)
      /\ (0 <= ResumeService.overallScore a <= 100)%Z)
  /\ (exists job svc',
         JobDescriptionService.analyzeJobDescription svc jobText
         = (Ok job, svc')
         /\ (exists lo hi,
                JobDescriptionService.minimum
                  (JobDescriptionService.experienceLevel job) = JS.Num lo
                /\ JobDescriptionService.preferred
                     (JobDescriptionService.experienceLevel job) = JS.Num hi
                /\ (0 <= lo)%Z /\ (0 <= hi)%Z)
         /\ JobDescriptionService.matchScore job = None
         /\ JobDescriptionService.recommendations job = None)
  /\ (exists job svc' score tips,
         JobDescriptionService.compareResumeWithJob svc resumeText jobText
         = (Ok job, svc')
         /\ JobDescriptionService.matchScore job = Some score
         /\ (0 <= score <= 100)%Z
         /\ JobDescriptionService.recommendations job = Some tips).
Proof.
  split; [|split].
  - unfold ResumeService.analyzeResume.
    destruct (NlpService.extractKeywords svc resumeText 15) as [kw svc0].
    eexists; eexists; split; [reflexivity|].
    cbn [ResumeService.experience ResumeService.overallScore].
    split.
    + unfold ResumeService.analyzeExperience. cbn [ResumeService.years].
      apply NlpFacts.extractExperience_number.
    + apply ScoreFacts.calculateOverallScore_spec.
  - unfold JobDescriptionService.analyzeJobDescription.
    destruct (TotalityFacts.extractRole_Ok jobText) as (role & ->).
    destruct (NlpService.extractKeywords svc jobText 20) as [kw svc0].
    eexists; eexists; split; [reflexivity|].
    cbn [JobDescriptionService.experienceLevel
         JobDescriptionService.matchScore
         JobDescriptionService.recommendations].
    split; [apply TotalityFacts.extractExperienceLevel_numbers | auto].
  - unfold JobDescriptionService.compareResumeWithJob,
      JobDescriptionService.analyzeJobDescription.
    destruct (TotalityFacts.extractRole_Ok jobText) as (role & ->).
    destruct (NlpService.extractKeywords svc jobText 20) as [kw svc0].
    eexists; eexists; eexists; eexists; split; [reflexivity|].
    cbn [JobDescriptionService.matchScore
         JobDescriptionService.recommendations].
    split; [reflexivity|]. split; [|reflexivity].
    apply ScoreFacts.calculateMatchScore_bounds.
Qed.

(** A text without sections, skills, years or sentiment words: every list
    is empty, the years are 0, the labels are the default ones. *)
Example featureless_resume :
  exists a svc',
    @ResumeService.analyzeResume Sample.natural Sample.compromise
      NlpService.create "lorem ipsum dolor sit amet" = (Ok a, svc')
    /\ ResumeService.found (ResumeService.sections a) = []
    /\ ResumeService.skills_found (ResumeService.skills a) = []
    /\ ResumeService.experience a
       = ResumeService.mkExperience (JS.Num 0) "Entry Level"
    /\ ResumeService.assessment (ResumeService.sentiment a) = "neutral"
    /\ ResumeService.overallScore a = 10%Z.
Proof.
  eexists; eexists. split; [vm_compute; reflexivity|].
  repeat split.
Qed.

Example featureless_comparison :
  exists job svc',
    @JobDescriptionService.compareResumeWithJob Sample.natural
      Sample.compromise NlpService.create
      "lorem ipsum dolor sit amet" "consectetur adipiscing elit"
    = (Ok job, svc')
    /\ JobDescriptionService.role job = "Not specified"
    /\ JobDescriptionService.requiredSkills job = []
    /\ JobDescriptionService.preferredSkills job = []
    /\ JobDescriptionService.experienceLevel job
       = JobDescriptionService.mkExperienceLevel (JS.Num 0) (JS.Num 0)
           "Entry Level"
    /\ JobDescriptionService.responsibilities job = []
    /\ JobDescriptionService.qualifications job = []
    /\ JobDescriptionService.matchScore job = Some 50%Z.
Proof.
  eexists; eexists. split; [vm_compute; reflexivity|].
  repeat split.
Qed.

(* ================================================================== *)
(** * More facts about strings *)
(* ================================================================== *)

Module TextFacts.

Lemma lower_char_idem (c : ascii) :
  JS.lower_char (JS.lower_char c) = JS.lower_char c.
Proof. destruct c as [[] [] [] [] [] [] [] []]; reflexivity. Qed.

Lemma toLowerCase_idem (s : string) :
  JS.toLowerCase (JS.toLowerCase s) = JS.toLowerCase s.
Proof.
  induction s as [|c s IH]; simpl; [reflexivity|].
  now rewrite lower_char_idem, IH.
Qed.

Lemma toLowerCase_app (a b : string) :
  JS.toLowerCase (a ++ b) = (JS.toLowerCase a ++ JS.toLowerCase b)%string.
Proof. induction a as [|c a IH]; simpl; [reflexivity | now rewrite IH]. Qed.

(** Lower-casing and the folding of A-Z agree on a code unit, or both
    leave the ASCII range. *)
Lemma lower_char_ascii (c : ascii) :
  Ascii.eqb (JS.lower_char c) (JS.lower_ascii_char c)
  || ((128 <=? JS.code (JS.lower_char c))%nat
      && (128 <=? JS.code (JS.lower_ascii_char c))%nat) = true.
Proof. destruct c as [[] [] [] [] [] [] [] []]; reflexivity. Qed.

(** A text is an ASCII text, lower-cased, exactly when it is that text
    with its letters A-Z folded. *)
Lemma lowerASCII_plain (w : string) :
  forallb (fun c => (JS.code c <? 128)%nat) (list_ascii_of_string w) = true ->
  forall m, JS.toLowerCase m = w <-> JS.lowerASCII m = w.
Proof.
  induction w as [|c w IH]; intros Hplain m.
  - destruct m; simpl; split; intros Hm; first [reflexivity | discriminate].
  - cbn [list_ascii_of_string forallb] in Hplain.
    apply andb_true_iff in Hplain as [Hc Hw]. apply Nat.ltb_lt in Hc.
    destruct m as [|d m]; [split; discriminate|]. simpl.
    pose proof (lower_char_ascii d) as Hd.
    apply orb_true_iff in Hd as [Hd | Hd].
    + apply Ascii.eqb_eq in Hd. rewrite Hd.
      split; intros Hm; inversion Hm; subst; f_equal; now apply (IH Hw).
    + apply andb_true_iff in Hd as [H1 H2].
      apply Nat.leb_le in H1, H2.
      split; intros Hm; inversion Hm; subst; lia.
Qed.

Lemma append_assoc (a b c : string) :
  ((a ++ b) ++ c = a ++ (b ++ c))%string.
Proof. induction a as [|x a IH]; simpl; [reflexivity | now rewrite IH]. Qed.

Lemma append_length (a b : string) :
  String.length (a ++ b) = (String.length a + String.length b)%nat.
Proof. induction a; simpl; auto. Qed.

Lemma append_nil_r (a : string) : (a ++ "")%string = a.
Proof. induction a as [|x a IH]; simpl; [reflexivity | now rewrite IH]. Qed.

(** A text includes itself. *)
Lemma includes_refl (s : string) : JS.includes s s = true.
Proof.
  apply JSFacts.includes_spec. exists EmptyString, EmptyString.
  simpl. now rewrite append_nil_r.
Qed.

Lemma take_all (s : string) : JS.take (String.length s) s = s.
Proof. induction s as [|c s IH]; simpl; [reflexivity | now rewrite IH]. Qed.

(** [s.substring(a, b)] is the whole text when [a] is not positive and [b]
    is not below the length. *)
Lemma substring_whole (s : string) (a b : Z) :
  (a <= 0)%Z -> (Z.of_nat (String.length s) <= b)%Z ->
  JS.substring s a b = s.
Proof.
  intros Ha Hb. unfold JS.substring, JS.clamp.
  replace (Z.to_nat (Z.max 0 (Z.min a (Z.of_nat (String.length s)))))
    with 0%nat by lia.
  replace (Z.to_nat (Z.max 0 (Z.min b (Z.of_nat (String.length s)))))
    with (String.length s) by lia.
  rewrite Nat.min_0_l, Nat.max_0_l, Nat.sub_0_r. simpl. apply take_all.
Qed.

Lemma trimStart_head (s : string) (c : ascii) (t : string) :
  JS.trimStart s = String c t -> JS.is_space c = false.
Proof.
  induction s as [|d s IH]; simpl; [discriminate|].
  destruct (JS.is_space d) eqn:E; [assumption|].
  intros Hs; inversion Hs; subst. assumption.
Qed.

Lemma trimEnd_cons (c : ascii) (s : string) :
  JS.trimEnd (String c s)
  = match JS.trimEnd s with
    | EmptyString => if JS.is_space c then EmptyString else String c EmptyString
    | t => String c t
    end.
Proof. reflexivity. Qed.

Lemma trimEnd_idem (s : string) : JS.trimEnd (JS.trimEnd s) = JS.trimEnd s.
Proof.
  induction s as [|c s IH]; [reflexivity|].
  rewrite trimEnd_cons. destruct (JS.trimEnd s) as [|d t] eqn:E.
  - destruct (JS.is_space c) eqn:Hc; [reflexivity|].
    rewrite trimEnd_cons. simpl. now rewrite Hc.
  - rewrite trimEnd_cons, IH. reflexivity.
Qed.

Lemma trimEnd_keeps_head (c : ascii) (t : string) :
  JS.is_space c = false -> exists u, JS.trimEnd (String c t) = String c u.
Proof.
  intros Hc. rewrite trimEnd_cons. destruct (JS.trimEnd t); rewrite ?Hc; eauto.
Qed.

(** A trimmed text stays as it is when trimmed again: it has no white
    space at either end. *)
Lemma trim_idem (s : string) : JS.trim (JS.trim s) = JS.trim s.
Proof.
  unfold JS.trim. destruct (JS.trimStart s) as [|c t] eqn:E; [reflexivity|].
  pose proof (trimStart_head _ _ _ E) as Hc.
  destruct (trimEnd_keeps_head c t Hc) as (u & Hu). rewrite Hu.
  cbn [JS.trimStart]. rewrite Hc, <- Hu. apply trimEnd_idem.
Qed.

Lemma trimEnd_length (s : string) :
  (String.length (JS.trimEnd s) <= String.length s)%nat.
Proof.
  induction s as [|c s IH]; [simpl; lia|].
  rewrite trimEnd_cons.
  destruct (JS.trimEnd s); [destruct (JS.is_space c)|]; simpl in *; lia.
Qed.

Lemma trimStart_length (s : string) :
  (String.length (JS.trimStart s) <= String.length s)%nat.
Proof.
  induction s as [|c s IH]; simpl; [lia|].
  destruct (JS.is_space c); simpl; lia.
Qed.

Lemma trim_length (s : string) :
  (String.length (JS.trim s) <= String.length s)%nat.
Proof.
  unfold JS.trim. pose proof (trimEnd_length (JS.trimStart s)).
  pose proof (trimStart_length s). lia.
Qed.

(** An occurrence starts inside the text. *)
Lemma find_sub_le (sub s : string) :
  forall i, JS.find_sub s sub = Some i -> (i <= String.length s)%nat.
Proof.
  induction s as [|c s IH]; intros i Hf.
  - simpl in Hf. destruct (JS.startsWith "" sub); [|discriminate].
    inversion Hf; subst. simpl. lia.
  - cbn [JS.find_sub] in Hf.
    destruct (JS.startsWith (String c s) sub); [inversion Hf; lia|].
    destruct (JS.find_sub s sub) as [i'|]; [|discriminate].
    inversion Hf; subst. specialize (IH i' eq_refl). simpl. lia.
Qed.

End TextFacts.

(* ================================================================== *)
(** * Literal patterns *)
(* ================================================================== *)

Module LiteralFacts.

Import Regex RegexFacts.

(** What a match consumes is a prefix of what was left. *)
Lemma Matches_consumes (r : regex) (x y : state) :
  Matches r x y -> exists v, rest x = (v ++ rest y)%string.
Proof.
  induction 1; simpl; try (now exists EmptyString).
  - exists (String c EmptyString). simpl. assumption.
  - destruct IHMatches1 as (v1 & Hv1), IHMatches2 as (v2 & Hv2).
    exists (v1 ++ v2)%string. now rewrite Hv1, Hv2, TextFacts.append_assoc.
  - assumption.
  - assumption.
  - destruct IHMatches1 as (v1 & Hv1), IHMatches2 as (v2 & Hv2).
    exists (v1 ++ v2)%string. now rewrite Hv1, Hv2, TextFacts.append_assoc.
  - assumption.
Qed.

Lemma chr_i_Matches (c : ascii) (x y : state) :
  Matches (chr_i c) x y ->
  exists d, rest x = String d (rest y)
            /\ JS.lower_char d = JS.lower_char c.
Proof.
  intros Hm. inversion Hm as [|p d s' x0 Hrest Hp| | | | | | | |]; subst.
  exists d. simpl. split; [assumption | now apply Ascii.eqb_eq].
Qed.

(** A case-insensitive literal consumes a text that is the literal, case
    ignored. *)
Lemma lit_i_Matches (w : string) :
  forall x y, Matches (lit_i w) x y ->
    exists u, rest x = (u ++ rest y)%string
              /\ JS.toLowerCase u = JS.toLowerCase w.
Proof.
  induction w as [|c w IH]; intros x y Hm.
  - inversion Hm; subst. now exists EmptyString.
  - destruct w as [|c' w'].
    + apply chr_i_Matches in Hm as (d & Hd & Hl).
      exists (String d EmptyString). simpl. rewrite Hl. auto.
    + change (lit_i (String c (String c' w')))
        with (Seq (chr_i c) (lit_i (String c' w'))) in Hm.
      inversion Hm as [| |r1 r2 x0 y1 z0 H1 H2| | | | | | |]; subst.
      apply chr_i_Matches in H1 as (d & Hd & Hl).
      apply IH in H2 as (u & Hu & Hlu).
      exists (String d u). simpl. rewrite Hd, Hu, Hl, Hlu. auto.
Qed.

(** Conversely, such a text is consumed by the literal. *)
Lemma lit_i_complete (w : string) :
  forall u x tail,
    JS.toLowerCase u = JS.toLowerCase w ->
    rest x = (u ++ tail)%string ->
    exists y, Matches (lit_i w) x y /\ rest y = tail.
Proof.
  induction w as [|c w IH]; intros u x tail Hl Hrest.
  - destruct u; [|discriminate]. exists x. split; [constructor | assumption].
  - destruct u as [|d u]; [discriminate|]. simpl in Hl.
    inversion Hl as [[Hc Hw]].
    assert (Hstep : Matches (chr_i c) x
                      (mkState (S (endIndex x)) (u ++ tail)%string (caps x))).
    { eapply M_Chr; [exact Hrest|]. rewrite Hc. apply Ascii.eqb_refl. }
    destruct w as [|c' w'].
    + destruct u; [|discriminate]. eexists; split; [exact Hstep | reflexivity].
    + destruct (IH u (mkState (S (endIndex x)) (u ++ tail)%string (caps x))
                  tail Hw eq_refl) as (y & Hy & Ht).
      exists y. split; [|assumption].
      change (lit_i (String c (String c' w')))
        with (Seq (chr_i c) (lit_i (String c' w'))).
      econstructor; eauto.
Qed.

Lemma alts_Matches (rs : list regex) (x y : state) :
  rs <> [] ->
  (Matches (alts rs) x y <-> exists r, In r rs /\ Matches r x y).
Proof.
  induction rs as [|r rs IH]; intros Hne; [contradiction|].
  destruct rs as [|r' rs'].
  - simpl. split; [eauto | intros (r0 & [<- | []] & ?); assumption].
  - change (alts (r :: r' :: rs')) with (Alt r (alts (r' :: rs'))).
    split.
    + intros Hm. inversion Hm; subst.
      * exists r. simpl; auto.
      * apply IH in H3 as (r0 & ? & ?); [|discriminate].
        exists r0. simpl in *; auto.
    + intros (r0 & [<- | Hin] & Hm).
      * now apply M_AltL.
      * apply M_AltR. apply IH; [discriminate | eauto].
Qed.

(** Where an alternation of case-insensitive words is found, the
    lower-cased text includes one of the words, lower-cased. *)
Lemma test_words (words : list string) (text : string) :
  words <> [] ->
  test (alts (map lit_i words)) text = true ->
  exists w, In w words
            /\ JS.includes (JS.toLowerCase text) (JS.toLowerCase w) = true.
Proof.
  intros Hne.
  assert (Hne' : map lit_i words <> []) by (destruct words; [auto | discriminate]).
  rewrite test_spec.
  intros (pos & y & Hpos & Hm).
  apply (alts_Matches _ _ _ Hne') in Hm as (r & Hr & Hm).
  apply in_map_iff in Hr as (w & <- & Hw).
  apply lit_i_Matches in Hm as (u & Hu & Hl). simpl in Hu.
  exists w. split; [assumption|].
  apply JSFacts.includes_spec.
  destruct (JSFacts.drop_split text pos) as (a & Ha).
  exists (JS.toLowerCase a), (JS.toLowerCase (rest y)).
  rewrite Ha at 1. rewrite Hu, !TextFacts.toLowerCase_app, Hl. reflexivity.
Qed.

(** The same for words written in lower case. *)
Lemma test_lower_words (words : list string) (text : string) :
  Forall (fun w => JS.toLowerCase w = w) words ->
  words <> [] ->
  test (alts (map lit_i words)) text = true ->
  exists w, In w words /\ JS.includes (JS.toLowerCase text) w = true.
Proof.
  intros Hlow Hne Ht.
  destruct (test_words words text Hne Ht) as (w & Hw & Hinc).
  rewrite Forall_forall in Hlow. exists w. split; [assumption|].
  now rewrite <- (Hlow w Hw).
Qed.

(** An alternation of case-insensitive ASCII words, written in lower
    case, is found in a text exactly when the text includes one of the
    words with each letter in either case. *)
Lemma test_ascii_words (words : list string) (text : string) :
  Forall (fun w =>
            JS.toLowerCase w = w
            /\ forallb (fun c => (JS.code c <? 128)%nat)
                 (list_ascii_of_string w) = true) words ->
  words <> [] ->
  (test (alts (map lit_i words)) text = true <->
   exists w occurrence,
     In w words
     /\ JS.includes text occurrence = true
     /\ JS.lowerASCII occurrence = w).
Proof.
  intros Hwords Hne. rewrite Forall_forall in Hwords.
  assert (Hne' : map lit_i words <> []) by (destruct words; [auto | discriminate]).
  rewrite test_spec. split.
  - intros (pos & y & Hpos & Hm).
    apply (alts_Matches _ _ _ Hne') in Hm as (r & Hr & Hm).
    apply in_map_iff in Hr as (w & <- & Hw).
    apply lit_i_Matches in Hm as (u & Hu & Hl). simpl in Hu.
    destruct (Hwords w Hw) as [Hlow Hplain]. rewrite Hlow in Hl.
    exists w, u. split; [assumption|]. split.
    + apply JSFacts.includes_spec.
      destruct (JSFacts.drop_split text pos) as (a & Ha).
      exists a, (rest y). rewrite Ha at 1. now rewrite Hu.
    + now apply (TextFacts.lowerASCII_plain w Hplain).
  - intros (w & u & Hw & Hinc & Hfold).
    destruct (Hwords w Hw) as [Hlow Hplain].
    apply (TextFacts.lowerASCII_plain w Hplain) in Hfold.
    apply JSFacts.includes_spec in Hinc as (a & b & ->).
    destruct (lit_i_complete w u
                (mkState (String.length a) (u ++ b)%string no_captures) b)
      as (y & Hy & _); [now rewrite Hlow | reflexivity |].
    exists (String.length a), y. split.
    + rewrite !TextFacts.append_length. lia.
    + rewrite JSFacts.drop_app.
      apply (alts_Matches _ _ _ Hne'). exists (lit_i w).
      split; [now apply in_map | assumption].
Qed.

End LiteralFacts.

(** X1.  Each flag of [extractSections] is true exactly when the text
    includes one of the words of its pattern with each of its letters in
    either case (only the letters A-Z count as capitals), and the sections
    are always the same eight, in the same order. *)
Theorem extractSections_words (text : string) :
  map fst (NlpService.extractSections text)
  = [ "summary"; "experience"; "education"; "skills"; "projects";
      "certifications"; "achievements"; "contact" ]
  /\ Forall
       (fun entry =>
          NlpService.has_section (NlpService.extractSections text) (fst entry)
          = true
          <-> exists w occurrence,
                In w (snd entry)
                /\ JS.includes text occurrence = true
                /\ JS.lowerASCII occurrence = w)
       [ ("summary", ["summary"; "objective"; "profile"]);
         ("experience", ["experience"; "employment"; "work history"]);
         ("education", ["education"; "academic"; "degree"; "university"]);
         ("skills", ["skills"; "technical"; "competencies"]);
         ("projects", ["projects"; "portfolio"]);
         ("certifications", ["certification"; "certificate"; "licensed"]);
         ("achievements", ["achievement"; "award"; "honor"]);
         ("contact", ["email"; "phone"; "linkedin"; "github"]) ].
Proof.
  split; [reflexivity|].
  repeat (apply Forall_cons;
          [ cbn [fst snd];
            match goal with
            | |- _ <-> ex (fun w => ex (fun o => In w ?ws /\ _)) =>
                apply (LiteralFacts.test_ascii_words ws text);
                [repeat constructor | discriminate]
            end |]).
  apply Forall_nil.
Qed.

(* ================================================================== *)
(** * NlpService: skills, years and keywords of a text *)
(* ================================================================== *)

Module ExtractionFacts.

Import Regex RegexFacts NlpService.

(** A pattern that opens with [(\d+)] can only match where a digit
    stands. *)
Lemma leading_digit_input (n : nat) (tail : regex) (x y : state) :
  Matches (Seq (Group n (plus digit)) tail) x y ->
  exists c s', rest x = String c s' /\ JS.is_digit c = true.
Proof.
  intros Hm.
  inversion Hm as [| |r1 r2 x0 y1 z0 Hg Ht| | | | | | |]; subst.
  inversion Hg as [| | | | | | |n0 r0 x0 y0 Hp| |]; subst.
  inversion Hp as [| |r1 r2 x0 x1 z0 Hd Hs| | | | | | |]; subst.
  inversion Hd as [|p c s' x0 Hrest Hc| | | | | | | |]; subst.
  eauto.
Qed.

Lemma drop_chars (s : string) :
  forall k c, In c (list_ascii_of_string (JS.drop k s)) ->
              In c (list_ascii_of_string s).
Proof.
  induction s as [|d s IH]; intros [|k] c Hc; simpl in *; eauto.
Qed.

(** Such a pattern finds nothing in a text without digits. *)
Lemma exec_needs_digit (n : nat) (tail : regex) (text : string) :
  (forall c, In c (list_ascii_of_string text) -> JS.is_digit c = false) ->
  exec (Seq (Group n (plus digit)) tail) text = None.
Proof.
  intros Hnone.
  destruct (exec (Seq (Group n (plus digit)) tail) text) as [m|] eqn:E;
    [|reflexivity].
  assert (Ht : test (Seq (Group n (plus digit)) tail) text = true)
    by (unfold test; now rewrite E).
  apply test_spec in Ht as (pos & y & _ & Hm).
  apply leading_digit_input in Hm as (c & s' & Hrest & Hc). simpl in Hrest.
  assert (Hin : In c (list_ascii_of_string text)).
  { apply (drop_chars text pos). rewrite Hrest. simpl. auto. }
  rewrite (Hnone c Hin) in Hc. discriminate.
Qed.

Lemma extractExperience_no_digit (text : string) :
  (forall c, In c (list_ascii_of_string text) -> JS.is_digit c = false) ->
  extractExperience text = JS.Num 0.
Proof.
  intros Hnone. unfold extractExperience, experiencePatterns.
  cbn [first_match seqs].
  rewrite !(exec_needs_digit 1 _ text Hnone). reflexivity.
Qed.

Section Keywords.
Context `{Natural}.

(** Heavier entries come first. *)
Local Abbreviation heavier :=
  (fun a b : TfIdf.item => (TfIdf.tfidf b <= TfIdf.tfidf a)%Q).

Lemma insert_desc_sorted (x : TfIdf.item) (l : list TfIdf.item) :
  StronglySorted heavier l -> StronglySorted heavier (TfIdf.insert_desc x l).
Proof.
  induction 1 as [|y l Hl IH Hy]; simpl.
  - constructor; constructor.
  - destruct (Qlt_le_dec (TfIdf.tfidf x) (TfIdf.tfidf y)) as [Hlt | Hle].
    + constructor; [assumption|].
      apply Forall_forall. intros z Hz.
      apply NlpFacts.insert_desc_In in Hz as [-> | Hz].
      * now apply Qlt_le_weak.
      * rewrite Forall_forall in Hy. auto.
    + constructor; [now constructor|].
      constructor; [exact Hle|].
      rewrite Forall_forall in *. intros z Hz. simpl in *.
      eapply Qle_trans; [apply Hy; exact Hz | exact Hle].
Qed.

Lemma sort_desc_sorted (l : list TfIdf.item) :
  StronglySorted heavier (TfIdf.sort_desc l).
Proof.
  induction l as [|x l IH]; simpl; [constructor | now apply insert_desc_sorted].
Qed.

(** Sorting rearranges the entries and changes none. *)
Lemma insert_desc_perm (x : TfIdf.item) (l : list TfIdf.item) :
  Permutation (TfIdf.insert_desc x l) (x :: l).
Proof.
  induction l as [|y l IH]; simpl; [reflexivity|].
  destruct (Qlt_le_dec (TfIdf.tfidf x) (TfIdf.tfidf y)); [|reflexivity].
  rewrite IH. apply perm_swap.
Qed.

Lemma sort_desc_perm (l : list TfIdf.item) :
  Permutation (TfIdf.sort_desc l) l.
Proof.
  induction l as [|x l IH]; simpl; [constructor|].
  rewrite insert_desc_perm. now constructor.
Qed.

Lemma slice0_sorted (n : nat) (l : list TfIdf.item) :
  StronglySorted heavier l -> StronglySorted heavier (JS.slice0 n l).
Proof.
  unfold JS.slice0. revert l. induction n as [|n IH]; intros l Hl; simpl;
    [constructor|].
  destruct l as [|x l]; [constructor|].
  inversion Hl as [|? ? Hl' Hx]; subst.
  constructor; [now apply IH|].
  rewrite Forall_forall in *. intros z Hz. apply Hx.
  now apply (JSFacts.slice0_In n l z).
Qed.

End Keywords.

End ExtractionFacts.

(** X2.  [NlpService.extractSkills] reports no skill twice, and reports
    exactly the lexicon entries that the lower-cased text includes and the
    acronyms of the text that are longer than two code units. *)
Theorem nlp_extractSkills_provenance `{Compromise} (text : string) :
  NoDup (NlpService.extractSkills text)
  /\ forall skill,
       In skill (NlpService.extractSkills text) <->
       (In skill NlpService.allSkills
        /\ JS.includes (JS.toLowerCase text) skill = true)
       \/ (In skill (acronyms text) /\ (2 < String.length skill)%nat).
Proof.
  split; [apply JSFacts.uniq_NoDup|].
  intros skill. unfold NlpService.extractSkills.
  rewrite JSFacts.uniq_In, in_app_iff, !filter_In, Nat.ltb_lt. tauto.
Qed.

(** X3.  A text without any digit has 0 years of experience: the job path
    answers minimum 0, preferred 0 and "Entry Level", the resume path 0
    years and "Entry Level". *)
Theorem no_digits_no_experience (text : string) :
  (forall c, In c (list_ascii_of_string text) -> JS.is_digit c = false) ->
  NlpService.extractExperience text = JS.Num 0
  /\ JobDescriptionService.extractExperienceLevel text
     = JobDescriptionService.mkExperienceLevel (JS.Num 0) (JS.Num 0)
         "Entry Level"
  /\ ResumeService.analyzeExperience text
     = ResumeService.mkExperience (JS.Num 0) "Entry Level".
Proof.
  intros Hnone.
  pose proof (ExtractionFacts.extractExperience_no_digit text Hnone) as Hy.
  split; [exact Hy | split].
  - unfold JobDescriptionService.extractExperienceLevel.
    rewrite Hy.
    unfold JobDescriptionService.preferredYears. cbn [Regex.seqs].
    rewrite (ExtractionFacts.exec_needs_digit 1 _ text Hnone). reflexivity.
  - unfold ResumeService.analyzeExperience. rewrite Hy. reflexivity.
Qed.

(** A text that spells its numbers out. *)
Lemma no_digits_no_experience_witness :
  NlpService.extractExperience "Five years of Python, two of SQL" = JS.Num 0.
Proof.
  apply (no_digits_no_experience "Five years of Python, two of SQL").
  apply Forall_forall. vm_compute. repeat constructor.
Defined.

(** X4.  [extractKeywords] returns at most [topN] keywords, each longer
    than three code units.  They are the terms of the first [topN] entries
    of a ranking of the candidates by non-increasing weight, the candidates
    being the entries that [listTerms(0)] gives, with the weights it gives
    them, for the terms longer than three code units.  On a service that
    has seen no text yet they are terms of the given text. *)
Theorem extractKeywords_shape `{Natural}
        (svc : NlpService.t) (text : string) (topN : nat) :
  let keywords := fst (NlpService.extractKeywords svc text topN) in
  let candidates :=
    filter (fun entry => (3 <? String.length (TfIdf.term entry))%nat)
      (TfIdf.listTerms
         (TfIdf.addDocument (NlpService.tfidf svc) (JS.toLowerCase text)) 0) in
  (List.length keywords <= topN)%nat
  /\ Forall (fun k => (3 < String.length k)%nat) keywords
  /\ (exists ranking,
        Permutation ranking candidates
        /\ StronglySorted
             (fun a b => (TfIdf.tfidf b <= TfIdf.tfidf a)%Q) ranking
        /\ keywords = map TfIdf.term (JS.slice0 topN ranking))
  /\ incl (fst (NlpService.extractKeywords NlpService.create text topN))
          (map fst (buildDocument (JS.toLowerCase text))).
Proof.
  cbv zeta. unfold NlpService.extractKeywords. cbn [fst].
  split; [|split; [|split]].
  - rewrite length_map. apply JSFacts.slice0_length.
  - apply Forall_forall. intros k Hk.
    apply in_map_iff in Hk as (it & <- & Hit).
    apply JSFacts.slice0_In in Hit. apply -> NlpFacts.sort_desc_In in Hit.
    apply filter_In in Hit as [_ Hlen]. now apply Nat.ltb_lt.
  - eexists. split; [apply ExtractionFacts.sort_desc_perm|].
    split; [apply ExtractionFacts.sort_desc_sorted | reflexivity].
  - intros k Hk. cbn [NlpService.tfidf NlpService.create] in Hk.
    apply in_map_iff in Hk as (it & <- & Hit).
    apply JSFacts.slice0_In in Hit. apply -> NlpFacts.sort_desc_In in Hit.
    apply filter_In in Hit as [Hit _].
    unfold TfIdf.listTerms, TfIdf.addDocument in Hit.
    cbn [app nth_error] in Hit.
    apply -> NlpFacts.sort_desc_In in Hit.
    apply in_map_iff in Hit as (e & <- & He). cbn [TfIdf.term].
    now apply in_map.
Qed.

(* ================================================================== *)
(** * The job description service, piece by piece *)
(* ================================================================== *)

Module JobPieces.

Import Regex JobDescriptionService.

Lemma roleOfLine_trimmed (patterns : list regex) (line role : string) :
  roleOfLine patterns line = Some (Ok role) -> JS.trim role = role.
Proof.
  induction patterns as [|p ps IH]; cbn [roleOfLine]; [discriminate|].
  destruct (exec p line) as [m|]; [|exact IH].
  destruct (group m 1) as [g|]; [|discriminate].
  intros Hr; inversion Hr; subst. apply TextFacts.trim_idem.
Qed.

Lemma roleOfLines_trimmed (lines : list string) (role : string) :
  roleOfLines lines = Ok role -> JS.trim role = role.
Proof.
  induction lines as [|line lines IH]; cbn [roleOfLines].
  - intros Hr; inversion Hr; subst. reflexivity.
  - destruct (roleOfLine rolePatterns line) as [r|] eqn:E.
    + intros ->. now apply roleOfLine_trimmed in E.
    + destruct (_ && _); [|exact IH].
      intros Hr; inversion Hr; subst. apply TextFacts.trim_idem.
Qed.

(** Every item kept by the scan of a section is longer than 20 and shorter
    than 200. *)
Lemma scanSection_items (enter leave : regex) (lines : list string) :
  forall inSection,
    Forall (fun item => (20 < String.length item < 200)%nat)
      (scanSection enter leave inSection lines).
Proof.
  induction lines as [|line lines IH]; intros inSection; cbn [scanSection];
    [constructor|].
  destruct (test enter (JS.trim line)); [apply IH|].
  destruct (inSection && test leave (JS.trim line)); [constructor|].
  destruct inSection; [|apply IH].
  destruct (_ && _) eqn:E; [|apply IH].
  constructor; [|apply IH].
  apply andb_true_iff in E as [E1 E2].
  apply Nat.ltb_lt in E1, E2. lia.
Qed.

(** Without a header line the scan keeps nothing. *)
Lemma scanSection_closed (enter leave : regex) (lines : list string) :
  (forall line, In line lines -> test enter (JS.trim line) = false) ->
  scanSection enter leave false lines = [].
Proof.
  induction lines as [|line lines IH]; intros Hno; cbn [scanSection];
    [reflexivity|].
  rewrite (Hno line) by (simpl; auto). cbn [andb].
  apply IH. intros l Hl. apply Hno. simpl; auto.
Qed.

(** A resume skill is held by the resume. *)
Lemma heldBy_member (resumeSkills : list string) (skill : string) :
  In skill resumeSkills -> heldBy resumeSkills skill = true.
Proof.
  intros Hin. apply ScoreFacts.heldBy_spec. exists skill.
  split; [assumption | left; apply TextFacts.includes_refl].
Qed.

Lemma filter_all {A : Type} (f : A -> bool) (l : list A) :
  forallb f l = true -> filter f l = l.
Proof.
  induction l as [|a l IH]; simpl; [reflexivity|].
  intros Hf. apply andb_true_iff in Hf as [Ha Hl]. now rewrite Ha, IH.
Qed.

Lemma filter_none {A : Type} (f : A -> bool) (l : list A) :
  forallb f l = true -> filter (fun a => negb (f a)) l = [].
Proof.
  induction l as [|a l IH]; simpl; [reflexivity|].
  intros Hf. apply andb_true_iff in Hf as [Ha Hl]. now rewrite Ha, IH.
Qed.

Lemma filter_none_inv {A : Type} (f : A -> bool) (l : list A) :
  filter (fun a => negb (f a)) l = [] -> forallb f l = true.
Proof.
  induction l as [|a l IH]; simpl; [reflexivity|].
  destruct (f a); simpl; [exact IH | discriminate].
Qed.

Local Open Scope Q_scope.

Lemma whole_fraction (n : nat) :
  inject_Z (Z.of_nat (S n)) / inject_Z (Z.of_nat (S n)) == 1.
Proof.
  apply Qmult_inv_r. intros Hz.
  assert (0 < inject_Z (Z.of_nat (S n)))
    by (change 0 with (inject_Z 0); rewrite <- Zlt_Qlt; lia).
  rewrite Hz in H. now apply Qlt_irrefl in H.
Qed.

Lemma no_fraction (x : Q) : inject_Z (Z.of_nat 0) / x == 0.
Proof. unfold Qdiv. simpl. ring. Qed.

(** The two fractions that are doubles whatever the count. *)
Lemma fdiv_whole (n : nat) :
  JS.fdiv (inject_Z (Z.of_nat (S n))) (inject_Z (Z.of_nat (S n))) = 1.
Proof.
  unfold JS.fdiv. rewrite (DoubleFacts.fl_comp _ 1 (whole_fraction n)).
  vm_compute. reflexivity.
Qed.

Lemma fdiv_none (x : Q) : JS.fdiv (inject_Z (Z.of_nat 0)) x = 0.
Proof.
  unfold JS.fdiv. rewrite (DoubleFacts.fl_comp _ 0 (no_fraction x)).
  reflexivity.
Qed.

(** The score of a resume that holds every required and every preferred
    skill of a job with a required skill. *)
Lemma calculateMatchScore_full
      (resumeSkills requiredSkills preferredSkills : list string) :
  requiredSkills <> [] ->
  forallb (heldBy resumeSkills) requiredSkills = true ->
  forallb (heldBy resumeSkills) preferredSkills = true ->
  calculateMatchScore resumeSkills requiredSkills preferredSkills = 100%Z.
Proof.
  intros Hne Hreq Hpref. unfold calculateMatchScore.
  destruct requiredSkills as [|r rs]; [contradiction|].
  rewrite (filter_all _ _ Hreq).
  cbn [List.length Nat.eqb]. rewrite fdiv_whole.
  destruct preferredSkills as [|p ps]; cbn [List.length Nat.ltb Nat.leb].
  - vm_compute. reflexivity.
  - rewrite (filter_all _ _ Hpref). cbn [List.length]. rewrite fdiv_whole.
    vm_compute. reflexivity.
Qed.

(** What [generateRecommendations] says when nothing is missing. *)
Lemma generateRecommendations_none
      (resumeSkills requiredSkills preferredSkills : list string) :
  forallb (heldBy resumeSkills) requiredSkills = true ->
  forallb (heldBy resumeSkills) preferredSkills = true ->
  generateRecommendations resumeSkills requiredSkills preferredSkills
  = [ "Tailor your resume to include keywords from this job description.";
      "Highlight projects or experiences that demonstrate the required skills." ].
Proof.
  intros Hreq Hpref. unfold generateRecommendations.
  rewrite (filter_none _ _ Hreq), (filter_none _ _ Hpref). reflexivity.
Qed.

(** The messages of [generateRecommendations]: two for missing required
    skills, one for missing preferred skills, then the two tips. *)
Lemma generateRecommendations_parts
      (resumeSkills requiredSkills preferredSkills : list string) :
  let missing := fun wanted : list string =>
    filter (fun s => negb (heldBy resumeSkills s)) wanted in
  exists critical enhance,
    generateRecommendations resumeSkills requiredSkills preferredSkills
    = critical ++ enhance
      ++ [ "Tailor your resume to include keywords from this job description.";
           "Highlight projects or experiences that demonstrate the required skills." ]
    /\ List.length critical
       = (if (0 <? List.length (missing requiredSkills))%nat then 2 else 0)%nat
    /\ List.length enhance
       = (if (0 <? List.length (missing preferredSkills))%nat then 1 else 0)%nat.
Proof.
  intros missing. unfold generateRecommendations. fold (missing requiredSkills).
  fold (missing preferredSkills).
  eexists; eexists. split; [reflexivity|].
  split; destruct (0 <? _)%nat; reflexivity.
Qed.

Section WithPackages.
Context `{Natural} `{Compromise}.

(** The fields of a comparison that come from the two skill lists. *)
Lemma compareResumeWithJob_fields
      (svc svc' : NlpService.t) (resumeText jobText : string)
      (job : JobAnalysis) :
  compareResumeWithJob svc resumeText jobText = (Ok job, svc') ->
  let resumeSkills := NlpService.extractSkills resumeText in
  let skills := extractSkills jobText in
  requiredSkills job = required skills
  /\ preferredSkills job = preferred_ skills
  /\ matchScore job
     = Some (calculateMatchScore resumeSkills (required skills)
               (preferred_ skills))
  /\ recommendations job
     = Some (generateRecommendations resumeSkills (required skills)
               (preferred_ skills)).
Proof.
  intros Hrun. cbv zeta.
  unfold compareResumeWithJob, analyzeJobDescription in Hrun.
  revert Hrun.
  generalize (NlpService.extractSkills resumeText).
  generalize (extractSkills jobText).
  generalize (extractExperienceLevel jobText).
  generalize (extractResponsibilities jobText).
  generalize (extractQualifications jobText).
  generalize (NlpService.extractKeywords svc jobText 20).
  generalize (extractRole jobText).
  intros [role|] [kw svc0] quals resps level skills resumeSkills Hrun;
    [|discriminate].
  injection Hrun as <- _. repeat split; reflexivity.
Qed.

End WithPackages.

End JobPieces.

(** X5.  Each analysis adds exactly one document to the [TfIdf]
    accumulator of the service and keeps the earlier ones: [analyzeResume]
    adds the resume, [analyzeJobDescription] and [compareResumeWithJob] add
    the job text (the resume of a comparison is not added). *)
Theorem analyses_grow_accumulator `{Natural} `{Compromise}
        (svc : NlpService.t) (resumeText jobText : string) :
  NlpService.tfidf (snd (ResumeService.analyzeResume svc resumeText))
  = NlpService.tfidf svc ++ [buildDocument (JS.toLowerCase resumeText)]
  /\ NlpService.tfidf
       (snd (JobDescriptionService.analyzeJobDescription svc jobText))
     = NlpService.tfidf svc ++ [buildDocument (JS.toLowerCase jobText)]
  /\ NlpService.tfidf
       (snd (JobDescriptionService.compareResumeWithJob svc resumeText
               jobText))
     = NlpService.tfidf svc ++ [buildDocument (JS.toLowerCase jobText)].
Proof.
  assert (Hkw : forall text n,
             NlpService.tfidf (snd (NlpService.extractKeywords svc text n))
             = NlpService.tfidf svc ++ [buildDocument (JS.toLowerCase text)])
    by reflexivity.
  split; [|split].
  - rewrite <- (Hkw resumeText 15).
    unfold ResumeService.analyzeResume.
    destruct (NlpService.extractKeywords svc resumeText 15). reflexivity.
  - rewrite <- (Hkw jobText 20).
    unfold JobDescriptionService.analyzeJobDescription.
    destruct (TotalityFacts.extractRole_Ok jobText) as (role & ->).
    destruct (NlpService.extractKeywords svc jobText 20). reflexivity.
  - rewrite <- (Hkw jobText 20).
    unfold JobDescriptionService.compareResumeWithJob,
      JobDescriptionService.analyzeJobDescription.
    destruct (TotalityFacts.extractRole_Ok jobText) as (role & ->).
    destruct (NlpService.extractKeywords svc jobText 20). reflexivity.
Qed.

(** X6.  [extractRole] always answers a role, and the role has no white
    space at either end: trimming it again changes nothing. *)
Theorem extractRole_trimmed (jobText : string) :
  exists role,
    JobDescriptionService.extractRole jobText = Ok role
    /\ JS.trim role = role.
Proof.
  destruct (TotalityFacts.extractRole_Ok jobText) as (role & Hrole).
  exists role. split; [assumption|].
  unfold JobDescriptionService.extractRole in Hrole.
  now apply JobPieces.roleOfLines_trimmed in Hrole.
Qed.

(** X7.  [extractResponsibilities] and [extractQualifications] return at
    most 8 items, each longer than 20 and shorter than 200 code units; and
    they return nothing when no line of the text includes one of their
    header words. *)
Theorem section_items_bounded (jobText : string) :
  let lines := JS.split_lines jobText in
  let without := fun words : list string =>
    forall line w, In line lines -> In w words ->
      JS.includes (JS.toLowerCase (JS.trim line)) w = false in
  ((List.length (JobDescriptionService.extractResponsibilities jobText) <= 8)%nat
   /\ Forall (fun item => (20 < String.length item < 200)%nat)
        (JobDescriptionService.extractResponsibilities jobText)
   /\ (without ["responsibilities"; "duties"; "what you'll do"] ->
       JobDescriptionService.extractResponsibilities jobText = []))
  /\ ((List.length (JobDescriptionService.extractQualifications jobText) <= 8)%nat
      /\ Forall (fun item => (20 < String.length item < 200)%nat)
           (JobDescriptionService.extractQualifications jobText)
      /\ (without ["qualifications"; "requirements"; "what we're looking for"] ->
          JobDescriptionService.extractQualifications jobText = [])).
Proof.
  intros lines without.
  assert (Hgen : forall words leave,
    Forall (fun w => JS.toLowerCase w = w) words -> words <> [] ->
    let items := JS.slice0 8
                   (JobDescriptionService.scanSection
                      (Regex.alts (map Regex.lit_i words)) leave false lines) in
    (List.length items <= 8)%nat
    /\ Forall (fun item => (20 < String.length item < 200)%nat) items
    /\ (without words -> items = [])).
  { intros words leave Hlow Hne items. subst items. split; [|split].
    - apply JSFacts.slice0_length.
    - apply Forall_forall. intros item Hitem.
      apply JSFacts.slice0_In in Hitem.
      pose proof (JobPieces.scanSection_items
                    (Regex.alts (map Regex.lit_i words)) leave lines false)
        as Hall.
      rewrite Forall_forall in Hall. now apply Hall.
    - intros Hno. rewrite JobPieces.scanSection_closed; [reflexivity|].
      intros line Hline.
      destruct (Regex.test (Regex.alts (map Regex.lit_i words))
                  (JS.trim line)) eqn:E; [|reflexivity].
      apply (LiteralFacts.test_lower_words words _ Hlow Hne) in E
        as (w & Hw & Hinc).
      rewrite (Hno line w Hline Hw) in Hinc. discriminate. }
  split.
  - apply (Hgen ["responsibilities"; "duties"; "what you'll do"]);
      [repeat constructor | discriminate].
  - apply (Hgen ["qualifications"; "requirements"; "what we're looking for"]);
      [repeat constructor | discriminate].
Qed.

(** X8.  [generateRecommendations] returns between 2 and 5 messages and
    always ends with the same two general tips; it returns the two tips
    alone exactly when the resume holds every required and every preferred
    skill. *)
Theorem generateRecommendations_shape
        (resumeSkills requiredSkills preferredSkills : list string) :
  let tips :=
    [ "Tailor your resume to include keywords from this job description.";
      "Highlight projects or experiences that demonstrate the required skills." ] in
  let messages :=
    JobDescriptionService.generateRecommendations resumeSkills requiredSkills
      preferredSkills in
  (2 <= List.length messages <= 5)%nat
  /\ (exists before, messages = before ++ tips)
  /\ (messages = tips <->
      forallb (JobDescriptionService.heldBy resumeSkills) requiredSkills
      && forallb (JobDescriptionService.heldBy resumeSkills) preferredSkills
      = true).
Proof.
  intros tips messages. subst messages.
  destruct (JobPieces.generateRecommendations_parts resumeSkills
              requiredSkills preferredSkills)
    as (critical & enhance & Heq & Hc & He).
  cbv zeta in Hc, He. fold tips in Heq. rewrite Heq.
  split; [|split].
  - rewrite !length_app, Hc, He.
    destruct (0 <? _)%nat; destruct (0 <? _)%nat; simpl; lia.
  - exists (critical ++ enhance). now rewrite app_assoc.
  - split.
    + intros Htips. apply (f_equal (@List.length string)) in Htips.
      rewrite !length_app, Hc, He in Htips.
      destruct (filter _ requiredSkills) eqn:Er;
        destruct (filter _ preferredSkills) eqn:Ep;
        simpl in Htips; try lia.
      apply JobPieces.filter_none_inv in Er, Ep. now rewrite Er, Ep.
    + intros Hall. apply andb_true_iff in Hall as [Hreq Hpref].
      rewrite <- Heq.
      apply JobPieces.generateRecommendations_none; assumption.
Qed.

(** X9.  Against a job with at least one required skill, a resume that
    holds every required and every preferred skill scores 100; a resume
    without any skill scores 30 when the job lists no preferred skill and 0
    when it lists one. *)
Theorem calculateMatchScore_extremes
        (resumeSkills preferredSkills : list string)
        (required : string) (others : list string) :
  let requiredSkills := required :: others in
  (forallb (JobDescriptionService.heldBy resumeSkills) requiredSkills
   && forallb (JobDescriptionService.heldBy resumeSkills) preferredSkills
   = true ->
   JobDescriptionService.calculateMatchScore resumeSkills requiredSkills
     preferredSkills = 100%Z)
  /\ JobDescriptionService.calculateMatchScore [] requiredSkills
       preferredSkills
     = match preferredSkills with [] => 30%Z | _ :: _ => 0%Z end.
Proof.
  intros requiredSkills. split.
  - intros Hall. apply andb_true_iff in Hall as [Hreq Hpref].
    apply JobPieces.calculateMatchScore_full; [discriminate | assumption..].
  - unfold JobDescriptionService.calculateMatchScore. subst requiredSkills.
    cbn [List.length Nat.eqb].
    assert (Hnone : forall l, filter (JobDescriptionService.heldBy []) l = [])
      by (induction l; simpl; auto).
    rewrite Hnone.
    cbn [List.length]. rewrite JobPieces.fdiv_none.
    destruct preferredSkills as [|p ps]; cbn [List.length Nat.ltb Nat.leb].
    + vm_compute. reflexivity.
    + rewrite Hnone. cbn [List.length]. rewrite JobPieces.fdiv_none.
      vm_compute. reflexivity.
Qed.

(** A resume that lists the two skills of the job. *)
Lemma calculateMatchScore_extremes_witness :
  JobDescriptionService.calculateMatchScore ["Python 3"; "sql"]
    ["python"; "SQL"] [] = 100%Z.
Proof.
  apply (calculateMatchScore_extremes ["Python 3"; "sql"] [] "python" ["SQL"]).
  vm_compute. reflexivity.
Defined.

(** X10.  A resume that is the job text itself holds every skill of the
    job: the comparison scores 100 (50 when the job has no required skill)
    and recommends the two general tips only. *)
Theorem compare_text_with_itself `{Natural} `{Compromise}
        (svc svc' : NlpService.t) (text : string)
        (job : JobDescriptionService.JobAnalysis) :
  JobDescriptionService.compareResumeWithJob svc text text = (Ok job, svc') ->
  JobDescriptionService.matchScore job
  = Some (match JobDescriptionService.requiredSkills job with
          | [] => 50%Z
          | _ :: _ => 100%Z
          end)
  /\ JobDescriptionService.recommendations job
     = Some
         [ "Tailor your resume to include keywords from this job description.";
           "Highlight projects or experiences that demonstrate the required skills." ].
Proof.
  intros Hrun.
  destruct (JobPieces.compareResumeWithJob_fields _ _ _ _ _ Hrun)
    as (Hreq & Hpref & Hscore & Hrecs).
  rewrite Hscore, Hrecs, Hreq.
  assert (Hr : forallb
                 (JobDescriptionService.heldBy (NlpService.extractSkills text))
                 (JobDescriptionService.required
                    (JobDescriptionService.extractSkills text)) = true).
  { apply forallb_forall. intros s Hs.
    apply JobFacts.required_iff in Hs as [Hs _].
    now apply JobPieces.heldBy_member. }
  assert (Hp : forallb
                 (JobDescriptionService.heldBy (NlpService.extractSkills text))
                 (JobDescriptionService.preferred_
                    (JobDescriptionService.extractSkills text)) = true).
  { apply forallb_forall. intros s Hs.
    apply JobFacts.preferred_iff in Hs as [Hs _].
    now apply JobPieces.heldBy_member. }
  rewrite (JobPieces.generateRecommendations_none _ _ _ Hr Hp).
  split; [|reflexivity].
  revert Hr Hp.
  generalize (NlpService.extractSkills text).
  generalize (JobDescriptionService.preferred_
                (JobDescriptionService.extractSkills text)).
  generalize (JobDescriptionService.required
                (JobDescriptionService.extractSkills text)).
  intros req pref res Hr Hp.
  destruct req as [|r rs]; [reflexivity|].
  rewrite (JobPieces.calculateMatchScore_full res (r :: rs) pref);
    [reflexivity | discriminate | assumption | assumption].
Qed.

(** The same text on both sides, on the sample instances. *)
Lemma compare_text_with_itself_witness :
  exists job svc',
    @JobDescriptionService.compareResumeWithJob Sample.natural
      Sample.compromise NlpService.create
      "Python and Docker are required" "Python and Docker are required"
    = (Ok job, svc')
    /\ JobDescriptionService.matchScore job = Some 100%Z.
Proof.
  let v := eval vm_compute in
    (@JobDescriptionService.compareResumeWithJob Sample.natural
       Sample.compromise NlpService.create
       "Python and Docker are required" "Python and Docker are required")
  in match v with
     | (Ok ?job, ?svc') =>
         exists job, svc';
         assert (E : @JobDescriptionService.compareResumeWithJob
                       Sample.natural Sample.compromise NlpService.create
                       "Python and Docker are required"
                       "Python and Docker are required"
                     = (Ok job, svc')) by (vm_compute; reflexivity);
         split; [exact E |];
         destruct (@compare_text_with_itself Sample.natural Sample.compromise
                     _ _ _ _ E) as (Hscore & _);
         exact Hscore
     end.
Defined.

(* ================================================================== *)
(** * Words a pattern cannot do without *)
(* ================================================================== *)

Module WordFacts.

Import Regex RegexFacts.

(** [Needs words r]: whatever [r] matches, the input left at its start
    holds one of the words, case ignored. *)
Local Abbreviation Needs words r :=
  (forall x y, Matches r x y ->
     exists w a u b, In w words
                     /\ rest x = (a ++ u ++ b)%string
                     /\ JS.toLowerCase u = JS.toLowerCase w).

Lemma needs_words (words : list string) :
  words <> [] -> Needs words (alts (map lit_i words)).
Proof.
  intros Hne x y Hm.
  assert (Hne' : map lit_i words <> [])
    by (destruct words; [auto | discriminate]).
  apply (LiteralFacts.alts_Matches _ _ _ Hne') in Hm as (r & Hr & Hm).
  apply in_map_iff in Hr as (w & <- & Hw).
  apply LiteralFacts.lit_i_Matches in Hm as (u & Hu & Hl).
  exists w, EmptyString, u, (rest y). simpl. auto.
Qed.

Lemma needs_seq (words : list string) (r tail : regex) :
  Needs words tail -> Needs words (Seq r tail).
Proof.
  intros Htail x z Hm.
  inversion Hm as [| |r1 r2 x0 y z0 H1 H2| | | | | | |]; subst.
  apply LiteralFacts.Matches_consumes in H1 as (v & Hv).
  destruct (Htail _ _ H2) as (w & a & u & b & Hw & Hrest & Hl).
  exists w, (v ++ a)%string, u, b. split; [assumption|]. split; [|assumption].
  now rewrite Hv, Hrest, TextFacts.append_assoc.
Qed.

(** A pattern that needs a word finds nothing in a text that holds none
    of them. *)
Lemma exec_needs_word (words : list string) (r : regex) (text : string) :
  Needs words r ->
  (forall w, In w words ->
             JS.includes (JS.toLowerCase text) (JS.toLowerCase w) = false) ->
  exec r text = None.
Proof.
  intros Hneeds Hnone.
  destruct (exec r text) as [m|] eqn:E; [|reflexivity].
  assert (Ht : test r text = true) by (unfold test; now rewrite E).
  apply test_spec in Ht as (pos & y & _ & Hm).
  destruct (Hneeds _ _ Hm) as (w & a & u & b & Hw & Hrest & Hl).
  simpl in Hrest.
  assert (Hinc : JS.includes (JS.toLowerCase text) (JS.toLowerCase w) = true).
  { apply JSFacts.includes_spec.
    destruct (JSFacts.drop_split text pos) as (p & Hp).
    exists (JS.toLowerCase (p ++ a)), (JS.toLowerCase b).
    rewrite Hp at 1. rewrite Hrest, <- Hl.
    rewrite <- !TextFacts.toLowerCase_app.
    now rewrite TextFacts.append_assoc. }
  rewrite (Hnone w Hw) in Hinc. discriminate.
Qed.

End WordFacts.

(* ================================================================== *)
(** * The resume service, piece by piece *)
(* ================================================================== *)

Module ResumePieces.

Import ResumeService.

Lemma filter_split_length {A : Type} (f : A -> bool) (l : list A) :
  (List.length (filter f l) + List.length (filter (fun a => negb (f a)) l)
   = List.length l)%nat.
Proof.
  induction l as [|a l IH]; simpl; [reflexivity|].
  destruct (f a); simpl; lia.
Qed.

Lemma found_as_filter (resumeText : string) :
  found (analyzeSections resumeText)
  = filter (NlpService.has_section (NlpService.extractSections resumeText))
      (requiredSections ++ recommendedSections).
Proof. unfold analyzeSections. cbn [found]. now rewrite filter_app. Qed.

Lemma found_at_most_eight (resumeText : string) :
  (List.length (found (analyzeSections resumeText)) <= 8)%nat.
Proof.
  rewrite found_as_filter.
  apply (filter_length_le _ (requiredSections ++ recommendedSections)).
Qed.

Lemma NoDup_map_filter {A B : Type} (k : A -> B) (p : A -> bool)
      (l : list A) :
  NoDup (map k l) -> NoDup (map k (filter p l)).
Proof.
  induction l as [|a l IH]; simpl; intros Hnd; [constructor|].
  inversion Hnd as [|? ? Hnotin Hnd']; subst.
  destruct (p a); simpl; [|auto].
  constructor; [|auto].
  intros Hin. apply Hnotin.
  apply in_map_iff in Hin as (x & Hx & Hin).
  apply filter_In in Hin as [Hin _].
  rewrite <- Hx. now apply in_map.
Qed.

Local Open Scope Q_scope.

(** The sum of the four components, with at most 8 sections found, never
    passes 100, and never falls below 5. *)
Lemma components_range (sections : Sections) (skills : Skills)
      (experience : Experience) (sentiment : Sentiment) :
  (List.length (found sections) <= 8)%nat ->
  5 <= sectionScore sections + skillScore skills + expScore experience
       + sentScore sentiment <= 100.
Proof.
  intros Hfound.
  assert (Hn0 : 0 <= inject_Z (Z.of_nat (List.length (found sections))))
    by apply ScoreFacts.count_nonneg.
  assert (Hn8 : inject_Z (Z.of_nat (List.length (found sections))) <= 8).
  { change 8 with (inject_Z 8). rewrite <- Zle_Qle. lia. }
  assert (Hk0 : 0 <= inject_Z (Z.of_nat (List.length (skills_found skills))))
    by apply ScoreFacts.count_nonneg.
  assert (Hsec : sectionScore sections
                 == 5 * inject_Z (Z.of_nat (List.length (found sections))))
    by (unfold sectionScore; field).
  assert (Hsk : 0 <= skillScore skills <= 30).
  { unfold skillScore. split; [|apply Q.le_min_r].
    apply Q.min_glb; [|lra].
    assert (Hk' : inject_Z (Z.of_nat (List.length (skills_found skills)))
                  / 10 * 30
                  == 3 * inject_Z (Z.of_nat (List.length (skills_found skills))))
      by field.
    rewrite Hk'. lra. }
  assert (He : 0 <= expScore experience <= 15)
    by (unfold expScore; destruct (JS.gt _ _); split; lra).
  assert (Hs : 5 <= sentScore sentiment <= 15)
    by (unfold sentScore; repeat destruct (String.eqb _ _); split; lra).
  rewrite Hsec. split; lra.
Qed.

(** With at most 8 sections found the cap is idle. *)
Lemma calculateOverallScore_sum (sections : Sections) (skills : Skills)
      (experience : Experience) (sentiment : Sentiment) :
  (List.length (found sections) <= 8)%nat ->
  let total := sectionScore sections + skillScore skills + expScore experience
               + sentScore sentiment in
  5 <= total <= 100
  /\ calculateOverallScore sections skills experience sentiment
     = JS.round total
  /\ (5 <= calculateOverallScore sections skills experience sentiment
      <= 100)%Z.
Proof.
  intros Hfound total.
  pose proof (components_range sections skills experience sentiment Hfound)
    as Hrange.
  fold total in Hrange.
  assert (Hround : calculateOverallScore sections skills experience sentiment
                   = JS.round total).
  { unfold calculateOverallScore. apply ScoreFacts.round_comp.
    assert (Hsum : 0 + sectionScore sections + skillScore skills
                   + expScore experience + sentScore sentiment == total)
      by (subst total; ring).
    rewrite Hsum. apply Q.min_l. apply Hrange. }
  split; [exact Hrange | split; [exact Hround|]].
  rewrite Hround. unfold JS.round. destruct Hrange as [Hlo Hhi]. split.
  - change 5%Z with (Qfloor 5). apply Qfloor_resp_le. lra.
  - change 100%Z with (Qfloor (100 + (1 # 2))). apply Qfloor_resp_le. lra.
Qed.

Section WithPackages.
Context `{Natural} `{Compromise}.

(** The score of an analysis is the score of its parts. *)
Lemma analyzeResume_score (svc svc' : NlpService.t) (resumeText : string)
      (a : ResumeAnalysis) :
  analyzeResume svc resumeText = (Ok a, svc') ->
  overallScore a
  = calculateOverallScore (analyzeSections resumeText)
      (analyzeSkills resumeText) (analyzeExperience resumeText)
      (analyzeSentiment resumeText).
Proof.
  unfold analyzeResume.
  generalize (calculateOverallScore (analyzeSections resumeText)
                (analyzeSkills resumeText) (analyzeExperience resumeText)
                (analyzeSentiment resumeText)).
  generalize (generateImprovements (analyzeSections resumeText)
                (analyzeSkills resumeText) (analyzeExperience resumeText)
                (analyzeSentiment resumeText)).
  generalize (analyzeSections resumeText) (analyzeSkills resumeText)
    (analyzeExperience resumeText) (analyzeSentiment resumeText).
  generalize (NlpService.extractKeywords svc resumeText 15).
  intros [kw svc0] sections skills experience sentiment improvements score
    Hrun.
  injection Hrun as <- _. reflexivity.
Qed.

End WithPackages.

(** A message pushed under a condition adds at most one entry. *)
Lemma optional_length {A : Type} (b : bool) (x : A) :
  (List.length (if b then [x] else []) <= 1)%nat.
Proof. destruct b; simpl; lia. Qed.

End ResumePieces.

(** X11.  In a job text that, lower-cased, has at most 100 code units
    every skill sees the whole lower-cased text as its context, so all
    skills land on the same list: when
    the lower-cased text says "required", "must have" or "essential", or
    says none of "preferred", "nice to have", "bonus", no skill is a
    preferred one; otherwise no skill is a required one. *)
Theorem short_job_text_one_bucket `{Compromise} (jobText : string) :
  (String.length (JS.toLowerCase jobText) <= 100)%nat ->
  let lowerText := JS.toLowerCase jobText in
  let signalsRequired :=
    JS.includes lowerText "required" || JS.includes lowerText "must have"
    || JS.includes lowerText "essential" in
  let signalsPreferred :=
    JS.includes lowerText "preferred" || JS.includes lowerText "nice to have"
    || JS.includes lowerText "bonus" in
  if signalsRequired || negb signalsPreferred
  then JobDescriptionService.preferred_
         (JobDescriptionService.extractSkills jobText) = []
  else JobDescriptionService.required
         (JobDescriptionService.extractSkills jobText) = [].
Proof.
  intros Hlen lowerText signalsRequired signalsPreferred.
  assert (Hbucket : forall skill,
    JobDescriptionService.bucketOf lowerText skill
    = if (JS.indexOf lowerText (JS.toLowerCase skill) =? -1)%Z
      then JobDescriptionService.Skipped
      else if signalsRequired then JobDescriptionService.Required
           else if signalsPreferred then JobDescriptionService.Preferred
                else JobDescriptionService.Required).
  { intros skill. unfold JobDescriptionService.bucketOf.
    destruct (Z.eqb_spec (JS.indexOf lowerText (JS.toLowerCase skill)) (-1))
      as [_ | Hidx]; [reflexivity|].
    assert (Hctx : JobDescriptionService.contextAround lowerText
                     (JS.indexOf lowerText (JS.toLowerCase skill))
                   = lowerText).
    { unfold JobDescriptionService.contextAround.
      fold lowerText in Hlen.
      assert (Hrange : (0 <= JS.indexOf lowerText (JS.toLowerCase skill)
                        <= Z.of_nat (String.length lowerText))%Z).
      { unfold JS.indexOf in *.
        destruct (JS.find_sub lowerText (JS.toLowerCase skill)) as [i|] eqn:E;
          [|contradiction].
        apply TextFacts.find_sub_le in E. lia. }
      apply TextFacts.substring_whole; lia. }
    rewrite Hctx. reflexivity. }
  destruct (signalsRequired || negb signalsPreferred) eqn:Hsig.
  - destruct (JobDescriptionService.preferred_ _) as [|s l] eqn:E;
      [reflexivity|].
    assert (Hs : In s (JobDescriptionService.preferred_
                         (JobDescriptionService.extractSkills jobText)))
      by (rewrite E; simpl; auto).
    apply JobFacts.preferred_iff in Hs as [_ Hs]. fold lowerText in Hs.
    rewrite Hbucket in Hs.
    destruct (_ =? _)%Z; [discriminate|].
    destruct signalsRequired, signalsPreferred; discriminate.
  - destruct (JobDescriptionService.required _) as [|s l] eqn:E;
      [reflexivity|].
    assert (Hs : In s (JobDescriptionService.required
                         (JobDescriptionService.extractSkills jobText)))
      by (rewrite E; simpl; auto).
    apply JobFacts.required_iff in Hs as [_ Hs]. fold lowerText in Hs.
    rewrite Hbucket in Hs.
    destruct (_ =? _)%Z; [discriminate|].
    destruct signalsRequired, signalsPreferred; discriminate.
Qed.

(** A one-line posting. *)
Lemma short_job_text_one_bucket_witness :
  JobDescriptionService.preferred_
    (@JobDescriptionService.extractSkills Sample.compromise
       "Python required, Docker is a bonus")
  = [].
Proof.
  apply (@short_job_text_one_bucket Sample.compromise
           "Python required, Docker is a bonus").
  vm_compute. lia.
Defined.

(** X12.  When the job text says neither "preferred" nor "ideal", in any
    case, the preferred years of [extractExperienceLevel] are its minimum
    years. *)
Theorem preferred_defaults_to_minimum (jobText : string) :
  JS.includes (JS.toLowerCase jobText) "preferred" = false ->
  JS.includes (JS.toLowerCase jobText) "ideal" = false ->
  JobDescriptionService.preferred
    (JobDescriptionService.extractExperienceLevel jobText)
  = JobDescriptionService.minimum
      (JobDescriptionService.extractExperienceLevel jobText).
Proof.
  intros Hpref Hideal.
  unfold JobDescriptionService.extractExperienceLevel.
  cbn [JobDescriptionService.preferred JobDescriptionService.minimum].
  rewrite (WordFacts.exec_needs_word ["preferred"; "ideal"]
             JobDescriptionService.preferredYears jobText); [reflexivity | |].
  - unfold JobDescriptionService.preferredYears. cbn [Regex.seqs].
    repeat apply WordFacts.needs_seq.
    apply (WordFacts.needs_words ["preferred"; "ideal"]). discriminate.
  - intros w [<- | [<- | []]]; assumption.
Qed.

(** A posting that only states a minimum. *)
Lemma preferred_defaults_to_minimum_witness :
  JobDescriptionService.preferred
    (JobDescriptionService.extractExperienceLevel "At least 4 years with SQL")
  = JS.Num 4.
Proof.
  rewrite (preferred_defaults_to_minimum "At least 4 years with SQL");
    vm_compute; reflexivity.
Defined.

(** X13.  [analyzeSections] finds no section twice and only the eight
    known ones; a required section is found or missing, never both; and
    every section that is not found gets one recommendation, so found
    sections and recommendations add up to 8. *)
Theorem analyzeSections_partition (resumeText : string) :
  let sections := ResumeService.analyzeSections resumeText in
  NoDup (ResumeService.found sections)
  /\ incl (ResumeService.found sections)
       [ "contact"; "summary"; "experience"; "education"; "skills";
         "projects"; "certifications"; "achievements" ]
  /\ Forall
       (fun name =>
          In name (ResumeService.found sections)
          <-> ~ In name (ResumeService.missing sections))
       [ "contact"; "summary"; "experience"; "education"; "skills" ]
  /\ incl (ResumeService.missing sections)
       [ "contact"; "summary"; "experience"; "education"; "skills" ]
  /\ (List.length (ResumeService.found sections)
      + List.length (ResumeService.recommendations sections) = 8)%nat.
Proof.
  intros sections. subst sections.
  set (present := NlpService.has_section
                    (NlpService.extractSections resumeText)).
  assert (Hfound : ResumeService.found (ResumeService.analyzeSections resumeText)
                   = filter present
                       (ResumeService.requiredSections
                        ++ ResumeService.recommendedSections))
    by apply ResumePieces.found_as_filter.
  assert (Hmissing : ResumeService.missing
                       (ResumeService.analyzeSections resumeText)
                     = filter (fun s => negb (present s))
                         ResumeService.requiredSections) by reflexivity.
  assert (Hrecs : List.length (ResumeService.recommendations
                                 (ResumeService.analyzeSections resumeText))
                  = List.length
                      (filter (fun s => negb (present s))
                         (ResumeService.requiredSections
                          ++ ResumeService.recommendedSections))).
  { unfold ResumeService.analyzeSections.
    cbn [ResumeService.recommendations]. fold present.
    now rewrite length_app, !length_map, filter_app, length_app. }
  rewrite Hfound, Hmissing, Hrecs.
  split; [|split; [|split; [|split]]].
  - apply NoDup_filter. apply QuestionFacts.uniq_fixed_NoDup. reflexivity.
  - intros name Hname. now apply filter_In in Hname.
  - apply Forall_forall. intros name Hname. rewrite !filter_In.
    destruct (present name); split; intros Hx.
    + intros [_ Hn]; discriminate.
    + split; [|reflexivity]. apply in_or_app. auto.
    + destruct Hx; discriminate.
    + exfalso. apply Hx. auto.
  - intros name Hname. now apply filter_In in Hname.
  - apply (ResumePieces.filter_split_length present).
Qed.

(** X14.  In a resume analysis the cap at 100 is never needed: the four
    components add up to at most 100, the overall score is their rounded
    sum, and it is at least 5. *)
Theorem overallScore_uncapped `{Natural} `{Compromise}
        (svc svc' : NlpService.t) (resumeText : string)
        (a : ResumeService.ResumeAnalysis) :
  ResumeService.analyzeResume svc resumeText = (Ok a, svc') ->
  let total :=
    (ResumeService.sectionScore (ResumeService.analyzeSections resumeText)
     + ResumeService.skillScore (ResumeService.analyzeSkills resumeText)
     + ResumeService.expScore (ResumeService.analyzeExperience resumeText)
     + ResumeService.sentScore (ResumeService.analyzeSentiment resumeText))%Q in
  (5 <= total <= 100)%Q
  /\ ResumeService.overallScore a = JS.round total
  /\ (5 <= ResumeService.overallScore a <= 100)%Z.
Proof.
  intros Hrun.
  rewrite (ResumePieces.analyzeResume_score _ _ _ _ Hrun).
  exact (ResumePieces.calculateOverallScore_sum
           (ResumeService.analyzeSections resumeText)
           (ResumeService.analyzeSkills resumeText)
           (ResumeService.analyzeExperience resumeText)
           (ResumeService.analyzeSentiment resumeText)
           (ResumePieces.found_at_most_eight resumeText)).
Qed.

(** The score of a short resume, on the sample instances. *)
Lemma overallScore_uncapped_witness :
  exists a svc',
    @ResumeService.analyzeResume Sample.natural Sample.compromise
      NlpService.create
      "Summary: Python developer, 3 years of experience. Skills: SQL, Docker."
    = (Ok a, svc')
    /\ (5 <= ResumeService.overallScore a <= 100)%Z.
Proof.
  let v := eval vm_compute in
    (@ResumeService.analyzeResume Sample.natural Sample.compromise
       NlpService.create
       "Summary: Python developer, 3 years of experience. Skills: SQL, Docker.")
  in match v with
     | (Ok ?a, ?svc') =>
         exists a, svc';
         assert (E : @ResumeService.analyzeResume Sample.natural
                       Sample.compromise NlpService.create
                       "Summary: Python developer, 3 years of experience. Skills: SQL, Docker."
                     = (Ok a, svc')) by (vm_compute; reflexivity);
         split; [exact E |];
         destruct (@overallScore_uncapped Sample.natural Sample.compromise
                     _ _ _ _ E) as (_ & _ & Hrange);
         exact Hrange
     end.
Defined.

(** X15.  [generateImprovements] returns between 2 and 7 messages and
    always ends with the same two general tips. *)
Theorem generateImprovements_shape
        (sections : ResumeService.Sections) (skills : ResumeService.Skills)
        (experience : ResumeService.Experience)
        (sentiment : ResumeService.Sentiment) :
  let messages :=
    ResumeService.generateImprovements sections skills experience sentiment in
  (2 <= List.length messages <= 7)%nat
  /\ exists before,
       messages
       = before
         ++ [ "Quantify your achievements with numbers and metrics where possible.";
              "Tailor your resume for each job application by matching keywords from the job description." ].
Proof.
  intros messages. subst messages.
  unfold ResumeService.generateImprovements.
  set (m1 := if (0 <? _)%nat then _ else []).
  set (m2 := if (_ <? 5)%nat then _ else []).
  set (m3 := if (0 <? _)%nat then _ else []).
  set (m4 := if JS.strict_eq _ _ then _ else []).
  set (m5 := if negb _ then _ else []).
  assert (H1 : (List.length m1 <= 1)%nat)
    by (subst m1; apply ResumePieces.optional_length).
  assert (H2 : (List.length m2 <= 1)%nat)
    by (subst m2; apply ResumePieces.optional_length).
  assert (H3 : (List.length m3 <= 1)%nat)
    by (subst m3; apply ResumePieces.optional_length).
  assert (H4 : (List.length m4 <= 1)%nat)
    by (subst m4; apply ResumePieces.optional_length).
  assert (H5 : (List.length m5 <= 1)%nat)
    by (subst m5; apply ResumePieces.optional_length).
  clearbody m1 m2 m3 m4 m5.
  split.
  - rewrite !length_app. simpl. lia.
  - exists (m1 ++ m2 ++ m3 ++ m4 ++ m5). now rewrite <- !app_assoc.
Qed.

(* ================================================================== *)
(** * Skill recommendations, learning resources and career paths *)
(* ================================================================== *)

Module SkillsFacts.

Import SkillsService.

Lemma insertByPriority_In (x : Recommendation) (l : list Recommendation)
      (z : Recommendation) :
  In z (insertByPriority x l) <-> z = x \/ In z l.
Proof.
  induction l as [|y l IH]; simpl.
  - intuition congruence.
  - destruct (_ <? _)%nat; simpl; [rewrite IH|]; intuition congruence.
Qed.

Lemma sortByPriority_In (l : list Recommendation) (z : Recommendation) :
  In z (sortByPriority l) <-> In z l.
Proof.
  induction l as [|x l IH]; simpl; [tauto|].
  rewrite insertByPriority_In, IH. intuition congruence.
Qed.

Lemma insertByPriority_sorted (x : Recommendation)
      (l : list Recommendation) :
  StronglySorted
    (fun a b => (priorityOrder (priority a) <= priorityOrder (priority b))%nat)
    l ->
  StronglySorted
    (fun a b => (priorityOrder (priority a) <= priorityOrder (priority b))%nat)
    (insertByPriority x l).
Proof.
  induction l as [|y l IH]; simpl; intros Hl.
  - repeat constructor.
  - inversion Hl as [|? ? Hl' Hy]; subst.
    rewrite Forall_forall in Hy.
    destruct (Nat.ltb_spec (priorityOrder (priority y))
                (priorityOrder (priority x))) as [Hlt | Hge].
    + constructor; [auto|]. apply Forall_forall. intros z Hz.
      apply insertByPriority_In in Hz as [-> | Hz]; [lia | now apply Hy].
    + constructor; [assumption|]. constructor; [assumption|].
      apply Forall_forall. intros z Hz. specialize (Hy z Hz).
      cbv beta in Hy. lia.
Qed.

Lemma sortByPriority_sorted (l : list Recommendation) :
  StronglySorted
    (fun a b => (priorityOrder (priority a) <= priorityOrder (priority b))%nat)
    (sortByPriority l).
Proof.
  induction l as [|x l IH]; simpl; [constructor|].
  now apply insertByPriority_sorted.
Qed.

(** [slice(0, n)] of a sorted list is sorted. *)
Lemma prefix_sorted {A : Type} (R : A -> A -> Prop) (n : nat) (l : list A) :
  StronglySorted R l -> StronglySorted R (JS.slice0 n l).
Proof.
  unfold JS.slice0. revert l. induction n as [|n IH]; intros l Hl; simpl;
    [constructor|].
  destruct l as [|x l]; [constructor|].
  inversion Hl as [|? ? Hl' Hx]; subst.
  constructor; [now apply IH|].
  rewrite Forall_forall in *. intros z Hz. apply Hx.
  now apply (JSFacts.slice0_In n l z).
Qed.

Lemma hasAny_spec (names lower : list string) :
  hasAny names lower = true <-> exists s, In s lower /\ In s names.
Proof.
  unfold hasAny. rewrite existsb_exists. split.
  - intros (s & Hs & Hm). exists s. split; [assumption|].
    now apply JSFacts.mem_In.
  - intros (s & Hs & Hm). exists s. split; [assumption|].
    now apply JSFacts.mem_In.
Qed.

Lemma hasAny_none (names lower : list string) (s : string) :
  hasAny names lower = false -> In s names -> ~ In s lower.
Proof.
  intros Hnone Hs Hl.
  assert (hasAny names lower = true); [|congruence].
  apply hasAny_spec. now exists s.
Qed.

Lemma hasAny_more (names names' lower : list string) :
  incl names names' -> hasAny names lower = true ->
  hasAny names' lower = true.
Proof.
  intros Hincl Hany. apply hasAny_spec in Hany as (s & Hs & Hn).
  apply hasAny_spec. exists s. auto.
Qed.

(** What the first loop of [generateSkillRecommendations] pushes. *)
Lemma complementarySkills_In (lower : list string) (r : Recommendation) :
  In r (complementarySkills lower) ->
  priority r = medium
  /\ In (rec_skill r) SkillsDatabase.getAllSkills
  /\ ~ In (JS.toLowerCase (rec_skill r)) lower.
Proof.
  unfold complementarySkills. intros Hr.
  apply in_flat_map in Hr as (db & Hdb & Hr).
  destruct (existsb _ (SkillsDatabase.skills db)); [|destruct Hr].
  apply in_flat_map in Hr as (skill & Hskill & Hr).
  destruct (JS.mem (JS.toLowerCase skill) lower) eqn:Hmem;
    cbn [negb] in Hr; [destruct Hr|].
  destruct Hr as [<- | []]. cbn [priority rec_skill].
  split; [reflexivity | split].
  - unfold SkillsDatabase.getAllSkills. apply in_flat_map. now exists db.
  - intros Hin. apply JSFacts.mem_In in Hin. congruence.
Qed.

(** What the four fixed rules push. *)
Lemma patternSkills_In (lower : list string) (r : Recommendation) :
  In r (patternSkills lower) ->
  (rec_skill r = "TypeScript" /\ priority r = high
   /\ ~ In "typescript" lower)
  \/ (rec_skill r = "PostgreSQL" /\ priority r = high
      /\ ~ In "postgresql" lower)
  \/ (rec_skill r = "Jest (Unit Testing)" /\ priority r = high)
  \/ (rec_skill r = "AWS" /\ priority r = medium /\ ~ In "aws" lower).
Proof.
  unfold patternSkills. rewrite !in_app_iff.
  intros [Hr | [Hr | [Hr | Hr]]].
  - destruct (hasAny _ lower); cbn [andb] in Hr; [|destruct Hr].
    destruct (JS.mem "typescript" lower) eqn:Hmem; cbn [negb] in Hr;
      [destruct Hr|].
    destruct Hr as [<- | []]. left. repeat split.
    intros Hin. apply JSFacts.mem_In in Hin. congruence.
  - destruct (hasAny ["nodejs"; "express"; "nestjs"] lower);
      cbn [andb] in Hr; [|destruct Hr].
    destruct (hasAny ["mongodb"; "postgresql"] lower) eqn:Hany;
      cbn [negb] in Hr; [destruct Hr|].
    destruct Hr as [<- | []]. right; left. repeat split.
    apply (hasAny_none _ _ _ Hany). simpl. auto.
  - destruct (hasAny _ lower); cbn [negb] in Hr; [destruct Hr|].
    destruct Hr as [<- | []]. right; right; left. repeat split.
  - destruct (hasAny _ lower) eqn:Hany; cbn [negb] in Hr; [destruct Hr|].
    destruct Hr as [<- | []]. right; right; right. repeat split.
    apply (hasAny_none _ _ _ Hany). simpl. auto.
Qed.

Lemma generateSkillRecommendations_In (currentSkills : list string)
      (r : Recommendation) :
  In r (generateSkillRecommendations currentSkills) ->
  In r (complementarySkills (map JS.toLowerCase currentSkills))
  \/ In r (patternSkills (map JS.toLowerCase currentSkills)).
Proof.
  unfold generateSkillRecommendations. intros Hr.
  apply JSFacts.slice0_In in Hr. apply -> sortByPriority_In in Hr.
  now apply in_app_or in Hr.
Qed.

(** Every entry of [resourceMap] holds three resources. *)
Lemma resourceMap_three (e : string * list string) :
  In e resourceMap -> List.length (snd e) = 3.
Proof.
  unfold resourceMap. simpl.
  intros H. repeat (destruct H as [<- | H]; [reflexivity|]). destruct H.
Qed.

Lemma resourcesFor_three (skill : string) :
  ~ In (JS.toLowerCase skill) inheritedKeys ->
  exists resources,
    resourcesFor skill = ResourceList resources
    /\ List.length resources = 3.
Proof.
  intros Hown. unfold resourcesFor.
  destruct (find _ resourceMap) as [e|] eqn:E.
  - apply find_some in E as [He _]. exists (snd e).
    split; [reflexivity | now apply resourceMap_three].
  - destruct (JS.mem (JS.toLowerCase skill) inheritedKeys) eqn:Hmem.
    + apply JSFacts.mem_In in Hmem. contradiction.
    + eexists. split; reflexivity.
Qed.

(** No skill that can be recommended is named like an inherited member. *)
Lemma recommended_not_inherited (currentSkills : list string)
      (r : Recommendation) :
  In r (generateSkillRecommendations currentSkills) ->
  ~ In (JS.toLowerCase (rec_skill r)) inheritedKeys.
Proof.
  intros Hr.
  assert (Hnames : In (rec_skill r)
                     (SkillsDatabase.getAllSkills
                      ++ ["TypeScript"; "PostgreSQL"; "Jest (Unit Testing)";
                          "AWS"])).
  { apply generateSkillRecommendations_In in Hr as [Hr | Hr].
    - apply complementarySkills_In in Hr as (_ & Hr & _).
      apply in_or_app. now left.
    - apply in_or_app. right.
      apply patternSkills_In in Hr
        as [(-> & _) | [(-> & _) | [(-> & _) | (-> & _)]]]; simpl; auto. }
  assert (Hall : forallb
                   (fun s => negb (JS.mem (JS.toLowerCase s) inheritedKeys))
                   (SkillsDatabase.getAllSkills
                    ++ ["TypeScript"; "PostgreSQL"; "Jest (Unit Testing)";
                        "AWS"]) = true) by (vm_compute; reflexivity).
  rewrite forallb_forall in Hall. specialize (Hall _ Hnames).
  intros Hin. apply JSFacts.mem_In in Hin. rewrite Hin in Hall. discriminate.
Qed.

End SkillsFacts.

(** X16.  [generateSkillRecommendations] returns at most 10
    recommendations, the high-priority ones first; none has a low
    priority, a high-priority one is one of the three fixed skills, and
    none, the Jest rule apart, names a skill the user already has (case
    ignored). *)
Theorem generateSkillRecommendations_sorted (currentSkills : list string) :
  let recommendations :=
    SkillsService.generateSkillRecommendations currentSkills in
  (List.length recommendations <= 10)%nat
  /\ StronglySorted
       (fun a b =>
          (SkillsService.priorityOrder (SkillsService.priority a)
           <= SkillsService.priorityOrder (SkillsService.priority b))%nat)
       recommendations
  /\ Forall
       (fun r =>
          SkillsService.priority r <> SkillsService.low
          /\ (SkillsService.priority r = SkillsService.high ->
              In (SkillsService.rec_skill r)
                 ["TypeScript"; "PostgreSQL"; "Jest (Unit Testing)"])
          /\ (In (JS.toLowerCase (SkillsService.rec_skill r))
                (map JS.toLowerCase currentSkills) ->
              SkillsService.rec_skill r = "Jest (Unit Testing)"))
       recommendations.
Proof.
  intros recommendations. split; [|split].
  - apply JSFacts.slice0_length.
  - apply SkillsFacts.prefix_sorted, SkillsFacts.sortByPriority_sorted.
  - apply Forall_forall. intros r Hr.
    apply SkillsFacts.generateSkillRecommendations_In in Hr as [Hr | Hr].
    + apply SkillsFacts.complementarySkills_In in Hr as (Hp & _ & Hnew).
      rewrite Hp. split; [discriminate | split; [discriminate|]].
      intros Hin. contradiction.
    + apply SkillsFacts.patternSkills_In in Hr
        as [(Hs & Hp & Hnew) | [(Hs & Hp & Hnew) | [(Hs & Hp)
                                                   | (Hs & Hp & Hnew)]]];
        rewrite Hs, Hp; (split; [discriminate | split]).
      * intros _. simpl. auto.
      * intros Hin. contradiction.
      * intros _. simpl. auto.
      * intros Hin. contradiction.
      * intros _. simpl. auto.
      * reflexivity.
      * discriminate.
      * intros Hin. contradiction.
Qed.

(** X17.  [getLearningResources] answers one entry per skill, in order,
    and an entry holds exactly three resources unless the lower-cased
    skill names an inherited member of the map ("constructor",
    "__proto__").  [getSkillRecommendations] asks for the first five
    recommended skills, none of which is such a name: each of its entries
    holds three resources. *)
Theorem learningResources_three `{Compromise}
        (skills : list string) (currentSkillsText : string)
        (targetRole : option string) :
  (map fst (SkillsService.getLearningResources skills) = skills
   /\ Forall
        (fun entry =>
           ~ In (JS.toLowerCase (fst entry)) ["constructor"; "__proto__"] ->
           exists resources,
             snd entry = SkillsService.ResourceList resources
             /\ List.length resources = 3)
        (SkillsService.getLearningResources skills))
  /\ let answer :=
       SkillsService.getSkillRecommendations currentSkillsText targetRole in
     map fst (SkillsService.learningResources answer)
     = JS.slice0 5 (map SkillsService.rec_skill
                      (SkillsService.recommendedSkills answer))
     /\ Forall
          (fun entry =>
             exists resources,
               snd entry = SkillsService.ResourceList resources
               /\ List.length resources = 3)
          (SkillsService.learningResources answer).
Proof.
  assert (Hkeys : forall l,
             map fst (SkillsService.getLearningResources l) = l).
  { intros l. unfold SkillsService.getLearningResources.
    rewrite map_map. simpl. apply map_id. }
  split; [split|].
  - apply Hkeys.
  - apply Forall_forall. intros entry Hentry.
    unfold SkillsService.getLearningResources in Hentry.
    apply in_map_iff in Hentry as (skill & <- & _). cbn [fst snd].
    apply SkillsFacts.resourcesFor_three.
  - intros answer. subst answer.
    unfold SkillsService.getSkillRecommendations.
    cbn [SkillsService.learningResources SkillsService.recommendedSkills].
    generalize (NlpService.extractSkills currentSkillsText).
    intros currentSkills. split; [apply Hkeys|].
    apply Forall_forall. intros entry Hentry.
    unfold SkillsService.getLearningResources in Hentry.
    apply in_map_iff in Hentry as (skill & <- & Hskill). cbn [fst snd].
    apply JSFacts.slice0_In in Hskill.
    apply in_map_iff in Hskill as (r & <- & Hr).
    apply SkillsFacts.resourcesFor_three.
    now apply (SkillsFacts.recommended_not_inherited currentSkills).
Qed.

(** X18.  [suggestCareerPaths] answers between one and five paths, none
    twice; the full-stack path comes only together with the frontend and
    the backend path, and the general path only alone. *)
Theorem suggestCareerPaths_shape (skills : list string) :
  let paths := SkillsService.suggestCareerPaths skills in
  (1 <= List.length paths <= 5)%nat
  /\ NoDup paths
  /\ incl paths
       [ SkillsService.frontendPath; SkillsService.backendPath;
         SkillsService.fullStackPath; SkillsService.devOpsPath;
         SkillsService.dataPath; SkillsService.genericPath ]
  /\ (In SkillsService.fullStackPath paths ->
      In SkillsService.frontendPath paths
      /\ In SkillsService.backendPath paths)
  /\ (In SkillsService.genericPath paths ->
      paths = [SkillsService.genericPath]).
Proof.
  intros paths. subst paths. unfold SkillsService.suggestCareerPaths.
  generalize (map JS.toLowerCase skills). intros lower.
  pose proof (SkillsFacts.hasAny_more ["react"; "angular"; "vue"]
                ["react"; "angular"; "vue"; "html"; "css"] lower) as Hfront.
  pose proof (SkillsFacts.hasAny_more ["nodejs"; "python"; "java"]
                ["nodejs"; "python"; "java"; "api"] lower) as Hback.
  destruct (SkillsService.hasAny ["react"; "angular"; "vue"] lower);
    destruct (SkillsService.hasAny ["nodejs"; "python"; "java"] lower);
    try (rewrite Hfront by (try reflexivity; intros x Hx; simpl in *; tauto));
    try (rewrite Hback by (try reflexivity; intros x Hx; simpl in *; tauto));
    clear Hfront Hback;
    destruct (SkillsService.hasAny
                ["react"; "angular"; "vue"; "html"; "css"] lower);
    destruct (SkillsService.hasAny
                ["nodejs"; "python"; "java"; "api"] lower);
    destruct (SkillsService.hasAny
                ["docker"; "kubernetes"; "aws"; "cicd"] lower);
    destruct (SkillsService.hasAny
                ["python"; "sql"; "machine learning"] lower);
    cbn [andb app List.length Nat.ltb Nat.leb];
    (split; [simpl; lia|]);
    (split; [apply QuestionFacts.uniq_fixed_NoDup; vm_compute; reflexivity|]);
    (split; [intros x Hx; simpl in *; tauto|]);
    (split; [simpl; intuition discriminate|]);
    simpl; intuition discriminate.
Qed.

(* ================================================================== *)
(** * Interview preparation *)
(* ================================================================== *)

Module PreparationFacts.

Import InterviewQuestions SkillsService.

(** The texts of the question bank are distinct. *)
Lemma bank_texts_NoDup : NoDup (map question INTERVIEW_QUESTIONS).
Proof. apply QuestionFacts.uniq_fixed_NoDup. vm_compute. reflexivity. Qed.

Lemma getQuestionsBySkills_bank (skills_ : list string)
      (q : InterviewQuestion) :
  In q (getQuestionsBySkills skills_) -> In q INTERVIEW_QUESTIONS.
Proof.
  unfold getQuestionsBySkills. intros Hq. now apply filter_In in Hq.
Qed.

Lemma getRoleSpecificQuestions_bank (role : string) (q : InterviewQuestion) :
  In q (getRoleSpecificQuestions role) -> In q INTERVIEW_QUESTIONS.
Proof.
  unfold getRoleSpecificQuestions. rewrite !in_app_iff.
  intros [Hq | [Hq | Hq]].
  - destruct (JS.includes _ "frontend"); [|destruct Hq].
    now apply filter_In in Hq.
  - destruct (JS.includes _ "backend"); [|destruct Hq].
    now apply filter_In in Hq.
  - destruct (_ || _); [|destruct Hq]. now apply filter_In in Hq.
Qed.

Lemma slice0_map {A B : Type} (f : A -> B) (n : nat) (l : list A) :
  map f (JS.slice0 n l) = JS.slice0 n (map f l).
Proof. unfold JS.slice0. symmetry. apply firstn_map. Qed.

Lemma diversifyQuestions_NoDup (qs : list InterviewQuestion) :
  NoDup (map question qs) -> NoDup (map question (diversifyQuestions qs)).
Proof.
  intros Hnd. rewrite QuestionFacts.diversifyQuestions_unfold.
  apply QuestionFacts.fold_addIfUnseen_NoDup.
  now apply QuestionFacts.picked_NoDup.
Qed.

Lemma getInterviewPrepTips_length (skills_ : list string) :
  (5 <= List.length (getInterviewPrepTips skills_) <= 9)%nat.
Proof.
  unfold getInterviewPrepTips. rewrite !length_app.
  destruct (existsb _ skills_); destruct (existsb _ skills_); simpl; lia.
Qed.

(** What the loop of [identifyFocusAreas] pushes for one category. *)
Lemma focus_entry (questions : list InterviewQuestion) (c a : string) :
  In a (let categoryQuestions :=
          filter (fun q => String.eqb (category q) c) questions in
        let hardQuestions := filter isHard categoryQuestions in
        if (0 <? List.length hardQuestions)%nat then
          [ (c ++ ": Focus on advanced concepts - "
             ++ JS.toString (List.length hardQuestions)
             ++ " challenging questions identified")%string ]
        else []) ->
  exists n,
    (0 < n)%nat
    /\ a = (c ++ ": Focus on advanced concepts - " ++ JS.toString n
            ++ " challenging questions identified")%string
    /\ existsb isHard questions = true.
Proof.
  cbv zeta.
  destruct (Nat.ltb_spec 0
              (List.length
                 (filter isHard
                    (filter (fun q => String.eqb (category q) c) questions))))
    as [Hpos | Hzero]; [|intros []].
  intros [<- | []]. eexists. split; [exact Hpos | split; [reflexivity|]].
  destruct (filter isHard _) as [|q hard] eqn:E; [simpl in Hpos; lia|].
  assert (Hq : In q (filter isHard
                       (filter (fun q => String.eqb (category q) c)
                          questions))) by (rewrite E; simpl; auto).
  apply filter_In in Hq as [Hq Hhard]. apply filter_In in Hq as [Hq _].
  apply existsb_exists. now exists q.
Qed.

Lemma flat_map_length_le {A B : Type} (f : A -> list B) (l : list A) :
  (forall a, List.length (f a) <= 1)%nat ->
  (List.length (flat_map f l) <= List.length l)%nat.
Proof.
  intros Hf. induction l as [|a l IH]; simpl; [lia|].
  rewrite length_app. specialize (Hf a). lia.
Qed.

End PreparationFacts.

(** X19.  [identifyFocusAreas] never answers an empty list.  Without a
    hard question it answers the three general areas; with one, it answers
    at most one area per category of the questions, each naming a category
    and a positive number of challenging questions, and never the general
    areas. *)
Theorem identifyFocusAreas_shape
        (questions : list InterviewQuestions.InterviewQuestion) :
  let areas := SkillsService.identifyFocusAreas questions in
  let general :=
    [ "General Technical Knowledge"; "Problem Solving";
      "System Design Basics" ] in
  (1 <= List.length areas)%nat
  /\ (existsb SkillsService.isHard questions = false -> areas = general)
  /\ (existsb SkillsService.isHard questions = true ->
      (List.length areas
       <= List.length (JS.uniq (map InterviewQuestions.category questions)))%nat
      /\ Forall
           (fun area =>
              ~ In area general
              /\ exists c n,
                  In c (map InterviewQuestions.category questions)
                  /\ (0 < n)%nat
                  /\ area
                     = (c ++ ": Focus on advanced concepts - "
                        ++ JS.toString n
                        ++ " challenging questions identified")%string)
           areas).
Proof.
  intros areas general. subst areas.
  unfold SkillsService.identifyFocusAreas. cbv zeta.
  set (entry := fun c : string => if (0 <? _)%nat then _ else []).
  assert (Hentry : forall c a, In a (entry c) ->
            exists n, (0 < n)%nat
              /\ a = (c ++ ": Focus on advanced concepts - " ++ JS.toString n
                      ++ " challenging questions identified")%string
              /\ existsb SkillsService.isHard questions = true).
  { intros c a Ha. now apply (PreparationFacts.focus_entry questions c a). }
  assert (Hone : forall c, (List.length (entry c) <= 1)%nat).
  { intros c. subst entry. cbv beta.
    apply ResumePieces.optional_length. }
  set (categories := JS.uniq (map InterviewQuestions.category questions)).
  assert (Hhard : forall c,
            In c categories ->
            existsb (fun q => SkillsService.isHard q
                              && String.eqb (InterviewQuestions.category q) c)
              questions = true ->
            entry c <> []).
  { intros c _ Hc. subst entry. cbv beta.
    apply existsb_exists in Hc as (q & Hq & Hqc).
    apply andb_true_iff in Hqc as [Hh Hcat].
    assert (Hin : In q (filter SkillsService.isHard
                          (filter (fun q => String.eqb
                                              (InterviewQuestions.category q) c)
                             questions))).
    { apply filter_In. split; [|assumption]. apply filter_In. now split. }
    destruct (filter SkillsService.isHard _) as [|q' hard]; [destruct Hin|].
    simpl. discriminate. }
  clearbody entry.
  destruct (flat_map entry categories) as [|a areas] eqn:E.
  - cbn [List.length Nat.ltb Nat.leb]. split; [simpl; lia|].
    split; [reflexivity|]. intros Hsome. exfalso.
    apply existsb_exists in Hsome as (q & Hq & Hh).
    assert (Hc : In (InterviewQuestions.category q) categories).
    { apply (proj2 (JSFacts.uniq_In _ _)). now apply in_map. }
    apply (Hhard _ Hc).
    + apply existsb_exists. exists q. split; [assumption|].
      now rewrite Hh, String.eqb_refl.
    + destruct (entry (InterviewQuestions.category q)) as [|b bs] eqn:Eb;
        [reflexivity|].
      assert (Hb : In b (flat_map entry categories)).
      { apply in_flat_map. exists (InterviewQuestions.category q).
        split; [assumption|]. rewrite Eb. simpl. auto. }
      rewrite E in Hb. destruct Hb.
  - cbn [List.length Nat.ltb Nat.leb]. split; [simpl; lia|].
    assert (Hall : forall b, In b (a :: areas) ->
              exists c n,
                In c (map InterviewQuestions.category questions)
                /\ (0 < n)%nat
                /\ b = (c ++ ": Focus on advanced concepts - "
                        ++ JS.toString n
                        ++ " challenging questions identified")%string
                /\ existsb SkillsService.isHard questions = true).
    { intros b Hb. rewrite <- E in Hb.
      apply in_flat_map in Hb as (c & Hc & Hb).
      apply Hentry in Hb as (n & Hn & Hb & Hsome).
      exists c, n. repeat split; try assumption.
      exact (proj1 (JSFacts.uniq_In _ _) Hc). }
    split.
    + intros Hnone. destruct (Hall a) as (_ & _ & _ & _ & _ & Hsome);
        [simpl; auto | congruence].
    + intros _. split.
      * pose proof (PreparationFacts.flat_map_length_le entry categories
                      Hone) as Hlen.
        rewrite E in Hlen. exact Hlen.
      * apply Forall_forall. intros b Hb.
        destruct (Hall b Hb) as (c & n & Hc & Hn & -> & _).
        split; [|now exists c, n].
        intros Hgen.
        assert (Hlen : (String.length
                          (c ++ ": Focus on advanced concepts - "
                           ++ JS.toString n
                           ++ " challenging questions identified")%string
                        <= 27)%nat).
        { destruct Hgen as [<- | [<- | [<- | []]]]; simpl; lia. }
        rewrite !TextFacts.append_length in Hlen. simpl in Hlen. lia.
Qed.

(** X20.  [getInterviewPreparation] answers the skills of the text, at
    most 15 questions, all of the question bank, between 5 and 9 tips and
    at least one focus area; when no target role is given, no question
    comes twice. *)
Theorem getInterviewPreparation_shape `{Compromise}
        (skillsText : string) (targetRole : option string) :
  let preparation :=
    SkillsService.getInterviewPreparation skillsText targetRole in
  SkillsService.prep_skills preparation
  = NlpService.extractSkills skillsText
  /\ (List.length (SkillsService.questions preparation) <= 15)%nat
  /\ incl (SkillsService.questions preparation)
       InterviewQuestions.INTERVIEW_QUESTIONS
  /\ (targetRole = None ->
      NoDup (map InterviewQuestions.question
               (SkillsService.questions preparation)))
  /\ (5 <= List.length (SkillsService.prepTips preparation) <= 9)%nat
  /\ SkillsService.focusAreas preparation <> [].
Proof.
  intros preparation. subst preparation.
  unfold SkillsService.getInterviewPreparation.
  cbn [SkillsService.prep_skills SkillsService.questions
       SkillsService.prepTips SkillsService.focusAreas].
  generalize (NlpService.extractSkills skillsText). intros skills_.
  split; [reflexivity|].
  split; [apply JSFacts.slice0_length|].
  split; [|split; [|split]].
  - intros q Hq. apply JSFacts.slice0_In in Hq.
    apply QuestionFacts.diversifyQuestions_In in Hq.
    destruct targetRole as [role|];
      [destruct (0 <? String.length role)%nat|];
      try (now apply PreparationFacts.getQuestionsBySkills_bank in Hq).
    apply in_app_or in Hq as [Hq | Hq].
    + now apply PreparationFacts.getQuestionsBySkills_bank in Hq.
    + now apply PreparationFacts.getRoleSpecificQuestions_bank in Hq.
  - intros ->. rewrite PreparationFacts.slice0_map.
    apply JSFacts.slice0_NoDup.
    apply PreparationFacts.diversifyQuestions_NoDup.
    unfold InterviewQuestions.getQuestionsBySkills.
    apply ResumePieces.NoDup_map_filter.
    apply PreparationFacts.bank_texts_NoDup.
  - apply PreparationFacts.getInterviewPrepTips_length.
  - intros Hnone.
    match type of Hnone with
    | SkillsService.identifyFocusAreas ?qs = [] =>
        unfold SkillsService.identifyFocusAreas in Hnone;
        cbv zeta in Hnone
    end.
    destruct (flat_map _ _) as [|a areas]; simpl in Hnone; discriminate.
Qed.

(** X21.  The lookups of the skills database ignore case.  A skill that
    [findSkillCategory] places in a category is, case ignored, one of the
    skills [getSkillsByCategory] lists for that category; a skill it does
    not place matches no skill of [getAllSkills]. *)
Theorem skill_lookups_agree (skill name : string) :
  SkillsDatabase.findSkillCategory (JS.toLowerCase skill)
  = SkillsDatabase.findSkillCategory skill
  /\ SkillsDatabase.getSkillsByCategory (JS.toLowerCase name)
     = SkillsDatabase.getSkillsByCategory name
  /\ match SkillsDatabase.findSkillCategory skill with
     | Some category =>
         exists s,
           In s (SkillsDatabase.getSkillsByCategory category)
           /\ JS.toLowerCase s = JS.toLowerCase skill
     | None =>
         forall s, In s SkillsDatabase.getAllSkills ->
                   JS.toLowerCase s <> JS.toLowerCase skill
     end.
Proof.
  split; [|split].
  - unfold SkillsDatabase.findSkillCategory, SkillsDatabase.holdsSkill.
    now rewrite TextFacts.toLowerCase_idem.
  - unfold SkillsDatabase.getSkillsByCategory.
    now rewrite TextFacts.toLowerCase_idem.
  - unfold SkillsDatabase.findSkillCategory.
    destruct (find (SkillsDatabase.holdsSkill skill)
                SkillsDatabase.SKILLS_DATABASE) as [db|] eqn:E.
    + apply find_some in E as [Hdb Hholds].
      unfold SkillsDatabase.holdsSkill in Hholds.
      apply existsb_exists in Hholds as (s & Hs & Heq).
      apply String.eqb_eq in Heq. exists s. split; [|assumption].
      assert (Hsame : SkillsDatabase.getSkillsByCategory
                        (SkillsDatabase.category db)
                      = SkillsDatabase.skills db).
      { clear Hs. unfold SkillsDatabase.SKILLS_DATABASE in Hdb.
        simpl in Hdb.
        repeat (destruct Hdb as [<- | Hdb]; [vm_compute; reflexivity|]).
        destruct Hdb. }
      now rewrite Hsame.
    + intros s Hs Heq. unfold SkillsDatabase.getAllSkills in Hs.
      apply in_flat_map in Hs as (db & Hdb & Hs).
      pose proof (find_none _ _ E db Hdb) as Hnot.
      unfold SkillsDatabase.holdsSkill in Hnot.
      assert (existsb
                (fun s0 => (JS.toLowerCase s0 =? JS.toLowerCase skill)%string)
                (SkillsDatabase.skills db) = true); [|congruence].
      apply existsb_exists. exists s. split; [assumption|].
      now apply String.eqb_eq.
Qed.

(** X22.  [getQuestionsBySkills] picks each question of the bank at most
    once; it picks none for no skill, more for more skills, and, since
    every text includes the empty text, the whole bank as soon as one
    skill is the empty text. *)
Theorem getQuestionsBySkills_grows (skills : list string) :
  InterviewQuestions.getQuestionsBySkills [] = []
  /\ NoDup (map InterviewQuestions.question
              (InterviewQuestions.getQuestionsBySkills skills))
  /\ (forall more,
        incl skills more ->
        incl (InterviewQuestions.getQuestionsBySkills skills)
          (InterviewQuestions.getQuestionsBySkills more))
  /\ (In "" skills ->
      InterviewQuestions.getQuestionsBySkills skills
      = InterviewQuestions.INTERVIEW_QUESTIONS).
Proof.
  split; [vm_compute; reflexivity|].
  split; [|split].
  - unfold InterviewQuestions.getQuestionsBySkills.
    apply ResumePieces.NoDup_map_filter.
    apply PreparationFacts.bank_texts_NoDup.
  - intros more Hmore q.
    unfold InterviewQuestions.getQuestionsBySkills.
    generalize InterviewQuestions.INTERVIEW_QUESTIONS. intros bank Hq.
    apply filter_In in Hq as [Hq Hsome]. apply filter_In.
    split; [assumption|].
    apply existsb_exists in Hsome as (skill & Hskill & Hsome).
    apply existsb_exists in Hsome as (s & Hs & Hmatch).
    apply existsb_exists. exists skill. split; [assumption|].
    apply existsb_exists. exists s. split; [now apply Hmore | assumption].
  - intros Hempty. unfold InterviewQuestions.getQuestionsBySkills.
    apply JobPieces.filter_all. apply forallb_forall. intros q Hq.
    assert (Hskills : forallb
                        (fun q => (0 <? List.length
                                          (InterviewQuestions.skills q))%nat)
                        InterviewQuestions.INTERVIEW_QUESTIONS = true)
      by (vm_compute; reflexivity).
    rewrite forallb_forall in Hskills. specialize (Hskills q Hq).
    destruct (InterviewQuestions.skills q) as [|skill rest];
      [discriminate|].
    apply existsb_exists. exists skill. split; [simpl; auto|].
    apply existsb_exists. exists "". split; [assumption|].
    apply orb_true_iff. right. apply JSFacts.includes_spec.
    exists "", (JS.toLowerCase skill). reflexivity.
Qed.

(* ================================================================== *)
(** * The text endpoints *)
(* ================================================================== *)

Module ControllerFacts.

Import Controllers.

(** For a text that is present, [!text] adds nothing to the length
    check. *)
Lemma tooShort_trimmed (min : nat) (text : string) :
  (0 < min)%nat ->
  tooShort min text = (String.length (JS.trim text) <? min)%nat.
Proof.
  intros Hmin. unfold tooShort. destruct text as [|c text].
  - change (String.length (JS.trim "")) with 0%nat.
    destruct (Nat.ltb_spec 0 min); [reflexivity | lia].
  - reflexivity.
Qed.

Section WithPackages.
Context `{Natural} `{Compromise}.

Lemma analyzeResume_answers (svc : NlpService.t) (text : string) :
  exists analysis,
    ResumeService.analyzeResume svc text
    = (Ok analysis,
       NlpService.mk (NlpService.tfidf svc
                      ++ [buildDocument (JS.toLowerCase text)])).
Proof.
  unfold ResumeService.analyzeResume.
  assert (Hkw : snd (NlpService.extractKeywords svc text 15)
                = NlpService.mk (NlpService.tfidf svc
                                 ++ [buildDocument (JS.toLowerCase text)]))
    by reflexivity.
  revert Hkw.
  generalize (ResumeService.analyzeSections text)
    (ResumeService.analyzeSkills text) (ResumeService.analyzeExperience text)
    (ResumeService.analyzeSentiment text).
  intros sections skills experience sentiment.
  destruct (NlpService.extractKeywords svc text 15) as [kw svc0].
  cbn [snd]. intros ->. eexists. reflexivity.
Qed.

Lemma analyzeJobDescription_answers (svc : NlpService.t) (text : string) :
  exists analysis,
    JobDescriptionService.analyzeJobDescription svc text
    = (Ok analysis,
       NlpService.mk (NlpService.tfidf svc
                      ++ [buildDocument (JS.toLowerCase text)])).
Proof.
  unfold JobDescriptionService.analyzeJobDescription.
  destruct (TotalityFacts.extractRole_Ok text) as (role & ->).
  assert (Hkw : snd (NlpService.extractKeywords svc text 20)
                = NlpService.mk (NlpService.tfidf svc
                                 ++ [buildDocument (JS.toLowerCase text)]))
    by reflexivity.
  revert Hkw.
  generalize (JobDescriptionService.extractSkills text)
    (JobDescriptionService.extractExperienceLevel text)
    (JobDescriptionService.extractResponsibilities text)
    (JobDescriptionService.extractQualifications text).
  intros skills level responsibilities qualifications.
  destruct (NlpService.extractKeywords svc text 20) as [kw svc0].
  cbn [snd]. intros ->. eexists. reflexivity.
Qed.

Lemma compareResumeWithJob_answers (svc : NlpService.t)
      (resume job : string) :
  exists comparison,
    JobDescriptionService.compareResumeWithJob svc resume job
    = (Ok comparison,
       NlpService.mk (NlpService.tfidf svc
                      ++ [buildDocument (JS.toLowerCase job)])).
Proof.
  unfold JobDescriptionService.compareResumeWithJob.
  destruct (analyzeJobDescription_answers svc job) as (analysis & ->).
  generalize (NlpService.extractSkills resume). intros resumeSkills.
  eexists. reflexivity.
Qed.

End WithPackages.

End ControllerFacts.

(** X23.  Each text endpoint accepts a request exactly when its text is
    present and, once trimmed, at least 50 code units long (10 for the two
    skills endpoints).  A rejected request leaves the service as it was; an
    accepted one is answered with success, never with an uncaught error,
    and adds one document to the accumulator.  The comparison checks the
    resume before the job. *)
Theorem endpoints_validate_text `{Natural} `{Compromise}
        (svc : NlpService.t) (text other targetRole : option string) :
  let long := fun (min : nat) (field : option string) =>
    match field with
    | Some s => (min <=? String.length (JS.trim s))%nat
    | None => false
    end in
  let grown := fun field : option string =>
    match field with
    | Some s =>
        NlpService.mk (NlpService.tfidf svc
                       ++ [buildDocument (JS.toLowerCase s)])
    | None => svc
    end in
  (if long 50 text
   then exists analysis,
       Controllers.analyzeResumeText svc text
       = (Controllers.Success analysis "Resume analyzed successfully",
          grown text)
   else Controllers.analyzeResumeText svc text
        = (Controllers.BadRequest
             "Resume text is too short. Please provide at least 50 characters.",
           svc))
  /\ (if long 50 text
      then exists analysis,
          Controllers.analyzeJob svc text
          = (Controllers.Success analysis
               "Job description analyzed successfully",
             grown text)
      else Controllers.analyzeJob svc text
           = (Controllers.BadRequest
                "Job description is too short. Please provide at least 50 characters.",
              svc))
  /\ (if long 50 text
      then if long 50 other
           then exists comparison,
               Controllers.compareResumeWithJob svc text other
               = (Controllers.Success comparison
                    "Resume and job description compared successfully",
                  grown other)
           else Controllers.compareResumeWithJob svc text other
                = (Controllers.BadRequest "Job description is too short", svc)
      else Controllers.compareResumeWithJob svc text other
           = (Controllers.BadRequest "Resume text is too short", svc))
  /\ (if long 10 text
      then exists answer,
          Controllers.getRecommendations text targetRole
          = Controllers.Success answer
              "Skill recommendations generated successfully"
      else Controllers.getRecommendations text targetRole
           = Controllers.BadRequest
               "Please provide your current skills (at least 10 characters)")
  /\ (if long 10 text
      then exists answer,
          Controllers.getInterviewPrep text targetRole
          = Controllers.Success answer
              "Interview preparation generated successfully"
      else Controllers.getInterviewPrep text targetRole
           = Controllers.BadRequest
               "Please provide your skills for interview preparation").
Proof.
  intros long grown.
  assert (Hshort : forall min s, (0 < min)%nat ->
            Controllers.tooShort min s
            = negb (min <=? String.length (JS.trim s))%nat).
  { intros min s Hmin. rewrite ControllerFacts.tooShort_trimmed by assumption.
    destruct (Nat.ltb_spec (String.length (JS.trim s)) min);
      destruct (Nat.leb_spec min (String.length (JS.trim s)));
      try reflexivity; lia. }
  unfold Controllers.analyzeResumeText, Controllers.analyzeJob,
    Controllers.compareResumeWithJob, Controllers.getRecommendations,
    Controllers.getInterviewPrep.
  subst long grown.
  destruct text as [s|]; cbv beta iota; [|repeat split; reflexivity].
  rewrite !(Hshort 50 s) by lia. rewrite !(Hshort 10 s) by lia.
  split; [|split; [|split; [|split]]].
  - destruct (50 <=? String.length (JS.trim s))%nat; cbn [negb];
      [|reflexivity].
    destruct (ControllerFacts.analyzeResume_answers svc s) as (a & ->).
    now exists a.
  - destruct (50 <=? String.length (JS.trim s))%nat; cbn [negb];
      [|reflexivity].
    destruct (ControllerFacts.analyzeJobDescription_answers svc s)
      as (a & ->).
    now exists a.
  - destruct (50 <=? String.length (JS.trim s))%nat; cbn [negb];
      [|reflexivity].
    destruct other as [job|]; cbv beta iota; [|reflexivity].
    rewrite (Hshort 50 job) by lia.
    destruct (50 <=? String.length (JS.trim job))%nat; cbn [negb];
      [|reflexivity].
    destruct (ControllerFacts.compareResumeWithJob_answers svc s job)
      as (a & ->).
    now exists a.
  - destruct (10 <=? String.length (JS.trim s))%nat; cbn [negb];
      [|reflexivity].
    eexists. reflexivity.
  - destruct (10 <=? String.length (JS.trim s))%nat; cbn [negb];
      [|reflexivity].
    eexists. reflexivity.
Qed.

(* ================================================================== *)
(** * The skills of a resume *)
(* ================================================================== *)

Module SkillsetFacts.

Import ResumeService.

(** The keys of a list built by pushing at most one entry per element. *)
Lemma keys_of_optional_entries {A K V : Type} (p : A -> bool) (k : A -> K)
      (v : A -> V) (l : list A) :
  map fst (flat_map (fun a => if p a then [(k a, v a)] else []) l)
  = map k (filter p l).
Proof.
  induction l as [|a l IH]; simpl; [reflexivity|].
  destruct (p a); simpl; now rewrite IH.
Qed.

Lemma category_names_NoDup :
  NoDup (map SkillsDatabase.category SkillsDatabase.SKILLS_DATABASE).
Proof. apply QuestionFacts.uniq_fixed_NoDup. vm_compute. reflexivity. Qed.

Lemma categorize_keys (foundSkills : list string) :
  NoDup (map fst (categorize foundSkills)).
Proof.
  unfold categorize. cbv zeta.
  rewrite (keys_of_optional_entries
             (fun category =>
                (0 <? List.length
                        (filter
                           (fun skill =>
                              existsb
                                (fun s => String.eqb (JS.toLowerCase s)
                                            (JS.toLowerCase skill))
                                (SkillsDatabase.skills category))
                           foundSkills))%nat)
             SkillsDatabase.category).
  apply ResumePieces.NoDup_map_filter. apply category_names_NoDup.
Qed.

Lemma categorize_In (foundSkills : list string)
      (entry : string * list string) :
  In entry (categorize foundSkills) ->
  exists db,
    In db SkillsDatabase.SKILLS_DATABASE
    /\ fst entry = SkillsDatabase.category db
    /\ snd entry <> []
    /\ snd entry
       = filter (fun skill => SkillsDatabase.holdsSkill skill db) foundSkills.
Proof.
  unfold categorize. intros Hentry.
  apply in_flat_map in Hentry as (db & Hdb & Hentry). cbv zeta in Hentry.
  exists db. split; [assumption|].
  destruct (filter _ foundSkills) as [|s l] eqn:E;
    cbn [List.length Nat.ltb Nat.leb] in Hentry; [destruct Hentry|].
  destruct Hentry as [<- | []]. cbn [fst snd].
  split; [reflexivity | split; [discriminate|]].
  reflexivity.
Qed.

(** What [suggest] can push, and under which condition. *)
Lemma suggest_In (foundSkills : list string) (x : string) :
  In x (suggest foundSkills) ->
  (x = "TypeScript"
   /\ existsb (lowerIncludes "typescript") foundSkills = false)
  \/ x = "Jest or Cypress (Testing)"
  \/ x = "Database skills (MongoDB/PostgreSQL)"
  \/ (x = "Docker (Containerization)"
      /\ existsb (lowerIncludes "docker") foundSkills = false)
  \/ (x = "Add more technical skills relevant to your target role"
      /\ (List.length foundSkills < 5)%nat)
  \/ (x = "Git (Version Control) - Essential for developers"
      /\ existsb (lowerIncludes "git") foundSkills = false).
Proof.
  unfold suggest. rewrite !in_app_iff.
  intros [Hx | [Hx | [Hx | Hx]]].
  - destruct (existsb (lowerIn _) foundSkills); [|destruct Hx].
    apply in_app_or in Hx as [Hx | Hx].
    + destruct (existsb (lowerIncludes "typescript") foundSkills);
        cbn [negb] in Hx; [destruct Hx|].
      destruct Hx as [<- | []]. auto 10.
    + destruct (existsb (lowerIncludes "testing") foundSkills);
        cbn [negb] in Hx; [destruct Hx|].
      destruct Hx as [<- | []]. auto 10.
  - destruct (existsb (lowerIn ["nodejs"; "python"; "java"]) foundSkills);
      [|destruct Hx].
    apply in_app_or in Hx as [Hx | Hx].
    + destruct (existsb (lowerIn _) foundSkills);
        cbn [negb] in Hx; [destruct Hx|].
      destruct Hx as [<- | []]. auto 10.
    + destruct (existsb (lowerIncludes "docker") foundSkills);
        cbn [negb] in Hx; [destruct Hx|].
      destruct Hx as [<- | []]. auto 10.
  - destruct (Nat.ltb_spec (List.length foundSkills) 5); [|destruct Hx].
    destruct Hx as [<- | []]. auto 10.
  - destruct (existsb (lowerIncludes "git") foundSkills);
      cbn [negb] in Hx; [destruct Hx|].
    destruct Hx as [<- | []]. auto 10.
Qed.

Lemma suggest_NoDup (foundSkills : list string) :
  NoDup (suggest foundSkills)
  /\ (List.length (suggest foundSkills) <= 6)%nat.
Proof.
  unfold suggest.
  destruct (existsb (lowerIn ["react"; "angular"; "vue"]) foundSkills);
    [destruct (existsb (lowerIncludes "typescript") foundSkills);
     destruct (existsb (lowerIncludes "testing") foundSkills)|];
    (destruct (existsb (lowerIn ["nodejs"; "python"; "java"]) foundSkills);
     [destruct (existsb (lowerIn ["mongodb"; "postgresql"; "mysql"])
                  foundSkills);
      destruct (existsb (lowerIncludes "docker") foundSkills)|]);
    destruct (List.length foundSkills <? 5)%nat;
    destruct (existsb (lowerIncludes "git") foundSkills);
    cbn [negb app List.length];
    (split; [apply QuestionFacts.uniq_fixed_NoDup; vm_compute; reflexivity
            | lia]).
Qed.

(** A found skill that includes a word rules out the suggestion guarded
    by that word. *)
Lemma mentioned_rules_out (foundSkills : list string) (word : string) :
  In word foundSkills -> JS.toLowerCase word = word ->
  existsb (lowerIncludes word) foundSkills = true.
Proof.
  intros Hin Hlow. apply existsb_exists. exists word.
  split; [assumption|]. unfold lowerIncludes. rewrite Hlow.
  apply TextFacts.includes_refl.
Qed.

End SkillsetFacts.

(** X24.  In [analyzeSkills] the categories are categories of the skills
    database, none twice; each holds at least one skill, and exactly the
    found skills that the category lists, case ignored.  At most six
    suggestions are made, none twice; and TypeScript, Docker and Git are
    not suggested to a resume whose text mentions them. *)
Theorem analyzeSkills_shape `{Compromise} (resumeText : string) :
  let skills := ResumeService.analyzeSkills resumeText in
  let lowerText := JS.toLowerCase resumeText in
  ResumeService.skills_found skills = NlpService.extractSkills resumeText
  /\ NoDup (map fst (ResumeService.byCategory skills))
  /\ Forall
       (fun entry =>
          snd entry <> []
          /\ exists db,
              In db SkillsDatabase.SKILLS_DATABASE
              /\ fst entry = SkillsDatabase.category db
              /\ snd entry
                 = filter (fun skill => SkillsDatabase.holdsSkill skill db)
                     (ResumeService.skills_found skills))
       (ResumeService.byCategory skills)
  /\ (List.length (ResumeService.suggested skills) <= 6)%nat
  /\ NoDup (ResumeService.suggested skills)
  /\ (JS.includes lowerText "typescript" = true ->
      ~ In "TypeScript" (ResumeService.suggested skills))
  /\ (JS.includes lowerText "docker" = true ->
      ~ In "Docker (Containerization)" (ResumeService.suggested skills))
  /\ (JS.includes lowerText "git" = true ->
      ~ In "Git (Version Control) - Essential for developers"
           (ResumeService.suggested skills)).
Proof.
  intros skills lowerText. subst skills lowerText.
  unfold ResumeService.analyzeSkills.
  cbn [ResumeService.skills_found ResumeService.byCategory
       ResumeService.suggested].
  assert (Hlex : forall word,
            In word NlpService.allSkills ->
            JS.includes (JS.toLowerCase resumeText) word = true ->
            In word (NlpService.extractSkills resumeText)).
  { intros word Hword Hinc.
    now apply (JobFacts.lexicon_skill_occurs resumeText word). }
  revert Hlex. generalize (NlpService.extractSkills resumeText).
  intros foundSkills Hlex.
  split; [reflexivity|].
  split; [apply SkillsetFacts.categorize_keys|].
  split.
  { apply Forall_forall. intros entry Hentry.
    apply SkillsetFacts.categorize_In in Hentry
      as (db & Hdb & Hkey & Hsome & Hlist).
    split; [assumption|]. now exists db. }
  destruct (SkillsetFacts.suggest_NoDup foundSkills) as [Hnd Hlen].
  split; [assumption|]. split; [assumption|].
  split; [|split].
  - intros Hinc Hin.
    apply SkillsetFacts.suggest_In in Hin
      as [(_ & Hno) | [Hx | [Hx | [(Hx & _) | [(Hx & _) | (Hx & _)]]]]];
      try discriminate.
    rewrite (SkillsetFacts.mentioned_rules_out foundSkills "typescript")
      in Hno; [discriminate | | reflexivity].
    apply Hlex; [|assumption]. unfold NlpService.allSkills. simpl. tauto.
  - intros Hinc Hin.
    apply SkillsetFacts.suggest_In in Hin
      as [(Hx & _) | [Hx | [Hx | [(_ & Hno) | [(Hx & _) | (Hx & _)]]]]];
      try discriminate.
    rewrite (SkillsetFacts.mentioned_rules_out foundSkills "docker")
      in Hno; [discriminate | | reflexivity].
    apply Hlex; [|assumption]. unfold NlpService.allSkills. simpl. tauto.
  - intros Hinc Hin.
    apply SkillsetFacts.suggest_In in Hin
      as [(Hx & _) | [Hx | [Hx | [(Hx & _) | [(Hx & _) | (_ & Hno)]]]]];
      try discriminate.
    rewrite (SkillsetFacts.mentioned_rules_out foundSkills "git")
      in Hno; [discriminate | | reflexivity].
    apply Hlex; [|assumption]. unfold NlpService.allSkills. simpl. tauto.
Qed.
